(** * u2fval: the HTTP orchestration layer (u2fval/view.py)

    A shallow embedding of the request handlers of [u2fval/view.py] and the
    properties of the behavioural specification that concern them.

    Python objects that the handlers mutate (the SQLAlchemy session, the
    transaction store, the two caches, flask's [g]) are the fields of one
    [World] record that is threaded through a state-and-exception monad.
    Functions of third-party libraries (the U2F engine, the attestation
    resolver, hashing, the clock) are the fields of an [Env] record. *)

From stdpp Require Import gmap strings list fin_maps pretty.
From Stdlib Require Import ZArith.

Set Warnings "-register-all".
Set Default Proof Using "Type".

Open Scope Z_scope.

(** ** JSON values and Python dictionaries *)

Inductive jvalue : Type :=
  | JNull
  | JBool (b : bool)
  | JInt (z : Z)
  | JStr (s : string)
  | JList (l : list jvalue)
  | JDict (m : gmap string jvalue).

Abbreviation dict := (gmap string jvalue).

(** Python truth value of a JSON value ([if x:]). *)
Definition truthy (v : jvalue) : bool :=
  match v with
  | JNull => false
  | JBool b => b
  | JInt z => negb (z =? 0)
  | JStr s => negb (bool_decide (s = ""%string))
  | JList l => match l with [] => false | _ => true end
  | JDict m => match map_to_list m with [] => false | _ => true end
  end.

(** ** Exceptions (u2fval/exc.py and the Python built-ins that can escape) *)

Inductive exn : Type :=
  | BadInputException (message : string)
  | NotFoundException (message : string)
  | NoEligibleDevicesException (message : string) (descriptors : list dict)
  | KeyError (key : jvalue)
  | AttributeError (attr : string)
  | TypeError (what : string)
  | EngineError (message : string).

(** The error kinds of the taxonomy; anything else is an unhandled Python
    exception (an internal server error). *)
Inductive error_kind : Type := BadInput | NotFound | NoEligibleDevices | Unhandled.

Definition kind_of (e : exn) : error_kind :=
  match e with
  | BadInputException _ => BadInput
  | NotFoundException _ => NotFound
  | NoEligibleDevicesException _ _ => NoEligibleDevices
  | EngineError _ => BadInput
  | KeyError _ | AttributeError _ | TypeError _ => Unhandled
  end.

Inductive result (A : Type) : Type :=
  | Return (a : A)
  | Raise (e : exn).
Arguments Return {A} a.
Arguments Raise {A} e.

(** ** The persistent data model (u2fval/model.py, as the handlers use it) *)

Record Certificate : Type := {
  cert_id : Z;
  der : string
}.

Record Device : Type := {
  handle : string;
  bind_data : dict;
  certificate : Certificate;
  counter : option Z;
  compromised : bool;
  authenticated_at : option Z;
  properties : dict;
  transports : Z
}.

Record User : Type := {
  user_name : string;
  devices : gmap string Device
}.

Record Client : Type := {
  client_id : Z;
  client_name : string;
  app_id : string;
  valid_facets : list string
}.

(** The tables: clients, and users addressed by (client id, user name). *)
Record Database : Type := {
  clients : list Client;
  users : gmap (Z * string) User
}.

Definition set_users (us : gmap (Z * string) User) (db : Database) : Database :=
  {| clients := clients db; users := us |}.

Definition set_devices (ds : gmap string Device) (u : User) : User :=
  {| user_name := user_name u; devices := ds |}.

Definition set_counter (c : option Z) (d : Device) : Device :=
  {| handle := handle d; bind_data := bind_data d; certificate := certificate d;
     counter := c; compromised := compromised d;
     authenticated_at := authenticated_at d; properties := properties d;
     transports := transports d |}.

Definition set_authenticated_at (t : option Z) (d : Device) : Device :=
  {| handle := handle d; bind_data := bind_data d; certificate := certificate d;
     counter := counter d; compromised := compromised d;
     authenticated_at := t; properties := properties d;
     transports := transports d |}.

Definition set_properties (p : dict) (d : Device) : Device :=
  {| handle := handle d; bind_data := bind_data d; certificate := certificate d;
     counter := counter d; compromised := compromised d;
     authenticated_at := authenticated_at d; properties := p;
     transports := transports d |}.

(** ** Attestation results (u2flib_server.attestation) *)

Record Attestation : Type := {
  trusted : bool;
  vendor_info : jvalue;
  device_info : jvalue;
  att_transports : option (list Z)
}.

(** What [get_attestation] returns: an attestation object, or the empty
    string that is cached for a certificate the provider knows nothing of. *)
Inductive attestation_value : Type :=
  | AttEmptyString
  | AttObject (a : Attestation).

(** ** Protocol objects (u2fval/jsobjects.py, as the handlers use them) *)

Record ClientData : Type := {
  challenge : string;
  client_data_json : jvalue
}.

Record RegisterResponse : Type := {
  rr_clientData : ClientData;
  rr_raw : dict
}.

Record RegisterResponseData : Type := {
  registerResponse : RegisterResponse;
  rrd_properties : dict
}.

Record SignResponse : Type := {
  sr_clientData : ClientData;
  sr_raw : dict
}.

Record SignResponseData : Type := {
  signResponse : SignResponse;
  srd_properties : dict
}.

(** ** The request, the configuration and the outside world *)

Inductive http_method : Type := GET | POST | DELETE.

Record Request : Type := {
  method : http_method;
  (* request.environ.get('REMOTE_USER') *)
  remote_user : option string;
  (* request.authorization: None, or an object with a username *)
  authorization : option (option string);
  (* request.get_json(force=True): the body, or a 400 for a malformed one *)
  get_json : result jvalue
}.

Record Env : Type := {
  ALLOW_UNTRUSTED : bool;
  debug : bool;
  begin_registration : string -> list dict -> string -> result dict;
  complete_registration :
    dict -> RegisterResponse -> list string -> result (dict * string);
  begin_authentication : string -> list dict -> string -> result dict;
  complete_authentication :
    dict -> SignResponse -> list string -> result (dict * Z * Z);
  data_for_client : dict -> dict;
  RequestData_wrap : dict -> result dict;
  metadata_get_attestation : string -> option Attestation;
  sha256_hexdigest : string -> string;
  get_transports : Z -> jvalue;
  get_pem : string -> string;
  isoformat : Z -> string;
  datetime_now : Z;
  fresh_handle : string;
  fresh_cert_id : Z
}.

(** ** The mutable world *)

Record World : Type := {
  (* what db.session.commit() has written *)
  persisted : Database;
  (* the objects of the current SQLAlchemy session *)
  session : Database;
  (* the transaction store, keyed by (client id, user id, challenge) *)
  transactions : gmap (Z * string * string) dict;
  (* the cache, under the digest keys of get_attestation (what the backend
     may evict is not modelled: an entry stays) ... *)
  attestation_cache : gmap string attestation_value;
  (* ... and under the 'cert_metadata/%d' keys of get_metadata *)
  metadata_cache : gmap Z dict;
  (* flask's g.client *)
  g_client : option Client
}.

Definition set_persisted (db : Database) (w : World) : World :=
  {| persisted := db; session := session w; transactions := transactions w;
     attestation_cache := attestation_cache w;
     metadata_cache := metadata_cache w; g_client := g_client w |}.

Definition set_session (db : Database) (w : World) : World :=
  {| persisted := persisted w; session := db; transactions := transactions w;
     attestation_cache := attestation_cache w;
     metadata_cache := metadata_cache w; g_client := g_client w |}.

Definition set_transactions (t : gmap (Z * string * string) dict) (w : World)
  : World :=
  {| persisted := persisted w; session := session w; transactions := t;
     attestation_cache := attestation_cache w;
     metadata_cache := metadata_cache w; g_client := g_client w |}.

Definition set_attestation_cache (c : gmap string attestation_value)
  (w : World) : World :=
  {| persisted := persisted w; session := session w;
     transactions := transactions w; attestation_cache := c;
     metadata_cache := metadata_cache w; g_client := g_client w |}.

Definition set_metadata_cache (c : gmap Z dict) (w : World) : World :=
  {| persisted := persisted w; session := session w;
     transactions := transactions w;
     attestation_cache := attestation_cache w;
     metadata_cache := c; g_client := g_client w |}.

Definition set_g_client (c : option Client) (w : World) : World :=
  {| persisted := persisted w; session := session w;
     transactions := transactions w;
     attestation_cache := attestation_cache w;
     metadata_cache := metadata_cache w; g_client := c |}.

(** Two worlds that differ at most in the contents of the caches. *)
Definition same_tables (w w' : World) : Prop :=
  persisted w' = persisted w /\ session w' = session w
  /\ transactions w' = transactions w /\ g_client w' = g_client w.

(** ** The monad of handlers: state and exceptions *)

Definition M (A : Type) : Type := World -> result A * World.

Definition ret {A} (a : A) : M A := fun w => (Return a, w).

Definition raise {A} (e : exn) : M A := fun w => (Raise e, w).

Definition bind {A B} (m : M A) (k : A -> M B) : M B :=
  fun w =>
    match m w with
    | (Return a, w') => k a w'
    | (Raise e, w') => (Raise e, w')
    end.

Definition get_world : M World := fun w => (Return w, w).

Definition modify (f : World -> World) : M unit := fun w => (Return tt, f w).

Definition lift {A} (r : result A) : M A :=
  match r with
  | Return a => ret a
  | Raise e => raise e
  end.

Notation "'let!' x ':=' c 'in' k" := (bind c (fun x => k))
  (at level 10, x name, c at level 100, k at level 200, only parsing).

(** [d[key]] on a dictionary. *)
Definition getitem (d : dict) (key : string) : M jvalue :=
  match d !! key with
  | Some v => ret v
  | None => raise (KeyError (JStr key))
  end.

(** [for x in xs: ...] collecting one value per iteration. *)
Fixpoint for_each {A B} (f : A -> M B) (xs : list A) : M (list B) :=
  match xs with
  | [] => ret []
  | x :: xs' => let! y := f x in let! ys := for_each f xs' in ret (y :: ys)
  end.

(** db.session.commit() *)
Definition db_session_commit : M unit :=
  modify (fun w => set_persisted (session w) w).

(** ** Code of this repository outside view.py *)

(** Modelled from the spec: the transaction store [DBStore]
    (u2fval/transactiondb.py).  [store] persists the context under the
    composite key and overwrites a prior record; [retrieve] looks the record
    up and consumes it, and returns None when there is none.  A record whose
    time-to-live has elapsed is one that has left the map. *)
Definition store_store (cid : Z) (user_id chal : string) (data : dict) : M unit :=
  modify (fun w =>
    set_transactions (<[(cid, user_id, chal) := data]> (transactions w)) w).

Definition store_retrieve (cid : Z) (user_id chal : string) : M (option dict) :=
  fun w =>
    (Return (transactions w !! (cid, user_id, chal)),
     set_transactions (delete (cid, user_id, chal) (transactions w)) w).

(** Modelled from the spec: [Device.update_properties] (u2fval/model.py).
    It sets or overwrites the keys of the supplied map and retains the other
    keys; a value that is not a map has no items to merge. *)
Definition update_properties (props : jvalue) (dev : Device) : result Device :=
  match props with
  | JDict m => Return (set_properties (m ∪ properties dev) dev)
  | _ => Raise (AttributeError "items")
  end.

(** [user.devices[handle]]: the collection is a dictionary keyed by
    handle (the handlers also call [values()], [items()] and [len] on it),
    and its subscript raises KeyError for a handle that is not a key.  What
    it returns is a device, never None. *)
Definition devices_getitem (u : User) (h : string) : result Device :=
  match devices u !! h with
  | Some dev => Return dev
  | None => Raise (KeyError (JStr h))
  end.

(** ** The handle map of [_sign_request], a Python dictionary *)

(** A dictionary from key handles, which are the JSON values found in the
    bind data, to device handles: the list of its items in the order in
    which their keys were inserted. *)
Abbreviation pydict := (list (jvalue * string)).

(** Lists and dictionaries are not hashable and cannot be keys. *)
Definition hashable (v : jvalue) : bool :=
  match v with
  | JList _ | JDict _ => false
  | _ => true
  end.

(** [a == b] for two keys: values of the same kind are compared, and the
    booleans are the integers 1 and 0. *)
Definition key_eqb (a b : jvalue) : bool :=
  match a, b with
  | JNull, JNull => true
  | JStr s, JStr t => bool_decide (s = t)
  | JBool x, JBool y => bool_decide (x = y)
  | JInt x, JInt y => bool_decide (x = y)
  | JBool x, JInt y | JInt y, JBool x =>
      bool_decide (y = if x then 1 else 0)
  | _, _ => false
  end.

(** [m[k] = v] for a hashable key: the value under an equal key is replaced
    and the key that is there stays, else the item is added. *)
Fixpoint dict_set (k : jvalue) (v : string) (m : pydict) : pydict :=
  match m with
  | [] => [(k, v)]
  | (k', v') :: m' =>
      if key_eqb k' k then (k', v) :: m' else (k', v') :: dict_set k v m'
  end.

Definition dict_setitem (k : jvalue) (v : string) (m : pydict)
  : result pydict :=
  if hashable k then Return (dict_set k v m)
  else Raise (TypeError "unhashable type").

(** [m.get(k)] *)
Fixpoint dict_get (k : jvalue) (m : pydict) : option string :=
  match m with
  | [] => None
  | (k', v) :: m' => if key_eqb k' k then Some v else dict_get k m'
  end.

(** The name under which [json.dumps] writes a key of a dictionary: the
    names of a JSON object are strings. *)
Definition json_key (k : jvalue) : string :=
  match k with
  | JStr s => s
  | JBool true => "true"
  | JBool false => "false"
  | JNull => "null"
  | JInt z => pretty z
  | JList _ | JDict _ => ""  (* no key of a dictionary *)
  end.

(** The handle map as the stored record holds it.  The record is stored as
    its JSON text ([request_data.json]) and parsed when it is retrieved:
    the items are written in order, each under the name of its key, and of
    two items with the same name the parsed object keeps the later one. *)
Definition json_of_handle_map (m : pydict) : dict :=
  foldl (fun o kv => <[json_key kv.1 := JStr kv.2]> o) ∅ m.

Section View.

Context (env : Env) (request : Request).

(** Modelled from the spec: [Device.get_descriptor] (u2fval/model.py): the
    handle, the transport names decoded from the stored bitmask, the stored
    properties, the compromise and authentication indicators and, when a
    metadata result is supplied, its vendor and device labels. *)
Definition get_descriptor (dev : Device) (metadata : option dict) : dict :=
  let data : dict :=
    <["handle" := JStr (handle dev)]>
    (<["transports" := get_transports env (transports dev)]>
    (<["compromised" := JBool (compromised dev)]>
    (<["lastUsed" := match authenticated_at dev with
                     | Some t => JStr (isoformat env t)
                     | None => JNull
                     end]>
    (<["properties" := JDict (properties dev)]> ∅)))) in
  match metadata with
  | None => data
  | Some md =>
      let data := match md !! "vendor" with
                  | Some v => <["vendor" := v]> data
                  | None => data
                  end in
      match md !! "device" with
      | Some v => <["device" := v]> data
      | None => data
      end
  end.

(** Modelled from the spec: [User.add_device] (u2fval/model.py): a new
    Device under a server-generated handle, with its Certificate, the bind
    data and the transports bitmask; counter and last authentication are
    unset, the properties are empty. *)
Definition new_device (bind : dict) (cert : string) (tr : Z) : Device :=
  {| handle := fresh_handle env; bind_data := bind;
     certificate := {| cert_id := fresh_cert_id env; der := cert |};
     counter := None; compromised := false; authenticated_at := None;
     properties := ∅; transports := tr |}.

(** The session after the device object under handle [h] of user
    [(cid, user_id)] was added or mutated in place: the user's collection
    holds the object as it now is. *)
Definition db_put_device (cid : Z) (user_id h : string) (dev : Device)
  (db : Database) : Database :=
  set_users
    (alter (fun u => set_devices (<[h := dev]> (devices u)) u)
       (cid, user_id) (users db)) db.

Definition put_device (cid : Z) (user_id h : string) (dev : Device) : M unit :=
  modify (fun w => set_session (db_put_device cid user_id h dev (session w)) w).

(** db.session.delete(dev) *)
Definition db_session_delete_device (cid : Z) (user_id h : string) : M unit :=
  modify (fun w =>
    set_session
      (set_users
         (alter (fun u => set_devices (delete h (devices u)) u)
            (cid, user_id) (users (session w))) (session w)) w).

(** db.session.delete(user), cascading to the user's devices. *)
Definition db_session_delete_user (cid : Z) (user_id : string) : M unit :=
  modify (fun w =>
    set_session (set_users (delete (cid, user_id) (users (session w)))
                   (session w)) w).

(** ** view.py *)

Definition get_attestation (cert : string) : M attestation_value :=
  let key := sha256_hexdigest env cert in
  let! w := get_world in
  match attestation_cache w !! key with
  | Some attestation => ret attestation
  | None =>
      let attestation :=
        match metadata_get_attestation env cert with
        | Some a => AttObject a
        | None => AttEmptyString (* Cache "missing" *)
        end in
      let! _ := modify (fun w =>
        set_attestation_cache (<[key := attestation]> (attestation_cache w)) w) in
      ret attestation
  end.

Definition get_metadata (dev : Device) : M dict :=
  let key := cert_id (certificate dev) in
  let! w := get_world in
  match metadata_cache w !! key with
  | Some data => ret data
  | None =>
      let! attestation := get_attestation (der (certificate dev)) in
      let data : dict :=
        match attestation with
        | AttObject a =>
            let data : dict :=
              if truthy (vendor_info a)
              then <["vendor" := vendor_info a]> ∅ else ∅ in
            if truthy (device_info a)
            then <["device" := device_info a]> data else data
        | AttEmptyString => ∅
        end in
      let! _ := modify (fun w =>
        set_metadata_cache (<[key := data]> (metadata_cache w)) w) in
      ret data
  end.

(** The name of the calling client: REMOTE_USER, or in debug mode the user
    name of the basic-auth header. *)
Definition principal_name : option string :=
  match remote_user request with
  | Some name => Some name
  | None =>
      if debug env then
        match authorization request with
        | Some username => username
        | None => None
        end
      else None
  end.

(** Client.query.filter(Client.name == name).one() *)
Definition query_one (name : string) (cs : list Client) : option Client :=
  match filter (fun c => client_name c = name) cs with
  | [c] => Some c
  | _ => None
  end.

Definition get_client : M Client :=
  let! w := get_world in
  match g_client w with
  | Some client => ret client
  | None =>
      match principal_name with
      | None => raise (BadInputException "No client specified")
      | Some name =>
          match query_one name (clients (session w)) with
          | Some client =>
              let! _ := modify (set_g_client (Some client)) in
              ret client
          | None => raise (NotFoundException "Client not found")
          end
      end
  end.

Definition get_user (user_id : string) : M (option User) :=
  let! client := get_client in
  let! w := get_world in
  ret (users (session w) !! (client_id client, user_id)).

Inductive response : Type :=
  | NoContent              (* ('', 204) *)
  | Jsonify (j : jvalue)
  | Text (s : string).

(** [d.get_descriptor(get_metadata(d))] *)
Definition describe (d : Device) : M dict :=
  let! md := get_metadata d in
  ret (get_descriptor d (Some md)).

(** user.devices.values() and user.devices.items() *)
Definition devices_values (u : User) : list Device :=
  (map_to_list (devices u)).*2.

Definition user (user_id : string) : M response :=
  let! user := get_user user_id in
  (* user.client, the client that get_user resolved *)
  let! client := get_client in
  match method request with
  | DELETE =>
      let! _ :=
        match user with
        | Some _ =>
            let! _ := db_session_delete_user (client_id client) user_id in
            db_session_commit
        | None => ret tt
        end in
      ret NoContent
  | _ =>
      let! descriptors :=
        match user with
        | Some u => for_each describe (devices_values u)
        | None => ret []
        end in
      ret (Jsonify (JList (JDict <$> descriptors)))
  end.

Definition _get_registered_key (dev : Device) (descriptor : dict) : M dict :=
  let key := bind_data dev in
  (* Only keep appId if different from the "main" one. *)
  let! client := get_client in
  let key :=
    match key !! "appId" with
    | Some (JStr a) =>
        if bool_decide (a = app_id client) then delete "appId" key else key
    | _ => key
    end in
  (* The 'version' field used to be missing in RegisteredKey. *)
  let key :=
    match key !! "version" with
    | Some _ => key
    | None => <["version" := JStr "U2F_V2"]> key
    end in
  (* Use transports from descriptor (which includes metadata) *)
  let! t := getitem descriptor "transports" in
  ret (<["transports" := t]> key).

Definition device (user_id h : string) : M response :=
  let! user := get_user user_id in
  match user with
  | None => raise (NotFoundException "Device not found")
  | Some u =>
      (* user.client, the client that get_user resolved *)
      let! client := get_client in
      let! dev := lift (devices_getitem u h) in
      (* [dev] is a device: the tests [dev is not None] and [dev is None]
         of the three branches are decided, and the two
         raise NotFoundException('Device not found') under them are not
         reached *)
      match method request with
      | DELETE =>
          let! _ := db_session_delete_device (client_id client) user_id h in
          let! _ := db_session_commit in
          ret NoContent
      | POST =>
          let! body := lift (get_json request) in
          let! dev := lift (update_properties body dev) in
          let! _ := put_device (client_id client) user_id h dev in
          let! _ := db_session_commit in
          let! desc := describe dev in
          ret (Jsonify (JDict desc))
      | GET =>
          let! desc := describe dev in
          ret (Jsonify (JDict desc))
      end
  end.

Definition device_certificate (user_id h : string) : M response :=
  let! user := get_user user_id in
  match user with
  | None => raise (NotFoundException "Device not found")
  | Some u =>
      let! dev := lift (devices_getitem u h) in
      ret (Text (get_pem env (der (certificate dev))))
  end.

(** The descriptor and the registered key of one device, as both begin
    handlers compute them in their loops. *)
Definition descriptor_and_key (dev : Device) : M (dict * dict) :=
  let! descriptor := describe dev in
  let! key := _get_registered_key dev descriptor in
  ret (descriptor, key).

Definition _register_request (user_id chal : string) (props : jvalue)
  : M dict :=
  let! client := get_client in
  let! user := get_user user_id in
  let! collected :=
    match user with
    | Some u => for_each descriptor_and_key (devices_values u)
    | None => ret []
    end in
  let descriptors := collected.*1 in
  let registered_keys := collected.*2 in
  let! request_data :=
    lift (begin_registration env (app_id client) registered_keys chal) in
  let request_data := <["properties" := props]> request_data in
  let! _ := store_store (client_id client) user_id chal request_data in
  let! data := lift (RequestData_wrap env (data_for_client env request_data)) in
  ret (<["descriptors" := JList (JDict <$> descriptors)]> data).

(** sum(t.value for t in attestation.transports or []) *)
Definition transports_sum (a : Attestation) : Z :=
  foldr Z.add 0 (default [] (att_transports a)).

Definition _register_response (user_id : string)
  (response_data : RegisterResponseData) : M dict :=
  let! client := get_client in
  let! user := get_user user_id in
  let register_response := registerResponse response_data in
  let chal := challenge (rr_clientData register_response) in
  let! request_data := store_retrieve (client_id client) user_id chal in
  match request_data with
  | None => raise (NotFoundException "Transaction not found")
  | Some request_data =>
      let! completed :=
        lift (complete_registration env request_data register_response
                (valid_facets client)) in
      let registration := completed.1 in
      let cert := completed.2 in
      let! attestation := get_attestation cert in
      let! _ :=
        if ALLOW_UNTRUSTED env then ret tt
        else match attestation with
             | AttObject a =>
                 if trusted a then ret tt
                 else raise (BadInputException
                               "Device attestation not trusted")
             | AttEmptyString => raise (AttributeError "trusted")
             end in
      let! _ :=
        match user with
        | None =>
            (* user = User(user_id); client.users.append(user) *)
            modify (fun w =>
              set_session
                (set_users
                   (<[(client_id client, user_id) :=
                       {| user_name := user_id; devices := ∅ |}]>
                      (users (session w))) (session w)) w)
        | Some _ => ret tt
        end in
      let! tr :=
        match attestation with
        | AttObject a => ret (transports_sum a)
        | AttEmptyString => raise (AttributeError "transports")
        end in
      let dev := new_device registration cert tr in
      let h := handle dev in
      let! _ := put_device (client_id client) user_id h dev in
      (* Properties from the initial request have a lower precedence. *)
      let! props := getitem request_data "properties" in
      let! dev := lift (update_properties props dev) in
      let! _ := put_device (client_id client) user_id h dev in
      let! dev :=
        lift (update_properties (JDict (rrd_properties response_data)) dev) in
      let! _ := put_device (client_id client) user_id h dev in
      let! _ := db_session_commit in
      let! response := describe dev in
      ret (<["clientData" :=
               client_data_json (rr_clientData register_response)]> response)
  end.

(** The loop of [_sign_request] over [user.devices.items()], with the three
    collections it fills. *)
Fixpoint sign_request_loop (items : list (string * Device))
  (registered_keys descriptors : list dict) (handle_map : pydict)
  : M (list dict * list dict * pydict) :=
  match items with
  | [] => ret (registered_keys, descriptors, handle_map)
  | (_, dev) :: rest =>
      if compromised dev
      then sign_request_loop rest registered_keys descriptors handle_map
      else
        let! descriptor := describe dev in
        let! key := _get_registered_key dev descriptor in
        let! kh := getitem key "keyHandle" in
        let! handle_map := lift (dict_setitem kh (handle dev) handle_map) in
        sign_request_loop rest (registered_keys ++ [key])
          (descriptors ++ [descriptor]) handle_map
  end.

Definition _sign_request (user_id chal : string) (props : jvalue) : M dict :=
  let! client := get_client in
  let! user := get_user user_id in
  match user with
  | None => raise (NoEligibleDevicesException "No devices registered" [])
  | Some u =>
      if bool_decide (size (devices u) = 0%nat)
      then raise (NoEligibleDevicesException "No devices registered" [])
      else
        let! collected :=
          sign_request_loop (map_to_list (devices u)) [] [] [] in
        let registered_keys := collected.1.1 in
        let descriptors := collected.1.2 in
        let handle_map := collected.2 in
        match registered_keys with
        | [] =>
            raise (NoEligibleDevicesException "All devices compromised"
                     ((fun d => get_descriptor d None) <$> devices_values u))
        | _ =>
            let! request_data :=
              lift (begin_authentication env (app_id client) registered_keys
                      chal) in
            (* the record is a JSON object; it holds the handle map in the
               form in which [request_data.json] hands it to the store *)
            let request_data :=
              <["handleMap" := JDict (json_of_handle_map handle_map)]>
                request_data in
            let request_data := <["properties" := props]> request_data in
            let! _ := store_store (client_id client) user_id chal request_data in
            let! data :=
              lift (RequestData_wrap env (data_for_client env request_data)) in
            ret (<["descriptors" := JList (JDict <$> descriptors)]> data)
        end
  end.

(** [dev.counter or -1] *)
Definition counter_or_minus_one (c : option Z) : Z :=
  match c with
  | None => -1
  | Some v => if v =? 0 then -1 else v
  end.

(** [request_data['handleMap'][device['keyHandle']]]; a handle map that is
    not a dictionary keyed by strings is not indexed by a key handle. *)
Definition handle_of_key (request_data device : dict) : M jvalue :=
  let! hm := getitem request_data "handleMap" in
  let! kh := getitem device "keyHandle" in
  match hm, kh with
  | JDict m, JStr k => getitem m k
  | _, _ => raise (TypeError "handleMap")
  end.

Definition _sign_response (user_id : string) (response_data : SignResponseData)
  : M (option dict) :=
  let! client := get_client in
  let! user := get_user user_id in
  let sign_response := signResponse response_data in
  let chal := challenge (sr_clientData sign_response) in
  let! request_data := store_retrieve (client_id client) user_id chal in
  match request_data with
  | None => raise (NotFoundException "Transaction not found")
  | Some request_data =>
      let! completed :=
        lift (complete_authentication env request_data sign_response
                (valid_facets client)) in
      let device := completed.1.1 in
      let counter' := completed.1.2 in
      let presence := completed.2 in
      match user with
      | None => raise (AttributeError "devices")
      | Some u =>
          let! h := handle_of_key request_data device in
          match h with
          | JStr h =>
              let! dev := lift (devices_getitem u h) in
              if compromised dev
              then raise (BadInputException "Device is compromised")
              else if presence =? 0
              then raise (BadInputException "User presence byte not set")
              else if counter_or_minus_one (counter dev) <? counter'
              then
                let dev := set_counter (Some counter') dev in
                let! _ := put_device (client_id client) user_id h dev in
                let dev := set_authenticated_at (Some (datetime_now env)) dev in
                let! _ := put_device (client_id client) user_id h dev in
                let! props := getitem request_data "properties" in
                let! dev := lift (update_properties props dev) in
                let! _ := put_device (client_id client) user_id h dev in
                let! dev :=
                  lift (update_properties
                          (JDict (srd_properties response_data)) dev) in
                let! _ := put_device (client_id client) user_id h dev in
                let! _ := db_session_commit in
                let! response := describe dev in
                ret (Some (<["clientData" :=
                              client_data_json (sr_clientData sign_response)]>
                             response))
              else ret None
          (* a handle that is no string is no key of the collection *)
          | JList _ | JDict _ => raise (TypeError "unhashable type")
          | h => raise (KeyError h)
          end
      end
  end.

End View.

(** ** Vocabulary of the statements *)

(** The value by which two keys of a dictionary are compared. *)
Definition key_code (v : jvalue) : option (unit + Z + string) :=
  match v with
  | JNull => Some (inl (inl tt))
  | JBool b => Some (inl (inr (if b then 1 else 0)))
  | JInt z => Some (inl (inr z))
  | JStr s => Some (inr s)
  | JList _ | JDict _ => None
  end.

(** A handle map all of whose keys are strings stands for the map [g] from
    key handles to handles: the stored record holds [g]. *)
Definition string_keyed (m : pydict) (g : gmap string string) : Prop :=
  Forall (fun kv => exists s, kv.1 = JStr s) m
  /\ NoDup m.*1
  /\ json_of_handle_map m = JStr <$> g.

Section Vocabulary.

Context (env : Env) (request : Request).

(** What has to hold for [_sign_response] to reach the counter check with
    device [dev] under handle [h] and presented counter [c']. *)
Definition reaches_counter_check (w : World) (client : Client)
  (user_id : string) (response_data : SignResponseData)
  (rd : dict) (c' : Z) (u : User) (h : string) (dev : Device) : Prop :=
  exists device presence hm kh,
    transactions w
      !! (client_id client, user_id,
          challenge (sr_clientData (signResponse response_data))) = Some rd
    /\ complete_authentication env rd (signResponse response_data)
         (valid_facets client) = Return (device, c', presence)
    /\ users (session w) !! (client_id client, user_id) = Some u
    /\ rd !! "handleMap" = Some (JDict hm)
    /\ device !! "keyHandle" = Some (JStr kh)
    /\ hm !! kh = Some (JStr h)
    /\ devices u !! h = Some dev
    /\ compromised dev = false
    /\ presence <> 0.

(** One iteration of the loop of [_sign_request] for a device that is not
    compromised and whose key handle is a string, as the U2F engine makes
    them: its registered key, its descriptor, its key handle and its
    handle. *)
Definition eligible_entry (dev : Device) : M (dict * dict * string * string) :=
  let! descriptor := describe env dev in
  let! key := _get_registered_key env request dev descriptor in
  let! kh := getitem key "keyHandle" in
  match kh with
  | JStr k => ret (key, descriptor, k, handle dev)
  | _ => raise (TypeError "keyHandle")
  end.

Definition entry_key (e : dict * dict * string * string) : dict := e.1.1.1.
Definition entry_descriptor (e : dict * dict * string * string) : dict :=
  e.1.1.2.

(** The handle map that the loop builds from such entries, in their order,
    as a map from key handles to handles. *)
Definition handle_map_of (hm : gmap string string)
  (es : list (dict * dict * string * string)) : gmap string string :=
  foldl (fun m e => <[e.1.2 := e.2]> m) hm es.

(** The devices of a user that are not marked compromised. *)
Definition eligible_devices (u : User) : list Device :=
  filter (fun d => compromised d = false) (devices_values u).

End Vocabulary.

(** Whether a run of a handler returned. *)
Definition returns {A} (r : result A * World) : bool :=
  match r.1 with
  | Return _ => true
  | Raise _ => false
  end.

(** ** A small installation, for the examples *)

Module Sample.

Definition rp : Client :=
  {| client_id := 1; client_name := "rp"; app_id := "https://rp.example";
     valid_facets := ["https://rp.example"%string] |}.

Definition key1 : Device :=
  {| handle := "d1";
     bind_data := <["keyHandle" := JStr "kh1"]>
                  (<["appId" := JStr "https://rp.example"]>
                  (<["transports" := JStr "stored"]> ∅));
     certificate := {| cert_id := 7; der := "der1" |};
     counter := Some 0; compromised := false;
     authenticated_at := Some 100;
     properties := <["name" := JStr "a"]> (<["slot" := JInt 1]> ∅);
     transports := 4 |}.

Definition key2 : Device :=
  {| handle := "d2";
     bind_data := <["keyHandle" := JStr "kh2"]>
                  (<["appId" := JStr "https://other.example"]>
                  (<["version" := JStr "U2F_V1"]> ∅));
     certificate := {| cert_id := 8; der := "der2" |};
     counter := Some 5; compromised := true;
     authenticated_at := None; properties := ∅; transports := 0 |}.

Definition alice : User :=
  {| user_name := "alice";
     devices := <["d1" := key1]> (<["d2" := key2]> ∅) |}.

Definition bob : User :=
  {| user_name := "bob"; devices := <["d2" := key2]> ∅ |}.

Definition tables : Database :=
  {| clients := [rp];
     users := <[(1, "alice"%string) := alice]>
              (<[(1, "bob"%string) := bob]> ∅) |}.

(** The record of a begun authentication of alice under challenge "c-auth"
    and the record of a begun registration under "c-reg". *)
Definition auth_record : dict :=
  <["properties" := JDict (<["name" := JStr "b"]> (<["seen" := JBool true]> ∅))]>
  (<["handleMap" := JDict (<["kh1" := JStr "d1"]> ∅)]>
  (<["challenge" := JStr "c-auth"]> ∅)).

Definition reg_record : dict :=
  <["properties" := JDict (<["name" := JStr "a"]> (<["color" := JStr "red"]> ∅))]>
  (<["challenge" := JStr "c-reg"]> ∅).

Definition world : World :=
  {| persisted := tables; session := tables;
     transactions := <[(1, "alice"%string, "c-auth"%string) := auth_record]>
                     (<[(1, "alice"%string, "c-reg"%string) := reg_record]> ∅);
     attestation_cache := ∅; metadata_cache := ∅; g_client := None |}.

(** An engine that accepts every response; an authentication response
    names its key handle and counter in its raw fields. *)
Definition engine_begin (app : string) (keys : list dict) (chal : string)
  : result dict :=
  Return (<["appId" := JStr app]>
          (<["challenge" := JStr chal]>
          (<["registeredKeys" := JList (JDict <$> keys)]> ∅))).

Definition engine_complete_registration (rd : dict) (r : RegisterResponse)
  (facets : list string) : result (dict * string) :=
  Return (<["keyHandle" := JStr "kh-new"]> ∅, "der-new"%string).

Definition engine_complete_authentication (rd : dict) (r : SignResponse)
  (facets : list string) : result (dict * Z * Z) :=
  match sr_raw r !! "keyHandle", sr_raw r !! "counter" with
  | Some (JStr kh), Some (JInt c) =>
      Return (<["keyHandle" := JStr kh]> ∅, c, 1)
  | _, _ => Raise (EngineError "invalid signature")
  end.

Definition env (allow_untrusted : bool) : Env :=
  {| ALLOW_UNTRUSTED := allow_untrusted;
     debug := false;
     begin_registration := engine_begin;
     complete_registration := engine_complete_registration;
     begin_authentication := engine_begin;
     complete_authentication := engine_complete_authentication;
     data_for_client := fun d => d;
     RequestData_wrap := fun d => Return d;
     metadata_get_attestation := fun cert =>
       Some {| trusted := false; vendor_info := JNull; device_info := JNull;
               att_transports := Some [4; 1] |};
     sha256_hexdigest := fun cert => cert;
     get_transports := fun z => JInt z;
     get_pem := fun der => der;
     isoformat := fun t => "1970-01-01T00:00:00"%string;
     datetime_now := 200;
     fresh_handle := "d-new";
     fresh_cert_id := 9 |}.

Definition request (m : http_method) (principal : option string) : Request :=
  {| method := m; remote_user := principal; authorization := None;
     get_json := Return (JDict ∅) |}.

Definition sign_response_data (kh : string) (c : Z) : SignResponseData :=
  {| signResponse :=
       {| sr_clientData := {| challenge := "c-auth";
                              client_data_json := JStr "client-data" |};
          sr_raw := <["keyHandle" := JStr kh]> (<["counter" := JInt c]> ∅) |};
     srd_properties := <["name" := JStr "c"]> ∅ |}.

Definition register_response_data : RegisterResponseData :=
  {| registerResponse :=
       {| rr_clientData := {| challenge := "c-reg";
                              client_data_json := JStr "client-data" |};
          rr_raw := ∅ |};
     rrd_properties := <["name" := JStr "b"]> ∅ |}.

End Sample.

(** ** The remaining routes of view.py *)

(** Functions of u2fval/jsobjects.py, of u2flib_server.utils and of [os]
    that the two ceremony routes call. *)
Record Wire : Type := {
  RegisterResponseData_wrap : jvalue -> result RegisterResponseData;
  SignResponseData_wrap : jvalue -> result SignResponseData;
  websafe_decode : jvalue -> result string;
  (* os.urandom(32) *)
  os_urandom : string
}.

(** [key in data] for a parsed JSON body: key of a dictionary, element of a
    list, substring of a string; other values are not iterable. *)
Definition py_in (key : string) (data : jvalue) : result bool :=
  match data with
  | JDict d => Return (bool_decide (is_Some (d !! key)))
  | JList l =>
      Return (existsb (fun v => match v with
                                | JStr s => bool_decide (s = key)
                                | _ => false
                                end) l)
  | JStr s => Return (bool_decide (is_Some (String.index 0 key s)))
  | _ => Raise (TypeError "argument is not iterable")
  end.

(** [data[key]] with a string key. *)
Definition py_getitem (data : jvalue) (key : string) : result jvalue :=
  match data with
  | JDict d =>
      match d !! key with
      | Some v => Return v
      | None => Raise (KeyError (JStr key))
      end
  | JList _ => Raise (TypeError "list indices must be integers")
  | JStr _ => Raise (TypeError "string indices must be integers")
  | _ => Raise (TypeError "object is not subscriptable")
  end.

(** [data.get(key, default)] *)
Definition py_get (data : jvalue) (key : string) (default : jvalue)
  : result jvalue :=
  match data with
  | JDict d =>
      match d !! key with
      | Some v => Return v
      | None => Return default
      end
  | _ => Raise (AttributeError "get")
  end.

(** The tables and the transaction store of two worlds are the same. *)
Definition unchanged (w w' : World) : Prop :=
  persisted w' = persisted w /\ session w' = session w
  /\ transactions w' = transactions w.

Section CeremonyRoutes.

Context (env : Env) (wire : Wire) (request : Request).

Definition trusted_facets : M response :=
  let! client := get_client env request in
  ret (Jsonify (JDict (<["trustedFacets" :=
    JList [JDict (<["version" :=
                     JDict (<["major" := JInt 1]> (<["minor" := JInt 0]> ∅))]>
                  (<["ids" := JList (JStr <$> valid_facets client)]> ∅))]]>
    ∅))).

(** The challenge and the properties of a begin call, as both ceremony
    routes read them from the request data. *)
Definition challenge_and_properties (data : jvalue) : M (string * jvalue) :=
  let! has_challenge := lift (py_in "challenge" data) in
  let! chal :=
    if has_challenge : bool
    then let! c := lift (py_getitem data "challenge") in
         lift (websafe_decode wire c)
    else ret (os_urandom wire) in
  let! props := lift (py_get data "properties" (JDict ∅)) in
  ret (chal, props).

Definition register (user_id : string) : M response :=
  let request_branch (data : jvalue) : M response :=
    let! args := challenge_and_properties data in
    let! r := _register_request env request user_id args.1 args.2 in
    ret (Jsonify (JDict r)) in
  match method request with
  | POST =>
      let! data := lift (get_json request) in
      let! is_response := lift (py_in "registerResponse" data) in
      if is_response : bool
      then
        (* Handle response *)
        let! wrapped := lift (RegisterResponseData_wrap wire data) in
        let! r := _register_response env request user_id wrapped in
        ret (Jsonify (JDict r))
      else request_branch data
  | _ => request_branch (JDict ∅)
  end.

Definition authenticate (user_id : string) : M response :=
  let request_branch (data : jvalue) : M response :=
    let! args := challenge_and_properties data in
    let! r := _sign_request env request user_id args.1 args.2 in
    ret (Jsonify (JDict r)) in
  match method request with
  | POST =>
      let! data := lift (get_json request) in
      let! is_response := lift (py_in "signResponse" data) in
      if is_response : bool
      then
        (* Handle response *)
        let! wrapped := lift (SignResponseData_wrap wire data) in
        let! r := _sign_response env request user_id wrapped in
        ret (Jsonify (match r with
                      | Some d => JDict d
                      | None => JNull
                      end))
      else request_branch data
  | _ => request_branch (JDict ∅)
  end.

End CeremonyRoutes.

(** What has to hold for [_sign_response] to find device [dev] under handle
    [h], with presented counter [c'] and presence indicator [presence]. *)
Definition identifies_device (env : Env) (w : World) (client : Client)
  (user_id : string) (response_data : SignResponseData)
  (rd : dict) (c' presence : Z) (u : User) (h : string) (dev : Device)
  : Prop :=
  exists device hm kh,
    transactions w
      !! (client_id client, user_id,
          challenge (sr_clientData (signResponse response_data))) = Some rd
    /\ complete_authentication env rd (signResponse response_data)
         (valid_facets client) = Return (device, c', presence)
    /\ users (session w) !! (client_id client, user_id) = Some u
    /\ rd !! "handleMap" = Some (JDict hm)
    /\ device !! "keyHandle" = Some (JStr kh)
    /\ hm !! kh = Some (JStr h)
    /\ devices u !! h = Some dev.

(** ** More of the small installation *)

Module SampleRoutes.

(** A provider that knows the vendor of every certificate, and one that
    knows nothing. *)
Definition vendor_env : Env :=
  {| ALLOW_UNTRUSTED := false;
     debug := false;
     begin_registration := Sample.engine_begin;
     complete_registration := Sample.engine_complete_registration;
     begin_authentication := Sample.engine_begin;
     complete_authentication := Sample.engine_complete_authentication;
     data_for_client := fun d => d;
     RequestData_wrap := fun d => Return d;
     metadata_get_attestation := fun cert =>
       Some {| trusted := true; vendor_info := JStr "Yubico";
               device_info := JStr ""; att_transports := None |};
     sha256_hexdigest := fun cert => cert;
     get_transports := fun z => JInt z;
     get_pem := fun der => der;
     isoformat := fun t => "1970-01-01T00:00:00"%string;
     datetime_now := 200;
     fresh_handle := "d-new";
     fresh_cert_id := 9 |}.

Definition silent_env : Env :=
  {| ALLOW_UNTRUSTED := true;
     debug := true;
     begin_registration := Sample.engine_begin;
     complete_registration := Sample.engine_complete_registration;
     begin_authentication := Sample.engine_begin;
     complete_authentication := Sample.engine_complete_authentication;
     data_for_client := fun d => d;
     RequestData_wrap := fun d => Return d;
     metadata_get_attestation := fun cert => None;
     sha256_hexdigest := fun cert => cert;
     get_transports := fun z => JInt z;
     get_pem := fun der => der;
     isoformat := fun t => "1970-01-01T00:00:00"%string;
     datetime_now := 300;
     fresh_handle := "d-other";
     fresh_cert_id := 10 |}.

Definition request_with_body (m : http_method) (body : result jvalue)
  : Request :=
  {| method := m; remote_user := Some "rp"%string; authorization := None;
     get_json := body |}.

(** A request without REMOTE_USER that carries a basic-auth header. *)
Definition basic_auth_request (username : option string) : Request :=
  {| method := GET; remote_user := None; authorization := Some username;
     get_json := Return (JDict ∅) |}.

(** Wrappers that accept nothing. *)
Definition wire : Wire :=
  {| RegisterResponseData_wrap := fun _ =>
       Raise (BadInputException "Missing required fields");
     SignResponseData_wrap := fun _ =>
       Raise (BadInputException "Missing required fields");
     websafe_decode := fun v =>
       match v with
       | JStr s => Return s
       | _ => Raise (TypeError "websafe_decode")
       end;
     os_urandom := "random-challenge" |}.

(** A begun authentication whose handle map also names the compromised
    device of alice. *)
Definition stale_record : dict :=
  <["properties" := JDict ∅]>
  (<["handleMap" := JDict (<["kh1" := JStr "d1"]> (<["kh2" := JStr "d2"]> ∅))]>
  ∅).

Definition stale_world : World :=
  {| persisted := Sample.tables; session := Sample.tables;
     transactions :=
       <[(1, "alice"%string, "c-auth"%string) := stale_record]> ∅;
     attestation_cache := ∅; metadata_cache := ∅; g_client := None |}.

(** A response that the engine of the installation rejects. *)
Definition unsigned_response : SignResponseData :=
  {| signResponse :=
       {| sr_clientData := {| challenge := "c-auth";
                              client_data_json := JStr "client-data" |};
          sr_raw := ∅ |};
     srd_properties := ∅ |}.

(** A device whose bind data hold a number as key handle. *)
Definition key3 : Device :=
  {| handle := "d3";
     bind_data := <["keyHandle" := JInt 7]> ∅;
     certificate := {| cert_id := 7; der := "der1" |};
     counter := None; compromised := false;
     authenticated_at := None; properties := ∅; transports := 0 |}.

Definition register_response_for (chal : string) : RegisterResponseData :=
  {| registerResponse :=
       {| rr_clientData := {| challenge := chal;
                              client_data_json := JStr "client-data" |};
          rr_raw := ∅ |};
     rrd_properties := <["name" := JStr "b"]> ∅ |}.

End SampleRoutes.

(** * Properties *)

Lemma bind_Return {A B} (m : M A) (k : A -> M B) w a w1 :
  m w = (Return a, w1) -> bind m k w = k a w1.
Proof. intros H. unfold bind. now rewrite H. Qed.

Lemma bind_Raise {A B} (m : M A) (k : A -> M B) w e w1 :
  m w = (Raise e, w1) -> bind m k w = (Raise e, w1).
Proof. intros H. unfold bind. now rewrite H. Qed.

Lemma bind_Return_inv {A B} (m : M A) (k : A -> M B) w b w' :
  bind m k w = (Return b, w') ->
  exists a w1, m w = (Return a, w1) /\ k a w1 = (Return b, w').
Proof.
  unfold bind. destruct (m w) as [[a|e] w1]; intros H.
  - now exists a, w1.
  - discriminate.
Qed.

(** The subscript of the device collection at a handle that is a key. *)
Lemma devices_getitem_run {A} (u : User) (h : string) (dev : Device)
  (k : Device -> M A) w :
  devices u !! h = Some dev ->
  bind (lift (devices_getitem u h)) k w = k dev w.
Proof. intros H. unfold devices_getitem. now rewrite H. Qed.

Lemma set_g_client_id w c : g_client w = Some c -> set_g_client (Some c) w = w.
Proof. destruct w; simpl; intros ->; reflexivity. Qed.

Section ClientResolution.

Context (env : Env) (request : Request).

Lemma get_client_cached w c :
  g_client w = Some c -> get_client env request w = (Return c, w).
Proof. intros H. unfold get_client, bind, get_world. now rewrite H. Qed.

Lemma get_client_fresh w :
  g_client w = None ->
  get_client env request w =
    match principal_name env request with
    | None => (Raise (BadInputException "No client specified"), w)
    | Some name =>
        match query_one name (clients (session w)) with
        | Some c => (Return c, set_g_client (Some c) w)
        | None => (Raise (NotFoundException "Client not found"), w)
        end
    end.
Proof.
  intros H. unfold get_client, bind, get_world. rewrite H.
  destruct (principal_name env request) as [name|]; [|reflexivity].
  now destruct (query_one name (clients (session w))).
Qed.

(** A successful resolution changes nothing but [g.client]. *)
Lemma get_client_inv w c w1 :
  get_client env request w = (Return c, w1) -> w1 = set_g_client (Some c) w.
Proof.
  destruct (g_client w) as [c0|] eqn:Hg.
  - rewrite (get_client_cached _ _ Hg). intros [= <- <-].
    symmetry. now apply set_g_client_id.
  - rewrite (get_client_fresh _ Hg).
    destruct (principal_name env request) as [name|]; [|discriminate].
    destruct (query_one name (clients (session w))); [|discriminate].
    now intros [= <- <-].
Qed.

(** A failed resolution changes nothing at all. *)
Lemma get_client_Raise_inv w e w1 :
  get_client env request w = (Raise e, w1) -> w1 = w.
Proof.
  destruct (g_client w) as [c0|] eqn:Hg.
  - rewrite (get_client_cached _ _ Hg). discriminate.
  - rewrite (get_client_fresh _ Hg).
    destruct (principal_name env request) as [name|]; [|now intros [= _ <-]].
    destruct (query_one name (clients (session w))); [discriminate|].
    now intros [= _ <-].
Qed.

Lemma get_client_again w c w1 :
  get_client env request w = (Return c, w1) ->
  get_client env request w1 = (Return c, w1).
Proof.
  intros H. apply get_client_inv in H as ->. now apply get_client_cached.
Qed.

Lemma get_user_resolved w c w1 user_id :
  get_client env request w = (Return c, w1) ->
  get_user env request user_id w =
    (Return (users (session w) !! (client_id c, user_id)), w1).
Proof.
  intros H. unfold get_user. rewrite (bind_Return _ _ _ _ _ H).
  apply get_client_inv in H as ->. reflexivity.
Qed.

Lemma get_user_unresolved w e w1 user_id :
  get_client env request w = (Raise e, w1) ->
  get_user env request user_id w = (Raise e, w1).
Proof. intros H. unfold get_user. now rewrite (bind_Raise _ _ _ _ _ H). Qed.

Lemma filter_client_name_none (name : string) (cs : list Client) :
  (forall c, c ∈ cs -> client_name c <> name) ->
  filter (fun c => client_name c = name) cs = [].
Proof.
  induction cs as [|c cs IH]; intros H; [reflexivity|].
  rewrite filter_cons_False by (apply H; left).
  apply IH. intros c' Hc'. apply H. now right.
Qed.

(** With unique client names, the query finds the record of that name. *)
Lemma query_one_unique (cs : list Client) (c : Client) :
  NoDup (client_name <$> cs) -> c ∈ cs ->
  query_one (client_name c) cs = Some c.
Proof.
  unfold query_one. intros Hnd Hin.
  assert (filter (fun c' => client_name c' = client_name c) cs = [c]) as ->;
    [|reflexivity].
  induction cs as [|c' cs IH]; [now apply elem_of_nil in Hin|].
  rewrite fmap_cons in Hnd. apply NoDup_cons in Hnd as [Hnotin Hnd].
  apply elem_of_cons in Hin as [->|Hin].
  - rewrite filter_cons_True by reflexivity. f_equal.
    apply filter_client_name_none. intros c0 Hc0 Heq.
    apply Hnotin. rewrite <- Heq. now apply list_elem_of_fmap_2.
  - rewrite filter_cons_False; [now apply IH|].
    intros Heq. apply Hnotin. rewrite Heq. now apply list_elem_of_fmap_2.
Qed.

Lemma query_one_absent (name : string) (cs : list Client) :
  (forall c, c ∈ cs -> client_name c <> name) -> query_one name cs = None.
Proof.
  intros H. unfold query_one. now rewrite filter_client_name_none.
Qed.

(** C9. Client resolution, at the start of a request (nothing cached in
    [g] yet).  An identity is determined when REMOTE_USER is set, and
    otherwise when debug mode is on and the request has a basic-auth header
    with a user name.  Resolution fails with BadInput "No client specified"
    when there is no REMOTE_USER and the fallback is disabled (no debug
    mode) or unavailable (no authorization header, or one without a user
    name); it fails with NotFound "Client not found" when an identity is
    determined, in either way, and no Client has that name; and it returns
    the Client of that name when there is one (names are unique). *)
Theorem get_client_resolution (w : World) :
  g_client w = None ->
  (remote_user request = None ->
   debug env = false \/ authorization request = None
   \/ authorization request = Some None ->
   get_client env request w =
     (Raise (BadInputException "No client specified"), w))
  /\ (forall name,
       remote_user request = Some name
       \/ (remote_user request = None /\ debug env = true
           /\ authorization request = Some (Some name)) ->
       (forall c, c ∈ clients (session w) -> client_name c <> name) ->
       get_client env request w =
         (Raise (NotFoundException "Client not found"), w))
  /\ (forall c,
       remote_user request = Some (client_name c)
       \/ (remote_user request = None /\ debug env = true
           /\ authorization request = Some (Some (client_name c))) ->
       NoDup (client_name <$> clients (session w)) ->
       c ∈ clients (session w) ->
       get_client env request w = (Return c, set_g_client (Some c) w)).
Proof.
  intros Hg. rewrite (get_client_fresh _ Hg).
  assert (Hname : forall name,
    remote_user request = Some name
    \/ (remote_user request = None /\ debug env = true
        /\ authorization request = Some (Some name)) ->
    principal_name env request = Some name).
  { intros name [Hru|(Hru & Hd & Ha)]; unfold principal_name; rewrite Hru;
      [reflexivity|]. now rewrite Hd, Ha. }
  split; [|split].
  - intros Hru Hfallback. unfold principal_name. rewrite Hru.
    destruct Hfallback as [-> | [-> | ->]]; [reflexivity| |];
      now destruct (debug env).
  - intros name Hid Hnone. rewrite (Hname _ Hid).
    now rewrite query_one_absent.
  - intros c Hid Hnd Hin. rewrite (Hname _ Hid).
    now rewrite query_one_unique.
Qed.

End ClientResolution.

Section Routes.

Context (env : Env) (request : Request).

Lemma resolution_keeps_tables w c w1 :
  get_client env request w = (Return c, w1) ->
  persisted w1 = persisted w /\ session w1 = session w
  /\ transactions w1 = transactions w.
Proof. intros H. apply get_client_inv in H as ->. now repeat split. Qed.

(** C2. DELETE for a user that does not exist.  On the user route it
    answers "no content" like the DELETE of an existing user, raises
    nothing and leaves the tables as they were.  On the device route the
    guard on the user comes before the test of the method, and the request
    fails with NotFound "Device not found". *)
Theorem delete_of_missing_user (w w1 : World) (client : Client)
  (user_id h : string) :
  method request = DELETE ->
  get_client env request w = (Return client, w1) ->
  (user env request user_id w).1 = Return NoContent
  /\ (users (session w) !! (client_id client, user_id) = None ->
      user env request user_id w = (Return NoContent, w1)
      /\ persisted w1 = persisted w /\ session w1 = session w
      /\ device env request user_id h w
         = (Raise (NotFoundException "Device not found"), w1)).
Proof.
  intros Hm Hc.
  pose proof (get_user_resolved env request _ _ _ user_id Hc) as Hu.
  pose proof (get_client_again env request _ _ _ Hc) as Hc1.
  pose proof (resolution_keeps_tables _ _ _ Hc) as (Hp & Hs & _).
  split.
  - unfold user. rewrite (bind_Return _ _ _ _ _ Hu), (bind_Return _ _ _ _ _ Hc1).
    rewrite Hm. now destruct (users (session w) !! (client_id client, user_id)).
  - intros Hnone. split; [|split; [exact Hp|split; [exact Hs|]]].
    + unfold user.
      rewrite (bind_Return _ _ _ _ _ Hu), (bind_Return _ _ _ _ _ Hc1).
      rewrite Hm, Hnone. reflexivity.
    + unfold device. now rewrite (bind_Return _ _ _ _ _ Hu), Hnone.
Qed.

(** The device route under any method, DELETE included: a missing user is
    NotFound "Device not found". *)
Lemma device_missing_user (w w1 : World) (client : Client) (user_id h : string) :
  get_client env request w = (Return client, w1) ->
  users (session w) !! (client_id client, user_id) = None ->
  device env request user_id h w =
    (Raise (NotFoundException "Device not found"), w1).
Proof.
  intros Hc Hnone.
  pose proof (get_user_resolved env request _ _ _ user_id Hc) as Hu.
  unfold device. now rewrite (bind_Return _ _ _ _ _ Hu), Hnone.
Qed.

(** The device route under any method: for an existing user, a handle that
    is not in the collection makes the subscript raise KeyError, before the
    method is looked at. *)
Lemma device_missing_handle (w w1 : World) (client : Client) (u : User)
  (user_id h : string) :
  get_client env request w = (Return client, w1) ->
  users (session w) !! (client_id client, user_id) = Some u ->
  devices u !! h = None ->
  device env request user_id h w = (Raise (KeyError (JStr h)), w1).
Proof.
  intros Hc Hsome Habsent.
  pose proof (get_user_resolved env request _ _ _ user_id Hc) as Hu.
  pose proof (get_client_again env request _ _ _ Hc) as Hc1.
  unfold device. rewrite (bind_Return _ _ _ _ _ Hu), Hsome.
  rewrite (bind_Return _ _ _ _ _ Hc1). unfold devices_getitem.
  now rewrite Habsent.
Qed.

(** The certificate route: a missing user is NotFound. *)
Lemma device_certificate_missing_user (w w1 : World) (client : Client)
  (user_id h : string) :
  get_client env request w = (Return client, w1) ->
  users (session w) !! (client_id client, user_id) = None ->
  device_certificate env request user_id h w =
    (Raise (NotFoundException "Device not found"), w1).
Proof.
  intros Hc Hnone.
  pose proof (get_user_resolved env request _ _ _ user_id Hc) as Hu.
  unfold device_certificate. now rewrite (bind_Return _ _ _ _ _ Hu), Hnone.
Qed.

(** C3. For an existing user without a device of the given handle, neither
    the certificate route nor the device route gives NotFound: the subscript
    of the device collection raises KeyError, which is an error outside the
    taxonomy.  (On the device route the tests of the device against None,
    which would give NotFound, come after the subscript.) *)
Theorem device_certificate_missing_handle (w w1 : World) (client : Client)
  (u : User) (user_id h : string) :
  get_client env request w = (Return client, w1) ->
  users (session w) !! (client_id client, user_id) = Some u ->
  devices u !! h = None ->
  device_certificate env request user_id h w =
    (Raise (KeyError (JStr h)), w1)
  /\ device env request user_id h w = (Raise (KeyError (JStr h)), w1)
  /\ kind_of (KeyError (JStr h)) <> NotFound.
Proof.
  intros Hc Hsome Hdev.
  pose proof (get_user_resolved env request _ _ _ user_id Hc) as Hu.
  split; [|split; [|discriminate]].
  - unfold device_certificate.
    rewrite (bind_Return _ _ _ _ _ Hu), Hsome. unfold devices_getitem.
    now rewrite Hdev.
  - exact (device_missing_handle _ _ _ _ _ _ Hc Hsome Hdev).
Qed.

End Routes.

Section Caches.

Context (env : Env) (request : Request).

Lemma same_tables_refl w : same_tables w w.
Proof. now repeat split. Qed.

Lemma same_tables_trans w1 w2 w3 :
  same_tables w1 w2 -> same_tables w2 w3 -> same_tables w1 w3.
Proof.
  intros (?&?&?&?) (?&?&?&?). repeat split; congruence.
Qed.

(** [get_attestation] always returns; what it returns is decided by the
    cache entry under the digest, else by the metadata provider. *)
Lemma get_attestation_run cert w :
  exists w',
    get_attestation env cert w =
      (Return (match attestation_cache w !! sha256_hexdigest env cert with
               | Some a => a
               | None => match metadata_get_attestation env cert with
                         | Some a => AttObject a
                         | None => AttEmptyString
                         end
               end), w')
    /\ same_tables w w'.
Proof.
  unfold get_attestation, bind, get_world, modify, ret.
  destruct (attestation_cache w !! sha256_hexdigest env cert).
  - exists w. split; [reflexivity|apply same_tables_refl].
  - eexists. split; [reflexivity|]. now repeat split.
Qed.

Lemma get_attestation_same_cache cert w w0 :
  attestation_cache w0 = attestation_cache w ->
  (get_attestation env cert w0).1 = (get_attestation env cert w).1.
Proof.
  intros Hc.
  destruct (get_attestation_run cert w) as (w' & -> & _).
  destruct (get_attestation_run cert w0) as (w0' & -> & _).
  simpl. now rewrite Hc.
Qed.

Lemma get_metadata_run dev w :
  exists md w', get_metadata env dev w = (Return md, w') /\ same_tables w w'.
Proof.
  unfold get_metadata, bind, get_world.
  destruct (metadata_cache w !! cert_id (certificate dev)) as [md|].
  - exists md, w. split; [reflexivity|apply same_tables_refl].
  - destruct (get_attestation_run (der (certificate dev)) w) as (w1 & -> & H1).
    unfold modify, ret. eexists _, _. split; [reflexivity|].
    destruct H1 as (?&?&?&?). now repeat split.
Qed.

(** Rendering a descriptor with metadata always returns, and the descriptor
    is the device's rendering under some metadata result. *)
Lemma describe_run dev w :
  exists md w',
    describe env dev w = (Return (get_descriptor env dev (Some md)), w')
    /\ same_tables w w'.
Proof.
  destruct (get_metadata_run dev w) as (md & w' & Hmd & Hst).
  exists md, w'. split; [|exact Hst].
  unfold describe. now rewrite (bind_Return _ _ _ _ _ Hmd).
Qed.

Lemma get_descriptor_transports dev md :
  get_descriptor env dev md !! "transports"
  = Some (get_transports env (transports dev)).
Proof.
  unfold get_descriptor. destruct md as [md|]; [|reflexivity].
  destruct (md !! "vendor"), (md !! "device"); reflexivity.
Qed.

End Caches.

Section RegisteredKey.

Context (env : Env) (request : Request).

(** The three rewriting steps of [_get_registered_key], as a function of
    the client and of the transports value of the descriptor. *)
Lemma get_registered_key_run dev descriptor t w client w1 :
  get_client env request w = (Return client, w1) ->
  descriptor !! "transports" = Some t ->
  _get_registered_key env request dev descriptor w =
    (Return
       (<["transports" := t]>
          (let key :=
             match bind_data dev !! "appId" with
             | Some (JStr a) =>
                 if bool_decide (a = app_id client)
                 then delete "appId" (bind_data dev) else bind_data dev
             | _ => bind_data dev
             end in
           match key !! "version" with
           | Some _ => key
           | None => <["version" := JStr "U2F_V2"]> key
           end)), w1).
Proof.
  intros Hc Ht. unfold _get_registered_key.
  rewrite (bind_Return _ _ _ _ _ Hc). unfold getitem. rewrite Ht.
  reflexivity.
Qed.

(** C6. The registered key reconstructed from a device and a descriptor
    that has a transports value: appId is dropped when it equals the
    client's app id and kept otherwise, a missing version becomes "U2F_V2"
    (a stored one is kept), transports is the descriptor's value whatever
    was stored, and every other field of the bind data is as stored. *)
Theorem registered_key_normalization (dev : Device) (descriptor : dict)
  (t : jvalue) (w w1 : World) (client : Client) :
  get_client env request w = (Return client, w1) ->
  descriptor !! "transports" = Some t ->
  exists key,
    _get_registered_key env request dev descriptor w = (Return key, w1)
    /\ key !! "transports" = Some t
    /\ (bind_data dev !! "appId" = Some (JStr (app_id client)) ->
        key !! "appId" = None)
    /\ (bind_data dev !! "appId" <> Some (JStr (app_id client)) ->
        key !! "appId" = bind_data dev !! "appId")
    /\ (bind_data dev !! "version" = None ->
        key !! "version" = Some (JStr "U2F_V2"))
    /\ (forall v, bind_data dev !! "version" = Some v ->
        key !! "version" = Some v)
    /\ (forall k, k <> "appId"%string -> k <> "version"%string ->
        k <> "transports"%string -> key !! k = bind_data dev !! k).
Proof.
  intros Hc Ht. eexists. split; [exact (get_registered_key_run _ _ _ _ _ _ Hc Ht)|].
  set (key0 := match bind_data dev !! "appId" with
               | Some (JStr a) =>
                   if bool_decide (a = app_id client)
                   then delete "appId" (bind_data dev) else bind_data dev
               | _ => bind_data dev
               end).
  assert (Hother : forall k, k <> "appId"%string -> key0 !! k = bind_data dev !! k).
  { intros k Hk. unfold key0.
    destruct (bind_data dev !! "appId") as [[| | |a| |]|]; try reflexivity.
    case_bool_decide; [|reflexivity]. now rewrite lookup_delete_ne. }
  assert (Happ_eq : bind_data dev !! "appId" = Some (JStr (app_id client)) ->
                    key0 !! "appId" = None).
  { intros H. unfold key0. rewrite H.
    rewrite bool_decide_eq_true_2 by reflexivity. apply lookup_delete_eq. }
  assert (Happ_ne : bind_data dev !! "appId" <> Some (JStr (app_id client)) ->
                    key0 !! "appId" = bind_data dev !! "appId").
  { intros H. unfold key0.
    destruct (bind_data dev !! "appId") as [[| | |a| |]|] eqn:E;
      try (now rewrite E).
    case_bool_decide as Ha; [|now rewrite E]. now subst a. }
  simpl. fold key0.
  split; [apply lookup_insert_eq|].
  rewrite !(lookup_insert_ne _ "transports") by discriminate.
  repeat split.
  - intros H. specialize (Happ_eq H).
    destruct (key0 !! "version"); [done|]. now rewrite lookup_insert_ne.
  - intros H. specialize (Happ_ne H).
    destruct (key0 !! "version"); [done|]. now rewrite lookup_insert_ne.
  - intros H. rewrite <- (Hother "version") in H by discriminate. rewrite H.
    apply lookup_insert_eq.
  - intros v H. rewrite <- (Hother "version") in H by discriminate.
    now rewrite H.
  - intros k Hk1 Hk2 Hk3. rewrite lookup_insert_ne by done.
    destruct (key0 !! "version"); [now apply Hother|].
    rewrite lookup_insert_ne by done. now apply Hother.
Qed.

End RegisteredKey.

Lemma bind_ret {A B} (a : A) (k : A -> M B) w : bind (ret a) k w = k a w.
Proof. reflexivity. Qed.

Lemma bind_modify {B} (f : World -> World) (k : unit -> M B) w :
  bind (modify f) k w = k tt (f w).
Proof. reflexivity. Qed.

Section Registration.

Context (env : Env) (request : Request).

Lemma users_db_put_device cid user_id h dev db u :
  users db !! (cid, user_id) = Some u ->
  users (db_put_device cid user_id h dev db) !! (cid, user_id)
  = Some (set_devices (<[h := dev]> (devices u)) u).
Proof.
  intros H. unfold db_put_device. simpl. rewrite lookup_alter_eq. now rewrite H.
Qed.

Lemma register_response_commits w w1 client user_id response_data rd reg cert
  a p :
  let k := (client_id client, user_id,
            challenge (rr_clientData (registerResponse response_data))) in
  let dev := set_properties (rrd_properties response_data ∪ (p ∪ ∅))
               (new_device env reg cert (transports_sum a)) in
  get_client env request w = (Return client, w1) ->
  transactions w !! k = Some rd ->
  complete_registration env rd (registerResponse response_data)
    (valid_facets client) = Return (reg, cert) ->
  (get_attestation env cert w).1 = Return (AttObject a) ->
  ALLOW_UNTRUSTED env = true \/ trusted a = true ->
  rd !! "properties" = Some (JDict p) ->
  exists md w' u,
    _register_response env request user_id response_data w =
      (Return (<["clientData" :=
                  client_data_json (rr_clientData (registerResponse response_data))]>
                 (get_descriptor env dev (Some md))), w')
    /\ persisted w' = session w'
    /\ clients (session w') = clients (session w)
    /\ transactions w' = delete k (transactions w)
    /\ users (session w') !! (client_id client, user_id) = Some u
    /\ devices u !! fresh_handle env = Some dev.
Proof.
  intros k dev Hc Htx Hcr Hatt Htrust Hprops.
  pose proof (get_user_resolved env request _ _ _ user_id
                (get_client_again env request _ _ _ Hc)) as Hu.
  pose proof (get_client_inv env request _ _ _ Hc) as Hw1.
  assert (session w1 = session w) as Hs1 by now subst w1.
  rewrite Hs1 in Hu.
  unfold _register_response.
  rewrite (bind_Return _ _ _ _ _ Hc); cbv beta.
  rewrite (bind_Return _ _ _ _ _ Hu); cbv beta.
  unfold bind at 1. unfold store_retrieve at 1.
  assert (transactions w1 = transactions w) as -> by now subst w1.
  fold k. rewrite Htx. 
  unfold bind at 1. rewrite Hcr. simpl lift. unfold ret at 1. cbv beta iota. simpl fst. simpl snd.
  set (w2 := set_transactions (delete k (transactions w)) w1).
  destruct (get_attestation_run env cert w2) as (w3 & Ha3 & Hst3).
  assert (Hfst : (get_attestation env cert w2).1 = Return (AttObject a)).
  { rewrite <- Hatt. apply get_attestation_same_cache. now subst w2 w1. }
  assert (Ha3' : get_attestation env cert w2 = (Return (AttObject a), w3)).
  { rewrite Ha3. f_equal. rewrite Ha3 in Hfst. exact Hfst. }
  clear Ha3 Hfst. rewrite (bind_Return _ _ _ _ _ Ha3'); cbv beta.
  assert (Hcheck :
    (if ALLOW_UNTRUSTED env then ret ()
     else if trusted a then ret ()
          else raise (BadInputException "Device attestation not trusted")) w3
    = (Return (), w3)).
  { destruct Htrust as [-> | ->]; [reflexivity|].
    now destruct (ALLOW_UNTRUSTED env). }
  rewrite (bind_Return _ _ _ _ _ Hcheck); cbv beta.
  destruct Hst3 as (Hp3 & Hs3 & Ht3 & Hg3).
  set (u0 := default {| user_name := user_id; devices := ∅ |}
               (users (session w) !! (client_id client, user_id))).
  set (w4 := set_session
               (set_users (<[(client_id client, user_id) := u0]>
                             (users (session w))) (session w)) w3).
  assert (Hcreate :
    match users (session w) !! (client_id client, user_id) with
    | Some _ => ret ()
    | None =>
        modify (fun w0 : World =>
          set_session
            (set_users
               (<[(client_id client, user_id) :=
                   {| user_name := user_id; devices := ∅ |}]>
                  (users (session w0))) (session w0)) w0)
    end w3 = (Return (), w4)).
  { unfold w4, u0.
    assert (session w3 = session w) as Hs by (rewrite Hs3; now subst w2 w1).
    destruct (users (session w) !! (client_id client, user_id)) as [u|] eqn:E.
    - unfold ret. f_equal. simpl. rewrite insert_id by exact E.
      rewrite <- Hs. now destruct w3 as [? []].
    - unfold modify. now rewrite Hs. }
  rewrite (bind_Return _ _ _ _ _ Hcreate); cbv beta.
  unfold getitem. rewrite Hprops.
  unfold put_device, db_session_commit.
  unfold lift, update_properties.
  repeat (rewrite ?bind_ret, ?bind_modify; cbv beta iota).
  match goal with
  | |- context [bind (describe env ?d) _ ?wf] =>
      destruct (describe_run env d wf) as (md & w' & Hd & Hst')
  end.
  rewrite (bind_Return _ _ _ _ _ Hd); cbv beta.
  destruct Hst' as (Hp' & Hs' & Ht' & _).
  assert (Hu4 : users (session w4) !! (client_id client, user_id) = Some u0).
  { unfold w4. simpl. apply lookup_insert_eq. }
  eexists md, w', _. split; [reflexivity|].
  rewrite Hp', Hs', Ht'.
  cbn [persisted session transactions set_session set_persisted
       set_transactions].
  split; [reflexivity|].
  split; [reflexivity|].
  split; [unfold w4; simpl; rewrite Ht3; now subst w2|].
  split.
  - erewrite users_db_put_device; [reflexivity|].
    erewrite users_db_put_device; [reflexivity|].
    erewrite users_db_put_device; [reflexivity|exact Hu4].
  - simpl. apply lookup_insert_eq.
Qed.

Lemma register_response_inv w w1 client user_id response_data resp w' :
  let k := (client_id client, user_id,
            challenge (rr_clientData (registerResponse response_data))) in
  get_client env request w = (Return client, w1) ->
  _register_response env request user_id response_data w = (Return resp, w') ->
  exists rd reg cert a p,
    transactions w !! k = Some rd
    /\ complete_registration env rd (registerResponse response_data)
         (valid_facets client) = Return (reg, cert)
    /\ (get_attestation env cert w).1 = Return (AttObject a)
    /\ (ALLOW_UNTRUSTED env = true \/ trusted a = true)
    /\ rd !! "properties" = Some (JDict p).
Proof.
  intros k Hc Hrun.
  pose proof (get_user_resolved env request _ _ _ user_id
                (get_client_again env request _ _ _ Hc)) as Hu.
  pose proof (get_client_inv env request _ _ _ Hc) as Hw1.
  unfold _register_response in Hrun.
  rewrite (bind_Return _ _ _ _ _ Hc) in Hrun; cbv beta in Hrun.
  rewrite (bind_Return _ _ _ _ _ Hu) in Hrun; cbv beta in Hrun.
  unfold bind at 1 in Hrun. unfold store_retrieve at 1 in Hrun.
  assert (transactions w1 = transactions w) as Ht1 by now subst w1.
  rewrite Ht1 in Hrun. fold k in Hrun.
  destruct (transactions w !! k) as [rd|]; [|discriminate].
  unfold bind at 1 in Hrun.
  destruct (complete_registration env rd (registerResponse response_data)
              (valid_facets client)) as [[reg cert]|e] eqn:Hcr;
    [|discriminate].
  simpl lift in Hrun. unfold ret at 1 in Hrun. cbv beta iota in Hrun.
  simpl fst in Hrun. simpl snd in Hrun.
  set (w2 := set_transactions (delete k (transactions w)) w1) in Hrun.
  destruct (get_attestation_run env cert w2) as (w3 & Ha3 & Hst3).
  assert (Hfst : (get_attestation env cert w).1 = (get_attestation env cert w2).1).
  { symmetry. apply get_attestation_same_cache. now subst w2 w1. }
  rewrite Ha3 in Hfst.
  rewrite (bind_Return _ _ _ _ _ Ha3) in Hrun; cbv beta in Hrun.
  match type of Hfst with _ = (Return ?v, _).1 => destruct v as [|a] eqn:Hv end.
  - (* the cached empty string has no attributes *)
    destruct (ALLOW_UNTRUSTED env).
    + rewrite bind_ret in Hrun.
      apply bind_Return_inv in Hrun as (? & w4 & _ & Hrun).
      discriminate.
    + discriminate.
  - assert (Htrust : ALLOW_UNTRUSTED env = true \/ trusted a = true).
    { destruct (ALLOW_UNTRUSTED env); [now left|].
      destruct (trusted a); [now right|discriminate]. }
    exists rd, reg, cert, a.
    apply bind_Return_inv in Hrun as (? & w4 & _ & Hrun).
    apply bind_Return_inv in Hrun as (? & w5 & _ & Hrun).
    rewrite bind_ret in Hrun.
    apply bind_Return_inv in Hrun as (? & w6 & _ & Hrun).
    apply bind_Return_inv in Hrun as (props & w7 & Hget & Hrun).
    unfold getitem in Hget.
    destruct (rd !! "properties") as [v|] eqn:Hp; [|discriminate].
    injection Hget as <- <-.
    destruct v as [| | | | |p]; try discriminate.
    exists p. now repeat split.
Qed.

End Registration.

Section RegistrationPolicy.

Context (env : Env) (request : Request).

(** An untrusted attestation with untrusted devices not allowed: BadInput,
    raised before the session is touched. *)
Lemma register_response_untrusted w w1 client user_id response_data rd reg
  cert a :
  let k := (client_id client, user_id,
            challenge (rr_clientData (registerResponse response_data))) in
  get_client env request w = (Return client, w1) ->
  transactions w !! k = Some rd ->
  complete_registration env rd (registerResponse response_data)
    (valid_facets client) = Return (reg, cert) ->
  (get_attestation env cert w).1 = Return (AttObject a) ->
  trusted a = false ->
  ALLOW_UNTRUSTED env = false ->
  exists w',
    _register_response env request user_id response_data w =
      (Raise (BadInputException "Device attestation not trusted"), w')
    /\ persisted w' = persisted w /\ session w' = session w.
Proof.
  intros k Hc Htx Hcr Hatt Htrust Hallow.
  pose proof (get_user_resolved env request _ _ _ user_id
                (get_client_again env request _ _ _ Hc)) as Hu.
  pose proof (get_client_inv env request _ _ _ Hc) as Hw1.
  unfold _register_response.
  rewrite (bind_Return _ _ _ _ _ Hc); cbv beta.
  rewrite (bind_Return _ _ _ _ _ Hu); cbv beta.
  unfold bind at 1. unfold store_retrieve at 1.
  assert (transactions w1 = transactions w) as -> by now subst w1.
  fold k. rewrite Htx.
  unfold bind at 1. rewrite Hcr. simpl lift. unfold ret at 1.
  cbv beta iota. simpl fst. simpl snd.
  set (w2 := set_transactions (delete k (transactions w)) w1).
  destruct (get_attestation_run env cert w2) as (w3 & Ha3 & Hst3).
  assert (Hfst : (get_attestation env cert w2).1 = Return (AttObject a)).
  { rewrite <- Hatt. apply get_attestation_same_cache. now subst w2 w1. }
  assert (Ha3' : get_attestation env cert w2 = (Return (AttObject a), w3)).
  { rewrite Ha3. f_equal. rewrite Ha3 in Hfst. exact Hfst. }
  clear Ha3 Hfst. rewrite (bind_Return _ _ _ _ _ Ha3'); cbv beta.
  rewrite Hallow, Htrust. exists w3. split; [reflexivity|].
  destruct Hst3 as (Hp3 & Hs3 & _). rewrite Hp3, Hs3. now subst w2 w1.
Qed.

(** C4. Registration completion with an attestation that is not trusted:
    with untrusted devices not allowed it fails with BadInput "Device
    attestation not trusted", and neither the committed tables nor the
    session change (no Device, no User); with untrusted devices allowed, and
    the transaction carrying the properties map of its begin call, it
    returns and the committed tables hold the new Device under its handle
    with the registration's bind data and certificate. *)
Theorem untrusted_attestation_policy (w w1 : World) (client : Client)
  (user_id : string) (response_data : RegisterResponseData)
  (rd reg : dict) (cert : string) (a : Attestation) :
  let k := (client_id client, user_id,
            challenge (rr_clientData (registerResponse response_data))) in
  get_client env request w = (Return client, w1) ->
  transactions w !! k = Some rd ->
  complete_registration env rd (registerResponse response_data)
    (valid_facets client) = Return (reg, cert) ->
  (get_attestation env cert w).1 = Return (AttObject a) ->
  trusted a = false ->
  (ALLOW_UNTRUSTED env = false ->
   exists w',
     _register_response env request user_id response_data w =
       (Raise (BadInputException "Device attestation not trusted"), w')
     /\ persisted w' = persisted w /\ session w' = session w)
  /\ (ALLOW_UNTRUSTED env = true ->
      forall p, rd !! "properties" = Some (JDict p) ->
      exists resp w' u dev,
        _register_response env request user_id response_data w =
          (Return resp, w')
        /\ users (persisted w') !! (client_id client, user_id) = Some u
        /\ devices u !! fresh_handle env = Some dev
        /\ bind_data dev = reg /\ der (certificate dev) = cert).
Proof.
  intros k Hc Htx Hcr Hatt Htrust. split.
  - intros Hallow.
    exact (register_response_untrusted _ _ _ _ _ _ _ _ _ Hc Htx Hcr Hatt
             Htrust Hallow).
  - intros Hallow p Hp.
    destruct (register_response_commits env request _ _ _ _ _ _ _ _ _ _
                Hc Htx Hcr Hatt (or_introl Hallow) Hp)
      as (md & w' & u & Hrun & Hpers & _ & _ & Hu & Hd).
    eexists _, w', u, _. split; [exact Hrun|].
    rewrite Hpers. split; [exact Hu|]. split; [exact Hd|]. now split.
Qed.

End RegistrationPolicy.

Section Authentication.

Context (env : Env) (request : Request).

Lemma handle_of_key_run (rd device hm : dict) (kh : string) (v : jvalue) w :
  rd !! "handleMap" = Some (JDict hm) ->
  device !! "keyHandle" = Some (JStr kh) ->
  hm !! kh = Some v ->
  handle_of_key rd device w = (Return v, w).
Proof.
  intros H1 H2 H3. unfold handle_of_key, getitem, bind.
  rewrite H1, H2. unfold ret at 1 2. now rewrite H3.
Qed.

Lemma sign_response_stale w w1 client user_id response_data rd c' u h dev :
  get_client env request w = (Return client, w1) ->
  reaches_counter_check env w client user_id response_data rd c' u h dev ->
  c' <= counter_or_minus_one (counter dev) ->
  exists w',
    _sign_response env request user_id response_data w = (Return None, w')
    /\ persisted w' = persisted w /\ session w' = session w
    /\ transactions w'
       = delete (client_id client, user_id,
                 challenge (sr_clientData (signResponse response_data)))
           (transactions w).
Proof.
  intros Hc (device & presence & hm & kh & Htx & Hca & Husr & Hhm & Hkh & Hh
             & Hdev & Hcomp & Hpres) Hle.
  pose proof (get_user_resolved env request _ _ _ user_id
                (get_client_again env request _ _ _ Hc)) as Hu.
  pose proof (get_client_inv env request _ _ _ Hc) as Hw1.
  assert (session w1 = session w) as Hs1 by now subst w1.
  rewrite Hs1 in Hu.
  unfold _sign_response.
  rewrite (bind_Return _ _ _ _ _ Hc); cbv beta.
  rewrite (bind_Return _ _ _ _ _ Hu); cbv beta.
  unfold bind at 1. unfold store_retrieve at 1.
  assert (transactions w1 = transactions w) as -> by now subst w1.
  rewrite Htx.
  unfold bind at 1. rewrite Hca. simpl lift. unfold ret at 1.
  cbv beta iota. cbn [fst snd]. rewrite Husr.
  rewrite (bind_Return _ _ _ _ _ (handle_of_key_run _ _ _ _ _ _ Hhm Hkh Hh)).
  cbv beta iota.
  rewrite (devices_getitem_run _ _ _ _ _ Hdev); cbv beta. rewrite Hcomp.
  destruct (presence =? 0) eqn:Ep; [apply Z.eqb_eq in Ep; contradiction|].
  destruct (counter_or_minus_one (counter dev) <? c') eqn:Ec;
    [apply Z.ltb_lt in Ec; lia|].
  eexists. split; [reflexivity|]. now subst w1.
Qed.


Lemma sign_response_commits w w1 client user_id response_data rd c' u h dev p :
  let dev' :=
    set_properties (srd_properties response_data ∪ (p ∪ properties dev))
      (set_authenticated_at (Some (datetime_now env))
         (set_counter (Some c') dev)) in
  get_client env request w = (Return client, w1) ->
  reaches_counter_check env w client user_id response_data rd c' u h dev ->
  counter_or_minus_one (counter dev) < c' ->
  rd !! "properties" = Some (JDict p) ->
  exists md w' u',
    _sign_response env request user_id response_data w =
      (Return (Some (<["clientData" :=
                        client_data_json
                          (sr_clientData (signResponse response_data))]>
                       (get_descriptor env dev' (Some md)))), w')
    /\ persisted w' = session w'
    /\ clients (session w') = clients (session w)
    /\ transactions w'
       = delete (client_id client, user_id,
                 challenge (sr_clientData (signResponse response_data)))
           (transactions w)
    /\ users (session w') !! (client_id client, user_id) = Some u'
    /\ devices u' !! h = Some dev'
    /\ (forall h', h' <> h -> devices u' !! h' = devices u !! h').
Proof.
  intros dev' Hc (device & presence & hm & kh & Htx & Hca & Husr & Hhm & Hkh
                  & Hh & Hdev & Hcomp & Hpres) Hlt Hprops.
  pose proof (get_user_resolved env request _ _ _ user_id
                (get_client_again env request _ _ _ Hc)) as Hu.
  pose proof (get_client_inv env request _ _ _ Hc) as Hw1.
  assert (session w1 = session w) as Hs1 by now subst w1.
  rewrite Hs1 in Hu.
  unfold _sign_response.
  rewrite (bind_Return _ _ _ _ _ Hc); cbv beta.
  rewrite (bind_Return _ _ _ _ _ Hu); cbv beta.
  unfold bind at 1. unfold store_retrieve at 1.
  assert (transactions w1 = transactions w) as -> by now subst w1.
  rewrite Htx.
  unfold bind at 1. rewrite Hca. simpl lift. unfold ret at 1.
  cbv beta iota. cbn [fst snd]. rewrite Husr.
  rewrite (bind_Return _ _ _ _ _ (handle_of_key_run _ _ _ _ _ _ Hhm Hkh Hh)).
  cbv beta iota.
  rewrite (devices_getitem_run _ _ _ _ _ Hdev); cbv beta. rewrite Hcomp.
  destruct (presence =? 0) eqn:Ep; [apply Z.eqb_eq in Ep; contradiction|].
  destruct (counter_or_minus_one (counter dev) <? c') eqn:Ec;
    [|apply Z.ltb_ge in Ec; lia].
  unfold getitem. rewrite Hprops.
  unfold put_device, db_session_commit.
  unfold lift, update_properties.
  repeat (rewrite ?bind_ret, ?bind_modify; cbv beta iota).
  match goal with
  | |- context [bind (describe env ?d) _ ?wf] =>
      destruct (describe_run env d wf) as (md & w' & Hd & Hst')
  end.
  rewrite (bind_Return _ _ _ _ _ Hd); cbv beta.
  destruct Hst' as (Hp' & Hs' & Ht' & _).
  assert (Hu1 : users (session w1) !! (client_id client, user_id) = Some u)
    by now rewrite Hs1.
  eexists md, w', _. split; [reflexivity|].
  rewrite Hp', Hs', Ht'.
  cbn [persisted session transactions set_session set_persisted
       set_transactions].
  split; [reflexivity|].
  split; [now rewrite <- Hs1|].
  split; [reflexivity|].
  split.
  - erewrite users_db_put_device; [reflexivity|].
    erewrite users_db_put_device; [reflexivity|].
    erewrite users_db_put_device; [reflexivity|].
    erewrite users_db_put_device; [reflexivity|exact Hu1].
  - split.
    + simpl. apply lookup_insert_eq.
    + intros h' Hne. simpl. now rewrite !lookup_insert_ne.
Qed.

Lemma sign_response_inv w w1 client user_id response_data r w' :
  get_client env request w = (Return client, w1) ->
  _sign_response env request user_id response_data w = (Return r, w') ->
  exists rd c' u h dev,
    reaches_counter_check env w client user_id response_data rd c' u h dev
    /\ (c' <= counter_or_minus_one (counter dev)
        \/ (counter_or_minus_one (counter dev) < c'
            /\ exists p, rd !! "properties" = Some (JDict p))).
Proof.
  intros Hc Hrun.
  pose proof (get_user_resolved env request _ _ _ user_id
                (get_client_again env request _ _ _ Hc)) as Hu.
  pose proof (get_client_inv env request _ _ _ Hc) as Hw1.
  assert (session w1 = session w) as Hs1 by now subst w1.
  rewrite Hs1 in Hu.
  unfold _sign_response in Hrun.
  rewrite (bind_Return _ _ _ _ _ Hc) in Hrun; cbv beta in Hrun.
  rewrite (bind_Return _ _ _ _ _ Hu) in Hrun; cbv beta in Hrun.
  unfold bind at 1 in Hrun. unfold store_retrieve at 1 in Hrun.
  assert (transactions w1 = transactions w) as Ht1 by now subst w1.
  rewrite Ht1 in Hrun.
  destruct (transactions w !! _) as [rd|] eqn:Htx in Hrun; [|discriminate].
  unfold bind at 1 in Hrun.
  destruct (complete_authentication env rd (signResponse response_data)
              (valid_facets client)) as [[[device c'] presence]|e] eqn:Hca;
    [|discriminate].
  simpl lift in Hrun. unfold ret at 1 in Hrun. cbv beta iota in Hrun.
  cbn [fst snd] in Hrun.
  destruct (users (session w) !! (client_id client, user_id)) as [u|] eqn:Husr;
    [|discriminate].
  apply bind_Return_inv in Hrun as (hv & w3 & Hhk & Hrun).
  unfold handle_of_key in Hhk.
  apply bind_Return_inv in Hhk as (hmv & w4 & Hhm & Hhk).
  apply bind_Return_inv in Hhk as (khv & w5 & Hkh & Hhk).
  unfold getitem in Hhm, Hkh.
  destruct (rd !! "handleMap") as [x|] eqn:Ehm; [|discriminate].
  injection Hhm as <- <-.
  destruct (device !! "keyHandle") as [y|] eqn:Ekh; [|discriminate].
  injection Hkh as <- <-.
  destruct x as [| | | | |hm]; try discriminate.
  destruct y as [| | |kh| |]; try discriminate.
  unfold getitem in Hhk.
  destruct (hm !! kh) as [z|] eqn:Eh; [|discriminate].
  injection Hhk as <- <-.
  destruct z as [| | |h| |]; try discriminate.
  unfold devices_getitem in Hrun.
  destruct (devices u !! h) as [dev|] eqn:Edev; [|discriminate].
  simpl lift in Hrun. rewrite bind_ret in Hrun.
  destruct (compromised dev) eqn:Ecomp; [discriminate|].
  destruct (presence =? 0) eqn:Ep; [discriminate|].
  apply Z.eqb_neq in Ep.
  exists rd, c', u, h, dev. split.
  { exists device, presence, hm, kh. now repeat split. }
  destruct (counter_or_minus_one (counter dev) <? c') eqn:Ec.
  - apply Z.ltb_lt in Ec. right. split; [exact Ec|].
    apply bind_Return_inv in Hrun as (? & w6 & _ & Hrun).
    apply bind_Return_inv in Hrun as (? & w7 & _ & Hrun).
    apply bind_Return_inv in Hrun as (props & w8 & Hget & Hrun).
    unfold getitem in Hget.
    destruct (rd !! "properties") as [v|] eqn:Hp; [|discriminate].
    injection Hget as <- <-.
    destruct v as [| | | | |p]; try discriminate.
    now exists p.
  - apply Z.ltb_ge in Ec. now left.
Qed.

End Authentication.

Section Counter.

Context (env : Env) (request : Request).

Lemma counter_or_minus_one_nonzero (c : Z) :
  c <> 0 -> counter_or_minus_one (Some c) = c.
Proof.
  intros H. unfold counter_or_minus_one.
  destruct (c =? 0) eqn:E; [apply Z.eqb_eq in E; contradiction|reflexivity].
Qed.

Lemma counter_or_minus_one_zero : counter_or_minus_one (Some 0) = -1.
Proof. reflexivity. Qed.

(** A stored counter other than zero: a presented counter that does not
    exceed it leaves the tables as they were (nothing is raised, nothing is
    returned). *)
Lemma stale_counter_changes_nothing w w1 client user_id response_data rd c c'
  u h dev :
  get_client env request w = (Return client, w1) ->
  reaches_counter_check env w client user_id response_data rd c' u h dev ->
  counter dev = Some c -> c <> 0 -> c' <= c ->
  exists w',
    _sign_response env request user_id response_data w = (Return None, w')
    /\ persisted w' = persisted w /\ session w' = session w.
Proof.
  intros Hc Hreach Hcnt Hnz Hle.
  destruct (sign_response_stale env request _ _ _ _ _ _ _ _ _ _ Hc Hreach)
    as (w' & Hrun & Hp & Hs & _).
  - rewrite Hcnt, counter_or_minus_one_nonzero by exact Hnz. exact Hle.
  - now exists w'.
Qed.

(** An accepted authentication never lowers a stored counter. *)
Lemma accepted_counter_not_lower (c c' : Z) :
  counter_or_minus_one (Some c) < c' -> c <= c'.
Proof.
  unfold counter_or_minus_one. destruct (c =? 0) eqn:E; [|lia].
  apply Z.eqb_eq in E. lia.
Qed.

(** C1. A device whose stored counter is 0, and an authentication that
    presents the counter 0 again: the handler takes the update branch.  It
    returns a descriptor, commits, and the committed device has a new
    last-authenticated timestamp and merged properties; the replay is not
    rejected. *)
Theorem replay_at_counter_zero (w w1 : World) (client : Client)
  (user_id : string) (response_data : SignResponseData) (rd : dict)
  (u : User) (h : string) (dev : Device) (p : dict) :
  get_client env request w = (Return client, w1) ->
  reaches_counter_check env w client user_id response_data rd 0 u h dev ->
  counter dev = Some 0 ->
  rd !! "properties" = Some (JDict p) ->
  exists resp w' u' dev',
    _sign_response env request user_id response_data w
      = (Return (Some resp), w')
    /\ users (persisted w') !! (client_id client, user_id) = Some u'
    /\ devices u' !! h = Some dev'
    /\ counter dev' = Some 0
    /\ authenticated_at dev' = Some (datetime_now env)
    /\ properties dev'
       = srd_properties response_data ∪ (p ∪ properties dev).
Proof.
  intros Hc Hreach Hcnt Hp.
  destruct (sign_response_commits env request _ _ _ _ _ _ _ _ _ _ p
              Hc Hreach)
    as (md & w' & u' & Hrun & Hpers & _ & _ & Hu' & Hd' & _).
  - rewrite Hcnt, counter_or_minus_one_zero. lia.
  - exact Hp.
  - eexists _, w', u', _. split; [exact Hrun|].
    rewrite Hpers. split; [exact Hu'|]. split; [exact Hd'|].
    now repeat split.
Qed.

End Counter.

Section Precedence.

Context (env : Env) (request : Request).

Lemma lookup_union_first (m1 m2 : dict) (key : string) :
  (m1 ∪ m2) !! key
  = match m1 !! key with
    | Some v => Some v
    | None => m2 !! key
    end.
Proof.
  rewrite lookup_union. now destruct (m1 !! key), (m2 !! key).
Qed.

(** C5. A completion that commits applies the begin-time properties of the
    transaction first and the response-time properties second.  After a
    registration completion that returns, and after an authentication
    completion that returns a descriptor (for the device [dev0] that the
    handler reached under handle [h]), the committed device has under every
    key the response-time value if the response has the key, else the
    begin-time value if the transaction has it, else the value stored before
    (a new device has none). *)
Theorem property_merge_precedence (w w1 : World) (client : Client)
  (user_id : string) :
  get_client env request w = (Return client, w1) ->
  (forall response_data resp w',
     _register_response env request user_id response_data w
       = (Return resp, w') ->
     exists rd p u dev,
       transactions w
         !! (client_id client, user_id,
             challenge (rr_clientData (registerResponse response_data)))
         = Some rd
       /\ rd !! "properties" = Some (JDict p)
       /\ users (persisted w') !! (client_id client, user_id) = Some u
       /\ devices u !! fresh_handle env = Some dev
       /\ forall key,
            properties dev !! key
            = match rrd_properties response_data !! key with
              | Some v => Some v
              | None => p !! key
              end)
  /\ (forall response_data resp w',
     _sign_response env request user_id response_data w
       = (Return (Some resp), w') ->
     exists rd p u h dev0 u' dev c',
       reaches_counter_check env w client user_id response_data rd c' u h dev0
       /\ rd !! "properties" = Some (JDict p)
       /\ users (persisted w') !! (client_id client, user_id) = Some u'
       /\ devices u' !! h = Some dev
       /\ forall key,
            properties dev !! key
            = match srd_properties response_data !! key with
              | Some v => Some v
              | None =>
                  match p !! key with
                  | Some v => Some v
                  | None => properties dev0 !! key
                  end
              end).
Proof.
  intros Hc. split.
  - intros response_data resp w' Hrun.
    destruct (register_response_inv env request _ _ _ _ _ _ _ Hc Hrun)
      as (rd & reg & cert & a & p & Htx & Hcr & Hatt & Htrust & Hp).
    destruct (register_response_commits env request _ _ _ _ _ _ _ _ _ _
                Hc Htx Hcr Hatt Htrust Hp)
      as (md & w'' & u & Hrun' & Hpers & _ & _ & Hu & Hd).
    rewrite Hrun in Hrun'. injection Hrun' as _ <-.
    eexists rd, p, u, _. split; [exact Htx|]. split; [exact Hp|].
    rewrite Hpers. split; [exact Hu|]. split; [exact Hd|].
    intros key. simpl. rewrite lookup_union_first.
    destruct (rrd_properties response_data !! key); [reflexivity|].
    rewrite lookup_union_first, lookup_empty. now destruct (p !! key).
  - intros response_data resp w' Hrun.
    destruct (sign_response_inv env request _ _ _ _ _ _ _ Hc Hrun)
      as (rd & c' & u & h & dev0 & Hreach & Hcase).
    destruct Hcase as [Hle | (Hlt & p & Hp)].
    + destruct (sign_response_stale env request _ _ _ _ _ _ _ _ _ _
                  Hc Hreach Hle) as (w'' & Hrun' & _).
      rewrite Hrun in Hrun'. discriminate.
    + destruct (sign_response_commits env request _ _ _ _ _ _ _ _ _ _ p
                  Hc Hreach Hlt Hp)
        as (md & w'' & u' & Hrun' & Hpers & _ & _ & Hu' & Hd' & _).
      rewrite Hrun in Hrun'. injection Hrun' as _ <-.
      eexists rd, p, u, h, dev0, u', _, c'.
      split; [exact Hreach|]. split; [exact Hp|]. rewrite Hpers.
      split; [exact Hu'|]. split; [exact Hd'|].
      intros key. simpl. rewrite !lookup_union_first. reflexivity.
Qed.

End Precedence.

Section SingleUse.

Context (env : Env) (request : Request).

Lemma set_transactions_id w : set_transactions (transactions w) w = w.
Proof. now destruct w. Qed.

Lemma register_response_no_transaction w w1 client user_id response_data :
  get_client env request w = (Return client, w1) ->
  transactions w
    !! (client_id client, user_id,
        challenge (rr_clientData (registerResponse response_data))) = None ->
  _register_response env request user_id response_data w
  = (Raise (NotFoundException "Transaction not found"), w1).
Proof.
  intros Hc Htx.
  pose proof (get_user_resolved env request _ _ _ user_id
                (get_client_again env request _ _ _ Hc)) as Hu.
  pose proof (get_client_inv env request _ _ _ Hc) as Hw1.
  assert (transactions w1 = transactions w) as Ht1 by now subst w1.
  unfold _register_response.
  rewrite (bind_Return _ _ _ _ _ Hc); cbv beta.
  rewrite (bind_Return _ _ _ _ _ Hu); cbv beta.
  unfold bind at 1. unfold store_retrieve at 1.
  rewrite Ht1, Htx. unfold raise. f_equal.
  rewrite delete_id by exact Htx. rewrite <- Ht1. apply set_transactions_id.
Qed.

Lemma sign_response_no_transaction w w1 client user_id response_data :
  get_client env request w = (Return client, w1) ->
  transactions w
    !! (client_id client, user_id,
        challenge (sr_clientData (signResponse response_data))) = None ->
  _sign_response env request user_id response_data w
  = (Raise (NotFoundException "Transaction not found"), w1).
Proof.
  intros Hc Htx.
  pose proof (get_user_resolved env request _ _ _ user_id
                (get_client_again env request _ _ _ Hc)) as Hu.
  pose proof (get_client_inv env request _ _ _ Hc) as Hw1.
  assert (transactions w1 = transactions w) as Ht1 by now subst w1.
  unfold _sign_response.
  rewrite (bind_Return _ _ _ _ _ Hc); cbv beta.
  rewrite (bind_Return _ _ _ _ _ Hu); cbv beta.
  unfold bind at 1. unfold store_retrieve at 1.
  rewrite Ht1, Htx. unfold raise. f_equal.
  rewrite delete_id by exact Htx. rewrite <- Ht1. apply set_transactions_id.
Qed.

(** A handler that returns has resolved its client. *)
Lemma register_response_resolved w user_id response_data resp w' :
  _register_response env request user_id response_data w = (Return resp, w') ->
  exists client w1, get_client env request w = (Return client, w1).
Proof.
  unfold _register_response. intros H.
  apply bind_Return_inv in H as (client & w1 & Hc & _). now exists client, w1.
Qed.

Lemma sign_response_resolved w user_id response_data r w' :
  _sign_response env request user_id response_data w = (Return r, w') ->
  exists client w1, get_client env request w = (Return client, w1).
Proof.
  unfold _sign_response. intros H.
  apply bind_Return_inv in H as (client & w1 & Hc & _). now exists client, w1.
Qed.

(** The next request of the same caller resolves the same client when the
    client table is the same. *)
Lemma get_client_next_request w w1 w' client :
  g_client w = None ->
  get_client env request w = (Return client, w1) ->
  clients (session w') = clients (session w) ->
  get_client env request (set_g_client None w')
  = (Return client, set_g_client (Some client) w').
Proof.
  intros Hg Hc Hcl. rewrite (get_client_fresh env request _ Hg) in Hc.
  rewrite get_client_fresh by reflexivity.
  destruct (principal_name env request) as [name|]; [|discriminate].
  simpl. rewrite Hcl.
  destruct (query_one name (clients (session w))); [|discriminate].
  injection Hc as -> _. reflexivity.
Qed.

(** C8. A completion retrieves its transaction once.  When the store has
    no record under (client id, user id, challenge of the response), both
    completions fail with NotFound "Transaction not found" in a world that
    differs from the initial one in [g.client] only; this holds whatever the
    U2F engine of the environment would answer.  Hence, after a completion
    that returned, the same completion in the next request fails with
    NotFound "Transaction not found". *)
Theorem transaction_is_single_use (w : World) (user_id : string) :
  g_client w = None ->
  (forall client w1,
     get_client env request w = (Return client, w1) ->
     (forall response_data,
        transactions w
          !! (client_id client, user_id,
              challenge (rr_clientData (registerResponse response_data)))
          = None ->
        _register_response env request user_id response_data w
        = (Raise (NotFoundException "Transaction not found"),
           set_g_client (Some client) w))
     /\ (forall response_data,
        transactions w
          !! (client_id client, user_id,
              challenge (sr_clientData (signResponse response_data)))
          = None ->
        _sign_response env request user_id response_data w
        = (Raise (NotFoundException "Transaction not found"),
           set_g_client (Some client) w)))
  /\ (forall response_data resp w',
      _register_response env request user_id response_data w
        = (Return resp, w') ->
      (_register_response env request user_id response_data
         (set_g_client None w')).1
      = Raise (NotFoundException "Transaction not found"))
  /\ (forall response_data r w',
      _sign_response env request user_id response_data w = (Return r, w') ->
      (_sign_response env request user_id response_data
         (set_g_client None w')).1
      = Raise (NotFoundException "Transaction not found")).
Proof.
  intros Hg. split; [|split].
  - intros client w1 Hc.
    rewrite <- (get_client_inv env request _ _ _ Hc). split.
    + intros response_data Htx.
      exact (register_response_no_transaction _ _ _ _ _ Hc Htx).
    + intros response_data Htx.
      exact (sign_response_no_transaction _ _ _ _ _ Hc Htx).
  - intros response_data resp w' Hrun.
    destruct (register_response_resolved _ _ _ _ _ Hrun) as (client & w1 & Hc).
    destruct (register_response_inv env request _ _ _ _ _ _ _ Hc Hrun)
      as (rd & reg & cert & a & p & Htx & Hcr & Hatt & Htrust & Hp).
    destruct (register_response_commits env request _ _ _ _ _ _ _ _ _ _
                Hc Htx Hcr Hatt Htrust Hp)
      as (md & w'' & u & Hrun' & _ & Hcl & Ht & _).
    rewrite Hrun in Hrun'. injection Hrun' as _ <-.
    erewrite register_response_no_transaction; [reflexivity| |].
    + exact (get_client_next_request _ _ _ _ Hg Hc Hcl).
    + simpl. rewrite Ht. apply lookup_delete_eq.
  - intros response_data r w' Hrun.
    destruct (sign_response_resolved _ _ _ _ _ Hrun) as (client & w1 & Hc).
    destruct (sign_response_inv env request _ _ _ _ _ _ _ Hc Hrun)
      as (rd & c' & u & h & dev0 & Hreach & Hcase).
    assert (clients (session w') = clients (session w)
            /\ transactions w'
               = delete (client_id client, user_id,
                         challenge (sr_clientData (signResponse response_data)))
                   (transactions w)) as [Hcl Ht].
    { destruct Hcase as [Hle | (Hlt & p & Hp)].
      - destruct (sign_response_stale env request _ _ _ _ _ _ _ _ _ _
                    Hc Hreach Hle) as (w'' & Hrun' & _ & Hs & Ht).
        rewrite Hrun in Hrun'. injection Hrun' as _ <-. now rewrite Hs.
      - destruct (sign_response_commits env request _ _ _ _ _ _ _ _ _ _ p
                    Hc Hreach Hlt Hp)
          as (md & w'' & u' & Hrun' & _ & Hcl & Ht & _).
        rewrite Hrun in Hrun'. injection Hrun' as _ <-. now split. }
    erewrite sign_response_no_transaction; [reflexivity| |].
    + exact (get_client_next_request _ _ _ _ Hg Hc Hcl).
    + simpl. rewrite Ht. apply lookup_delete_eq.
Qed.

End SingleUse.

Section BeginRecords.

Context (env : Env) (request : Request).

Lemma lift_Return_inv {A} (r : result A) w a w' :
  lift r w = (Return a, w') -> r = Return a /\ w' = w.
Proof.
  destruct r as [a0|e]; simpl; unfold ret, raise; intros H;
    [now injection H as -> ->|discriminate].
Qed.

Lemma getitem_Some (d : dict) (key : string) (v : jvalue) w :
  d !! key = Some v -> getitem d key w = (Return v, w).
Proof. intros H. unfold getitem. now rewrite H. Qed.

(** C10. The record that begin-registration stores has the key
    'properties', and the record that begin-authentication stores has the
    keys 'handleMap' (a dictionary) and 'properties'; so the subscripts
    [request_data['properties']] and [request_data['handleMap']] of the
    completion handlers return on such a record and do not raise KeyError. *)
Theorem begin_records_have_lookup_keys (w w1 : World) (client : Client)
  (user_id chal : string) (props : jvalue) :
  get_client env request w = (Return client, w1) ->
  (forall data w',
     _register_request env request user_id chal props w = (Return data, w') ->
     exists rd,
       transactions w' !! (client_id client, user_id, chal) = Some rd
       /\ rd !! "properties" = Some props
       /\ forall w0, getitem rd "properties" w0 = (Return props, w0))
  /\ (forall data w',
     _sign_request env request user_id chal props w = (Return data, w') ->
     exists rd hm,
       transactions w' !! (client_id client, user_id, chal) = Some rd
       /\ rd !! "handleMap" = Some (JDict hm)
       /\ rd !! "properties" = Some props
       /\ (forall w0, getitem rd "handleMap" w0 = (Return (JDict hm), w0))
       /\ (forall w0, getitem rd "properties" w0 = (Return props, w0))).
Proof.
  intros Hc.
  pose proof (get_user_resolved env request _ _ _ user_id
                (get_client_again env request _ _ _ Hc)) as Hu.
  split.
  - intros data w' Hrun. unfold _register_request in Hrun.
    rewrite (bind_Return _ _ _ _ _ Hc) in Hrun; cbv beta in Hrun.
    rewrite (bind_Return _ _ _ _ _ Hu) in Hrun; cbv beta in Hrun.
    apply bind_Return_inv in Hrun as (collected & w2 & _ & Hrun).
    apply bind_Return_inv in Hrun as (rd0 & w3 & Hb & Hrun).
    apply lift_Return_inv in Hb as [_ ->].
    unfold store_store in Hrun. rewrite bind_modify in Hrun.
    apply bind_Return_inv in Hrun as (data0 & w4 & Hwrap & Hrun).
    apply lift_Return_inv in Hwrap as [_ ->].
    unfold ret in Hrun. injection Hrun as _ <-.
    exists (<["properties" := props]> rd0).
    assert (Hp : <["properties" := props]> rd0 !! "properties" = Some props)
      by apply lookup_insert_eq.
    split; [simpl; apply lookup_insert_eq|]. split; [exact Hp|].
    intros w0. now apply getitem_Some.
  - intros data w' Hrun. unfold _sign_request in Hrun.
    rewrite (bind_Return _ _ _ _ _ Hc) in Hrun; cbv beta in Hrun.
    rewrite (bind_Return _ _ _ _ _ Hu) in Hrun; cbv beta in Hrun.
    destruct (users (session w1) !! (client_id client, user_id)) as [u|];
      [|discriminate].
    case_bool_decide; [discriminate|].
    apply bind_Return_inv in Hrun as (collected & w2 & _ & Hrun).
    destruct (collected.1.1) as [|key0 keys]; [discriminate|].
    apply bind_Return_inv in Hrun as (rd0 & w3 & Hb & Hrun).
    apply lift_Return_inv in Hb as [_ ->].
    unfold store_store in Hrun. rewrite bind_modify in Hrun.
    apply bind_Return_inv in Hrun as (data0 & w4 & Hwrap & Hrun).
    apply lift_Return_inv in Hwrap as [_ ->].
    unfold ret in Hrun. injection Hrun as _ <-.
    eexists (<["properties" := props]> (<["handleMap" := JDict _]> rd0)), _.
    assert (Hp : forall (d : dict),
              <["properties" := props]> d !! "properties" = Some props)
      by (intros; apply lookup_insert_eq).
    assert (Hh : forall (d : dict) v,
              <["properties" := props]> (<["handleMap" := v]> d) !! "handleMap"
              = Some v).
    { intros. rewrite lookup_insert_ne by discriminate.
      apply lookup_insert_eq. }
    split; [simpl; apply lookup_insert_eq|].
    split; [apply Hh|]. split; [apply Hp|].
    split; intros w0; apply getitem_Some; [apply Hh|apply Hp].
Qed.

End BeginRecords.

Section BeginAuthentication.

Context (env : Env) (request : Request).

Lemma for_each_Forall2 {A B} (f : A -> M B) (xs : list A) w ys w' :
  for_each f xs w = (Return ys, w') ->
  Forall2 (fun x y => exists w0 w0', f x w0 = (Return y, w0')) xs ys.
Proof.
  revert w ys w'. induction xs as [|x xs IH]; intros w ys w' H.
  - injection H as <- _. constructor.
  - simpl in H. apply bind_Return_inv in H as (y & w1 & Hy & H).
    apply bind_Return_inv in H as (ys' & w2 & Hys & H).
    injection H as <- _. constructor; [now exists w, w1|].
    exact (IH _ _ _ Hys).
Qed.

Lemma key_eqb_code (a b : jvalue) :
  key_eqb a b = true
  <-> exists c, key_code a = Some c /\ key_code b = Some c.
Proof.
  destruct a as [|[|]|x|x|x|x], b as [|[|]|y|y|y|y]; simpl;
    try case_bool_decide; split;
    try discriminate; try (intros (c & [= <-] & [= ?]); congruence);
    try (intros (c & [= ] & _)); try (intros (c & _ & [= ]));
    try (intros _; eexists; split; reflexivity);
    try (intros _; subst; eexists; split; reflexivity);
    reflexivity.
Qed.

Lemma key_eqb_refl (k : jvalue) : hashable k = true -> key_eqb k k = true.
Proof.
  intros H. apply key_eqb_code.
  destruct k; try discriminate; eexists; split; reflexivity.
Qed.

Lemma key_eqb_hashable (a b : jvalue) :
  key_eqb a b = true -> hashable a = true /\ hashable b = true.
Proof.
  intros H. apply key_eqb_code in H as (c & Ha & Hb).
  split; [destruct a|destruct b]; try discriminate; reflexivity.
Qed.

Lemma key_eqb_left (a b c : jvalue) :
  key_eqb a b = true -> key_eqb a c = key_eqb b c.
Proof.
  intros H. apply key_eqb_code in H as (x & Ha & Hb).
  destruct (key_eqb a c) eqn:E1.
  - apply key_eqb_code in E1 as (y & Ha' & Hc). symmetry.
    apply key_eqb_code. exists y. split; [congruence|exact Hc].
  - destruct (key_eqb b c) eqn:E2; [|reflexivity].
    apply key_eqb_code in E2 as (y & Hb' & Hc).
    assert (key_eqb a c = true); [|congruence].
    apply key_eqb_code. exists y. split; [congruence|exact Hc].
Qed.

Lemma key_eqb_sym (a b : jvalue) : key_eqb a b = key_eqb b a.
Proof.
  destruct (key_eqb a b) eqn:E1.
  - apply key_eqb_code in E1 as (x & Ha & Hb). symmetry.
    apply key_eqb_code. now exists x.
  - destruct (key_eqb b a) eqn:E2; [|reflexivity].
    apply key_eqb_code in E2 as (x & Hb & Ha).
    assert (key_eqb a b = true); [|congruence].
    apply key_eqb_code. now exists x.
Qed.

(** Reading a dictionary after one assignment. *)
Lemma dict_get_set (k k' : jvalue) (v : string) (m : pydict) :
  hashable k' = true ->
  dict_get k (dict_set k' v m)
  = if key_eqb k' k then Some v else dict_get k m.
Proof.
  intros Hk'. induction m as [|[k0 v0] m IH]; simpl.
  - reflexivity.
  - destruct (key_eqb k0 k') eqn:E0; simpl.
    + rewrite (key_eqb_left _ _ k E0). now destruct (key_eqb k' k).
    + rewrite IH. destruct (key_eqb k' k) eqn:E1; [|reflexivity].
      destruct (key_eqb k0 k) eqn:E2; [|reflexivity].
      rewrite (key_eqb_sym k' k) in E1.
      rewrite (key_eqb_left _ _ k' E2), E1 in E0. discriminate.
Qed.

(** An item of a dictionary after one assignment was there before, or is
    the assigned value under an equal key. *)
Lemma dict_set_item (k k' : jvalue) (h v : string) (m : pydict) :
  hashable k' = true ->
  (k, h) ∈ dict_set k' v m ->
  (k, h) ∈ m \/ (h = v /\ key_eqb k k' = true).
Proof.
  intros Hk'. induction m as [|[k0 v0] m IH]; simpl.
  - intros H. apply list_elem_of_singleton in H as [= -> ->].
    right. split; [reflexivity|now apply key_eqb_refl].
  - destruct (key_eqb k0 k') eqn:E0; intros H;
      apply elem_of_cons in H as [H|H].
    + injection H as -> ->. now right.
    + left. now right.
    + injection H as -> ->. left. now left.
    + destruct (IH H) as [Hin|Hnew]; [left; now right|now right].
Qed.

Lemma json_of_fold_insert (m : pydict) (acc : dict) (k : string) (x : jvalue) :
  k ∉ json_key <$> m.*1 ->
  foldl (fun o kv => <[json_key kv.1 := JStr kv.2]> o) (<[k := x]> acc) m
  = <[k := x]> (foldl (fun o kv => <[json_key kv.1 := JStr kv.2]> o) acc m).
Proof.
  revert acc. induction m as [|[k0 v0] m IH]; intros acc Hk; simpl.
  - reflexivity.
  - simpl in Hk. apply not_elem_of_cons in Hk as [Hne Hk].
    rewrite <- IH by exact Hk. f_equal. now apply insert_insert_ne.
Qed.

Lemma json_of_fold_set (m : pydict) (acc : dict) (k h : string) :
  Forall (fun kv => exists s, kv.1 = JStr s) m ->
  NoDup m.*1 ->
  foldl (fun o kv => <[json_key kv.1 := JStr kv.2]> o) acc
    (dict_set (JStr k) h m)
  = <[k := JStr h]>
      (foldl (fun o kv => <[json_key kv.1 := JStr kv.2]> o) acc m).
Proof.
  revert acc. induction m as [|[k0 v0] m IH]; intros acc Hs Hnd; simpl.
  - reflexivity.
  - apply Forall_cons in Hs as [(s & Hk0) Hs]. simpl in Hk0. subst k0.
    simpl in Hnd. apply NoDup_cons in Hnd as [Hnotin Hnd].
    simpl. case_bool_decide as Heq.
    + subst s. simpl.
      assert (Hk : k ∉ json_key <$> m.*1).
      { intros Hin. apply list_elem_of_fmap in Hin as (k1 & Hk1 & Hin).
        apply Hnotin.
        assert (k1 = JStr k); [|now subst k1].
        apply list_elem_of_fmap in Hin as ([k2 v2] & -> & Hin2).
        rewrite Forall_forall in Hs. destruct (Hs _ Hin2) as (s2 & Hs2).
        simpl in Hs2, Hk1 |- *. subst k2. simpl in Hk1. now subst s2. }
      rewrite !json_of_fold_insert by exact Hk.
      now rewrite insert_insert_eq.
    + simpl. now apply IH.
Qed.

Lemma string_keyed_empty : string_keyed [] ∅.
Proof.
  split; [constructor|]. split; [constructor|].
  unfold json_of_handle_map. simpl. now rewrite fmap_empty.
Qed.

Lemma string_keyed_set (m : pydict) (g : gmap string string) (k h : string) :
  string_keyed m g -> string_keyed (dict_set (JStr k) h m) (<[k := h]> g).
Proof.
  intros (Hs & Hnd & Himg). split; [|split].
  - clear Hnd Himg. induction m as [|[k0 v0] m IH]; simpl.
    + constructor; [now exists k|constructor].
    + apply Forall_cons in Hs as [Hk0 Hs].
      destruct (key_eqb k0 (JStr k)); constructor; auto.
  - clear Himg. induction m as [|[k0 v0] m IH]; simpl.
    + apply NoDup_singleton.
    + apply Forall_cons in Hs as [(s & Hk0) Hs]. simpl in Hk0. subst k0.
      simpl in Hnd. apply NoDup_cons in Hnd as [Hnotin Hnd].
      simpl. case_bool_decide as Heq; simpl.
      * apply NoDup_cons. now split.
      * apply NoDup_cons. split; [|now apply IH].
        intros Hin. apply list_elem_of_fmap in Hin as ([k1 v1] & Hk1 & Hin).
        simpl in Hk1. subst k1.
        apply (dict_set_item _ (JStr k) _ _ _ eq_refl) in Hin
          as [Hin|[_ Hin]].
        -- apply Hnotin. now apply (list_elem_of_fmap_2 fst _ (JStr s, v1)).
        -- simpl in Hin. case_bool_decide; [contradiction|discriminate].
  - unfold json_of_handle_map in *.
    rewrite json_of_fold_set by assumption.
    now rewrite Himg, fmap_insert.
Qed.

(** The loop of [_sign_request] skips the compromised devices and, when
    the key handles of the others are strings, runs one [eligible_entry]
    for each of them, in order. *)
Lemma sign_request_loop_entries (items : list (string * Device))
  (ks ds : list dict) (m : pydict) (g : gmap string string) (w w' : World)
  (es : list (dict * dict * string * string)) :
  string_keyed m g ->
  for_each (eligible_entry env request)
    (filter (fun d => compromised d = false) items.*2) w = (Return es, w') ->
  exists m',
    sign_request_loop env request items ks ds m w
    = (Return (ks ++ (entry_key <$> es), ds ++ (entry_descriptor <$> es), m'),
       w')
    /\ string_keyed m' (handle_map_of g es).
Proof.
  revert ks ds m g w es.
  induction items as [|[h dev] items IH]; intros ks ds m g w es Hm Hfe.
  - injection Hfe as <- <-. exists m. simpl. rewrite !app_nil_r.
    split; [reflexivity|exact Hm].
  - simpl sign_request_loop. rewrite fmap_cons in Hfe. simpl snd in Hfe.
    destruct (compromised dev) eqn:Ec.
    + rewrite filter_cons_False in Hfe by (rewrite Ec; discriminate).
      exact (IH _ _ _ _ _ _ Hm Hfe).
    + rewrite filter_cons_True in Hfe by exact Ec.
      simpl for_each in Hfe.
      apply bind_Return_inv in Hfe as (e & w1 & He & Hfe).
      apply bind_Return_inv in Hfe as (es' & w2 & Hes & Hfe).
      injection Hfe as <- <-.
      unfold eligible_entry in He.
      apply bind_Return_inv in He as (descriptor & wa & Hd & He).
      apply bind_Return_inv in He as (key & wb & Hk & He).
      apply bind_Return_inv in He as (kh & wc & Hg & He).
      destruct kh as [| | |k| |]; try discriminate.
      injection He as <- <-.
      rewrite (bind_Return _ _ _ _ _ Hd); cbv beta.
      rewrite (bind_Return _ _ _ _ _ Hk); cbv beta.
      rewrite (bind_Return _ _ _ _ _ Hg); cbv beta.
      unfold dict_setitem. simpl hashable. cbv iota. simpl lift.
      rewrite bind_ret.
      destruct (IH (ks ++ [key]) (ds ++ [descriptor]) _ _ _ _
                  (string_keyed_set _ _ k (handle dev) Hm) Hes)
        as (m' & Hrun & Hm').
      exists m'. split; [|exact Hm'].
      rewrite Hrun. unfold entry_key, entry_descriptor. simpl.
      now rewrite <- !app_assoc.
Qed.

Lemma eligible_entry_inv dev w e w' :
  eligible_entry env request dev w = (Return e, w') ->
  e.2 = handle dev
  /\ (exists md, entry_descriptor e = get_descriptor env dev (Some md))
  /\ (exists w1 w2,
        _get_registered_key env request dev (entry_descriptor e) w1
        = (Return (entry_key e), w2)).
Proof.
  unfold eligible_entry. intros H.
  apply bind_Return_inv in H as (descriptor & w1 & Hd & H).
  apply bind_Return_inv in H as (key & w2 & Hk & H).
  apply bind_Return_inv in H as (kh & w3 & Hg & H).
  destruct kh as [| | |k| |]; try discriminate.
  injection H as <- _. unfold entry_descriptor, entry_key. simpl.
  split; [reflexivity|]. split.
  - destruct (describe_run env dev w) as (md & w1' & Hd' & _).
    rewrite Hd in Hd'. injection Hd' as -> _. now exists md.
  - now exists w1, w2.
Qed.

Lemma devices_values_compromised (u : User) :
  (forall h d, devices u !! h = Some d -> compromised d = true) ->
  filter (fun d => compromised d = false) (map_to_list (devices u)).*2 = [].
Proof.
  intros Hall.
  destruct (filter (fun d => compromised d = false)
              (map_to_list (devices u)).*2) as [|d l] eqn:E; [reflexivity|].
  assert (Hin : d ∈ filter (fun d => compromised d = false)
                      (map_to_list (devices u)).*2)
    by (rewrite E; left).
  apply list_elem_of_filter in Hin as [Hc Hin].
  apply list_elem_of_fmap in Hin as ([h d'] & -> & Hin).
  apply elem_of_map_to_list in Hin. simpl in Hc.
  rewrite (Hall _ _ Hin) in Hc. discriminate.
Qed.

(** C7. Beginning an authentication, for a resolved client.  (1) No such
    user, or a user without devices: NoEligibleDevices "No devices
    registered" with an empty descriptor list.  (2) A user with devices that
    are all compromised: NoEligibleDevices "All devices compromised" with
    the descriptors of all the devices, rendered without metadata.  (3) A
    user with a device that is not compromised: the loop makes one entry
    for each device that is not compromised and none for the others; the
    U2F engine gets the registered keys of these entries, and the answer
    carries their descriptors, each the rendering with metadata of its
    device. *)
Theorem sign_request_eligibility (w w1 : World) (client : Client)
  (user_id chal : string) (props : jvalue) :
  get_client env request w = (Return client, w1) ->
  (match users (session w) !! (client_id client, user_id) with
   | None => True
   | Some u => devices u = ∅
   end ->
   _sign_request env request user_id chal props w
   = (Raise (NoEligibleDevicesException "No devices registered" []), w1))
  /\ (forall u,
      users (session w) !! (client_id client, user_id) = Some u ->
      devices u <> ∅ ->
      (forall h d, devices u !! h = Some d -> compromised d = true) ->
      _sign_request env request user_id chal props w
      = (Raise (NoEligibleDevicesException "All devices compromised"
                  ((fun d => get_descriptor env d None) <$> devices_values u)),
         w1))
  /\ (forall u entries w2 rd0 data,
      users (session w) !! (client_id client, user_id) = Some u ->
      eligible_devices u <> [] ->
      for_each (eligible_entry env request) (eligible_devices u) w1
      = (Return entries, w2) ->
      begin_authentication env (app_id client) (entry_key <$> entries) chal
      = Return rd0 ->
      let rd :=
        <["properties" := props]>
          (<["handleMap" := JDict (JStr <$> handle_map_of ∅ entries)]> rd0) in
      RequestData_wrap env (data_for_client env rd) = Return data ->
      _sign_request env request user_id chal props w
      = (Return (<["descriptors" :=
                    JList (JDict <$> (entry_descriptor <$> entries))]> data),
         set_transactions
           (<[(client_id client, user_id, chal) := rd]> (transactions w2)) w2)
      /\ Forall2
           (fun d e =>
              compromised d = false /\ e.2 = handle d
              /\ (exists md,
                    entry_descriptor e = get_descriptor env d (Some md))
              /\ (exists w3 w4,
                    _get_registered_key env request d (entry_descriptor e) w3
                    = (Return (entry_key e), w4)))
           (eligible_devices u) entries).
Proof.
  intros Hc.
  pose proof (get_user_resolved env request _ _ _ user_id
                (get_client_again env request _ _ _ Hc)) as Hu.
  assert (session w1 = session w) as Hs1
    by (rewrite (get_client_inv env request _ _ _ Hc); reflexivity).
  rewrite Hs1 in Hu.
  split; [|split].
  - intros Hnone. unfold _sign_request.
    rewrite (bind_Return _ _ _ _ _ Hc); cbv beta.
    rewrite (bind_Return _ _ _ _ _ Hu); cbv beta.
    destruct (users (session w) !! (client_id client, user_id)) as [u|];
      [|reflexivity].
    rewrite Hnone, map_size_empty. reflexivity.
  - intros u Husr Hne Hall. unfold _sign_request.
    rewrite (bind_Return _ _ _ _ _ Hc); cbv beta.
    rewrite (bind_Return _ _ _ _ _ Hu); cbv beta.
    rewrite Husr. rewrite bool_decide_eq_false_2
      by (intros Hz; apply map_size_empty_iff in Hz; contradiction).
    unfold bind at 1.
    destruct (sign_request_loop_entries (map_to_list (devices u)) [] [] []
                ∅ w1 w1 [] string_keyed_empty) as (m' & Hloop & _).
    { now rewrite (devices_values_compromised u Hall). }
    now rewrite Hloop.
  - intros u entries w2 rd0 data Husr Hne Hfe Hb rd Hwrap.
    assert (Hrel := for_each_Forall2 _ _ _ _ _ Hfe).
    split.
    + unfold _sign_request.
      rewrite (bind_Return _ _ _ _ _ Hc); cbv beta.
      rewrite (bind_Return _ _ _ _ _ Hu); cbv beta.
      rewrite Husr. rewrite bool_decide_eq_false_2.
      2:{ intros Hz. apply map_size_empty_iff in Hz. apply Hne.
          unfold eligible_devices, devices_values.
          now rewrite Hz, map_to_list_empty. }
      unfold bind at 1.
      unfold eligible_devices, devices_values in Hfe.
      destruct (sign_request_loop_entries _ [] [] [] ∅ _ _ _
                  string_keyed_empty Hfe) as (m' & Hloop & _ & _ & Himg).
      rewrite Hloop. cbn [fst snd].
      rewrite !app_nil_l.
      remember (entry_key <$> entries) as keys eqn:Ek in *.
      destruct keys as [|k0 keys].
      { symmetry in Ek. apply fmap_nil_inv in Ek. subst entries.
        apply Forall2_nil_inv_r in Hrel. contradiction. }
      rewrite Himg, Hb. simpl lift. rewrite bind_ret.
      unfold store_store. rewrite bind_modify.
      fold rd. rewrite Hwrap. reflexivity.
    + assert (Hall : Forall (fun d => compromised d = false)
                       (eligible_devices u)).
      { apply Forall_forall. intros d Hd.
        now apply list_elem_of_filter in Hd as [Hcomp _]. }
      revert Hall. clear -Hrel. induction Hrel as [|d e l k He _ IH].
      * constructor.
      * intros Hall. apply Forall_cons in Hall as [Hcomp Hall].
        constructor; [|now apply IH].
        destruct He as (w3 & w4 & He).
        split; [exact Hcomp|]. exact (eligible_entry_inv _ _ _ _ He).
Qed.

End BeginAuthentication.

(** * The statements at the example installation *)

Lemma returns_Raise {A} (r : result A * World) e w :
  r = (Raise e, w) -> returns r = true -> False.
Proof. intros ->. discriminate. Qed.

Lemma resolved_rp m :
  get_client (Sample.env false) (Sample.request m (Some "rp"%string))
    Sample.world
  = (Return Sample.rp, set_g_client (Some Sample.rp) Sample.world).
Proof. reflexivity. Qed.

Lemma get_client_resolution_witness :
  get_client (Sample.env false) (Sample.request GET None) Sample.world
  = (Raise (BadInputException "No client specified"), Sample.world)
  /\ get_client (Sample.env false)
       (SampleRoutes.basic_auth_request (Some "rp"%string)) Sample.world
     = (Raise (BadInputException "No client specified"), Sample.world)
  /\ get_client (Sample.env false)
       (Sample.request GET (Some "nobody"%string)) Sample.world
     = (Raise (NotFoundException "Client not found"), Sample.world)
  /\ get_client SampleRoutes.silent_env
       (SampleRoutes.basic_auth_request (Some "nobody"%string)) Sample.world
     = (Raise (NotFoundException "Client not found"), Sample.world)
  /\ get_client (Sample.env false) (Sample.request GET (Some "rp"%string))
       Sample.world
     = (Return Sample.rp, set_g_client (Some Sample.rp) Sample.world)
  /\ get_client SampleRoutes.silent_env
       (SampleRoutes.basic_auth_request (Some "rp"%string)) Sample.world
     = (Return Sample.rp, set_g_client (Some Sample.rp) Sample.world).
Proof.
  assert (Habsent : forall c,
            c ∈ clients (session Sample.world) ->
            client_name c <> "nobody"%string).
  { intros c Hc. apply list_elem_of_singleton in Hc. subst c. discriminate. }
  assert (Hin : Sample.rp ∈ clients (session Sample.world))
    by (apply list_elem_of_singleton; reflexivity).
  assert (Hnd : NoDup (client_name <$> clients (session Sample.world)))
    by apply NoDup_singleton.
  destruct (get_client_resolution (Sample.env false)
              (Sample.request GET None) Sample.world eq_refl)
    as (Hnone & _ & _).
  destruct (get_client_resolution (Sample.env false)
              (SampleRoutes.basic_auth_request (Some "rp"%string))
              Sample.world eq_refl) as (Hdisabled & _ & _).
  destruct (get_client_resolution (Sample.env false)
              (Sample.request GET (Some "nobody"%string)) Sample.world
              eq_refl) as (_ & Hunknown & _).
  destruct (get_client_resolution SampleRoutes.silent_env
              (SampleRoutes.basic_auth_request (Some "nobody"%string))
              Sample.world eq_refl) as (_ & Hunknown' & _).
  destruct (get_client_resolution (Sample.env false)
              (Sample.request GET (Some "rp"%string)) Sample.world
              eq_refl) as (_ & _ & Hknown).
  destruct (get_client_resolution SampleRoutes.silent_env
              (SampleRoutes.basic_auth_request (Some "rp"%string))
              Sample.world eq_refl) as (_ & _ & Hknown').
  split; [|split; [|split; [|split; [|split]]]].
  - apply Hnone; [reflexivity|right; left; reflexivity].
  - apply Hdisabled; [reflexivity|left; reflexivity].
  - apply (Hunknown "nobody"%string); [left; reflexivity|exact Habsent].
  - apply (Hunknown' "nobody"%string); [|exact Habsent].
    right. repeat split.
  - apply (Hknown Sample.rp); [left; reflexivity|exact Hnd|exact Hin].
  - apply (Hknown' Sample.rp); [|exact Hnd|exact Hin].
    right. repeat split.
Defined.

Lemma delete_of_missing_user_witness :
  user (Sample.env false) (Sample.request DELETE (Some "rp"%string))
    "carol" Sample.world
  = (Return NoContent, set_g_client (Some Sample.rp) Sample.world)
  /\ device (Sample.env false) (Sample.request DELETE (Some "rp"%string))
       "carol" "d1" Sample.world
     = (Raise (NotFoundException "Device not found"),
        set_g_client (Some Sample.rp) Sample.world).
Proof.
  destruct (delete_of_missing_user (Sample.env false)
              (Sample.request DELETE (Some "rp"%string)) Sample.world _
              Sample.rp "carol" "d1" eq_refl (resolved_rp DELETE))
    as (_ & Hmissing).
  assert (Hnone : users (session Sample.world) !! (1, "carol"%string) = None)
    by (vm_compute; reflexivity).
  destruct (Hmissing Hnone) as (Huser & _ & _ & Hdevice).
  split; [exact Huser|exact Hdevice].
Defined.

(** A DELETE that addresses a user who does not exist, sent to the device
    route: it is not answered with "no content". *)
Lemma device_delete_missing_user_fails :
  users (session Sample.world) !! (1, "carol"%string) = None
  /\ (device (Sample.env false) (Sample.request DELETE (Some "rp"%string))
        "carol" "d1" Sample.world).1
     = Raise (NotFoundException "Device not found")
  /\ (device (Sample.env false) (Sample.request DELETE (Some "rp"%string))
        "carol" "d1" Sample.world).1
     <> Return NoContent.
Proof.
  split; [vm_compute; reflexivity|].
  assert (H : (device (Sample.env false)
                 (Sample.request DELETE (Some "rp"%string))
                 "carol" "d1" Sample.world).1
              = Raise (NotFoundException "Device not found"))
    by (vm_compute; reflexivity).
  split; [exact H|]. rewrite H. discriminate.
Qed.

Lemma device_certificate_missing_handle_witness :
  device_certificate (Sample.env false)
    (Sample.request GET (Some "rp"%string)) "bob" "d1" Sample.world
  = (Raise (KeyError (JStr "d1")),
     set_g_client (Some Sample.rp) Sample.world)
  /\ device (Sample.env false)
       (Sample.request GET (Some "rp"%string)) "bob" "d1" Sample.world
     = (Raise (KeyError (JStr "d1")),
        set_g_client (Some Sample.rp) Sample.world).
Proof.
  destruct (device_certificate_missing_handle (Sample.env false)
              (Sample.request GET (Some "rp"%string)) Sample.world _
              Sample.rp Sample.bob "bob" "d1" (resolved_rp GET)
              eq_refl eq_refl) as (Hcert & Hdev & _).
  split; [exact Hcert|exact Hdev].
Defined.

Lemma registered_key_normalization_witness :
  exists key w1,
    _get_registered_key (Sample.env false)
      (Sample.request GET (Some "rp"%string)) Sample.key1
      (get_descriptor (Sample.env false) Sample.key1 None) Sample.world
    = (Return key, w1)
    /\ bind_data Sample.key1 !! "transports" = Some (JStr "stored")
    /\ key !! "transports" = Some (JInt 4)
    /\ key !! "appId" = None
    /\ key !! "version" = Some (JStr "U2F_V2")
    /\ key !! "keyHandle" = Some (JStr "kh1").
Proof.
  destruct (registered_key_normalization (Sample.env false)
              (Sample.request GET (Some "rp"%string)) Sample.key1
              (get_descriptor (Sample.env false) Sample.key1 None)
              (JInt 4) Sample.world _ Sample.rp (resolved_rp GET) eq_refl)
    as (key & Hrun & Ht & Happ & _ & Hver & _ & Hother).
  exists key, (set_g_client (Some Sample.rp) Sample.world).
  split; [exact Hrun|]. split; [reflexivity|]. split; [exact Ht|].
  split; [apply Happ; reflexivity|].
  split; [apply Hver; reflexivity|].
  rewrite Hother by discriminate. reflexivity.
Defined.

Lemma replay_at_counter_zero_witness :
  counter Sample.key1 = Some 0
  /\ authenticated_at Sample.key1 = Some 100
  /\ exists resp w' u' dev',
       _sign_response (Sample.env false)
         (Sample.request POST (Some "rp"%string)) "alice"
         (Sample.sign_response_data "kh1" 0) Sample.world
       = (Return (Some resp), w')
       /\ users (persisted w') !! (1, "alice"%string) = Some u'
       /\ devices u' !! "d1" = Some dev'
       /\ counter dev' = Some 0
       /\ authenticated_at dev' = Some 200
       /\ properties dev' !! "name" = Some (JStr "c").
Proof.
  split; [reflexivity|]. split; [reflexivity|].
  destruct (replay_at_counter_zero (Sample.env false)
              (Sample.request POST (Some "rp"%string)) Sample.world _
              Sample.rp "alice" (Sample.sign_response_data "kh1" 0)
              Sample.auth_record Sample.alice "d1" Sample.key1
              (<["name" := JStr "b"]> (<["seen" := JBool true]> ∅))
              (resolved_rp POST))
    as (resp & w' & u' & dev' & Hrun & Hu & Hd & Hc & Ha & Hp).
  - exists (<["keyHandle" := JStr "kh1"]> ∅), 1,
      (<["kh1" := JStr "d1"]> ∅), "kh1"%string.
    repeat split; try reflexivity. discriminate.
  - reflexivity.
  - reflexivity.
  - exists resp, w', u', dev'. repeat split; try assumption.
    rewrite Hp. reflexivity.
Defined.

Lemma untrusted_attestation_policy_witness :
  (exists w',
     _register_response (Sample.env false)
       (Sample.request POST (Some "rp"%string)) "alice"
       Sample.register_response_data Sample.world
     = (Raise (BadInputException "Device attestation not trusted"), w')
     /\ persisted w' = persisted Sample.world
     /\ session w' = session Sample.world)
  /\ (exists resp w' u dev,
        _register_response (Sample.env true)
          (Sample.request POST (Some "rp"%string)) "alice"
          Sample.register_response_data Sample.world
        = (Return resp, w')
        /\ users (persisted w') !! (1, "alice"%string) = Some u
        /\ devices u !! "d-new" = Some dev
        /\ bind_data dev = <["keyHandle" := JStr "kh-new"]> ∅
        /\ der (certificate dev) = "der-new"%string).
Proof.
  pose (a := {| trusted := false; vendor_info := JNull; device_info := JNull;
                att_transports := Some [4; 1] |}).
  destruct (untrusted_attestation_policy (Sample.env false)
              (Sample.request POST (Some "rp"%string)) Sample.world _
              Sample.rp "alice" Sample.register_response_data
              Sample.reg_record (<["keyHandle" := JStr "kh-new"]> ∅)
              "der-new" a (resolved_rp POST) eq_refl eq_refl eq_refl eq_refl)
    as (Hoff & _).
  destruct (untrusted_attestation_policy (Sample.env true)
              (Sample.request POST (Some "rp"%string)) Sample.world _
              Sample.rp "alice" Sample.register_response_data
              Sample.reg_record (<["keyHandle" := JStr "kh-new"]> ∅)
              "der-new" a (resolved_rp POST) eq_refl eq_refl eq_refl eq_refl)
    as (_ & Hon).
  split.
  - apply Hoff. reflexivity.
  - apply (Hon eq_refl
             (<["name" := JStr "a"]> (<["color" := JStr "red"]> ∅))).
    reflexivity.
Defined.

Lemma property_merge_precedence_witness :
  (exists resp w' u dev,
     _register_response (Sample.env true)
       (Sample.request POST (Some "rp"%string)) "alice"
       Sample.register_response_data Sample.world
     = (Return resp, w')
     /\ users (persisted w') !! (1, "alice"%string) = Some u
     /\ devices u !! "d-new" = Some dev
     /\ properties dev !! "name" = Some (JStr "b")
     /\ properties dev !! "color" = Some (JStr "red"))
  /\ (exists resp w' u dev,
     _sign_response (Sample.env true)
       (Sample.request POST (Some "rp"%string)) "alice"
       (Sample.sign_response_data "kh1" 3) Sample.world
     = (Return (Some resp), w')
     /\ users (persisted w') !! (1, "alice"%string) = Some u
     /\ devices u !! "d1" = Some dev
     /\ properties dev !! "name" = Some (JStr "c")
     /\ properties dev !! "seen" = Some (JBool true)
     /\ properties dev !! "slot" = Some (JInt 1)).
Proof.
  destruct (property_merge_precedence (Sample.env true)
              (Sample.request POST (Some "rp"%string)) Sample.world _
              Sample.rp "alice" (resolved_rp POST)) as (Hreg & Hsign).
  split.
  - destruct (_register_response (Sample.env true)
                (Sample.request POST (Some "rp"%string)) "alice"
                Sample.register_response_data Sample.world)
      as [[resp|e] w'] eqn:Hrun.
    + destruct (Hreg _ _ _ Hrun)
        as (rd & p & u & dev & Htx & Hp & Hu & Hd & Hkeys).
      assert (Hrd : Some rd = Some Sample.reg_record)
        by (rewrite <- Htx; reflexivity).
      injection Hrd as ->.
      assert (Hp' : Some (JDict p)
                    = Some (JDict (<["name" := JStr "a"]>
                                     (<["color" := JStr "red"]> ∅))))
        by (rewrite <- Hp; reflexivity).
      injection Hp' as ->.
      exists resp, w', u, dev. split; [reflexivity|].
      split; [exact Hu|]. split; [exact Hd|].
      rewrite !Hkeys. split; reflexivity.
    + exfalso. apply (returns_Raise _ _ _ Hrun). vm_compute. reflexivity.
  - destruct (_sign_response (Sample.env true)
                (Sample.request POST (Some "rp"%string)) "alice"
                (Sample.sign_response_data "kh1" 3) Sample.world)
      as [[[resp|]|e] w'] eqn:Hrun.
    + destruct (Hsign _ _ _ Hrun)
        as (rd & p & u & h & dev0 & u' & dev & c' & Hreach & Hp & Hu' & Hd
            & Hkeys).
      destruct Hreach as (device & presence & hm & kh & Htx & Hca & Hu & Hhm
                          & Hkh & Hh & Hd0 & _).
      assert (Hrd : Some rd = Some Sample.auth_record)
        by (rewrite <- Htx; reflexivity).
      injection Hrd as ->.
      assert (Hp' : Some (JDict p)
                    = Some (JDict (<["name" := JStr "b"]>
                                     (<["seen" := JBool true]> ∅))))
        by (rewrite <- Hp; reflexivity).
      injection Hp' as ->.
      assert (Hdev : Return (device, c', presence)
                     = Return (<["keyHandle" := JStr "kh1"]> ∅ : dict, 3, 1))
        by (rewrite <- Hca; reflexivity).
      injection Hdev as -> -> ->.
      assert (Hkh' : Some (JStr kh) = Some (JStr "kh1"))
        by (rewrite <- Hkh; reflexivity).
      injection Hkh' as ->.
      assert (Hhm' : Some (JDict hm)
                     = Some (JDict (<["kh1" := JStr "d1"]> ∅)))
        by (rewrite <- Hhm; reflexivity).
      injection Hhm' as ->.
      assert (Hh' : Some (JStr h) = Some (JStr "d1"))
        by (rewrite <- Hh; reflexivity).
      injection Hh' as ->.
      assert (Hu0 : Some u = Some Sample.alice)
        by (rewrite <- Hu; reflexivity).
      injection Hu0 as ->.
      assert (Hd0' : Some dev0 = Some Sample.key1)
        by (rewrite <- Hd0; reflexivity).
      injection Hd0' as ->.
      exists resp, w', u', dev. split; [reflexivity|].
      split; [exact Hu'|]. split; [exact Hd|].
      rewrite !Hkeys. repeat split; reflexivity.
    + exfalso.
      assert (H : match (_sign_response (Sample.env true)
                           (Sample.request POST (Some "rp"%string)) "alice"
                           (Sample.sign_response_data "kh1" 3)
                           Sample.world).1 with
                  | Return (Some _) => true
                  | _ => false
                  end = true) by (vm_compute; reflexivity).
      rewrite Hrun in H. discriminate.
    + exfalso. apply (returns_Raise _ _ _ Hrun). vm_compute. reflexivity.
Defined.

Lemma sign_request_eligibility_witness :
  _sign_request (Sample.env false) (Sample.request GET (Some "rp"%string))
    "carol" "ch" (JDict ∅) Sample.world
  = (Raise (NoEligibleDevicesException "No devices registered" []),
     set_g_client (Some Sample.rp) Sample.world)
  /\ _sign_request (Sample.env false)
       (Sample.request GET (Some "rp"%string)) "bob" "ch" (JDict ∅)
       Sample.world
     = (Raise (NoEligibleDevicesException "All devices compromised"
                 [get_descriptor (Sample.env false) Sample.key2 None]),
        set_g_client (Some Sample.rp) Sample.world)
  /\ eligible_devices Sample.alice = [Sample.key1]
  /\ exists data w' e,
       _sign_request (Sample.env false)
         (Sample.request GET (Some "rp"%string)) "alice" "ch" (JDict ∅)
         Sample.world
       = (Return data, w')
       /\ data !! "descriptors" = Some (JList [JDict (entry_descriptor e)])
       /\ data !! "registeredKeys" = Some (JList [JDict (entry_key e)])
       /\ e.2 = "d1"%string.
Proof.
  destruct (sign_request_eligibility (Sample.env false)
              (Sample.request GET (Some "rp"%string)) Sample.world _
              Sample.rp "carol" "ch" (JDict ∅) (resolved_rp GET))
    as (Hnone & _ & _).
  destruct (sign_request_eligibility (Sample.env false)
              (Sample.request GET (Some "rp"%string)) Sample.world _
              Sample.rp "bob" "ch" (JDict ∅) (resolved_rp GET))
    as (_ & Hall & _).
  destruct (sign_request_eligibility (Sample.env false)
              (Sample.request GET (Some "rp"%string)) Sample.world _
              Sample.rp "alice" "ch" (JDict ∅) (resolved_rp GET))
    as (_ & _ & Hsome).
  split; [apply Hnone; exact I|].
  split.
  - rewrite (Hall Sample.bob eq_refl).
    + reflexivity.
    + intros Hempty.
      assert (H : devices Sample.bob !! "d2" = (∅ : gmap string Device) !! "d2")
        by now rewrite Hempty.
      discriminate.
    + intros h d Hd.
      destruct (decide (h = "d2"%string)) as [->|Hne].
      * injection Hd as <-. reflexivity.
      * unfold Sample.bob in Hd. simpl in Hd.
        rewrite lookup_insert_ne in Hd by congruence.
        rewrite lookup_empty in Hd. discriminate.
  - split; [reflexivity|].
    destruct (for_each (eligible_entry (Sample.env false)
                          (Sample.request GET (Some "rp"%string)))
                (eligible_devices Sample.alice)
                (set_g_client (Some Sample.rp) Sample.world))
      as [[entries|err] w2] eqn:Hfe.
    + destruct (Hsome Sample.alice entries w2 _ _ eq_refl
                  ltac:(discriminate) Hfe eq_refl eq_refl) as (Hrun & Hrel).
      change (eligible_devices Sample.alice) with [Sample.key1] in Hrel.
      apply Forall2_cons_inv_l in Hrel as (e & rest & (_ & He & _) & Hrest & ->).
      apply Forall2_nil_inv_l in Hrest as ->.
      eexists _, _, e. split; [exact Hrun|].
      split; [reflexivity|]. split; [reflexivity|exact He].
    + exfalso. apply (returns_Raise _ _ _ Hfe). vm_compute. reflexivity.
Defined.

Lemma transaction_is_single_use_witness :
  _register_response (Sample.env true)
    (Sample.request POST (Some "rp"%string)) "bob"
    Sample.register_response_data Sample.world
  = (Raise (NotFoundException "Transaction not found"),
     set_g_client (Some Sample.rp) Sample.world)
  /\ exists resp w',
       _register_response (Sample.env true)
         (Sample.request POST (Some "rp"%string)) "alice"
         Sample.register_response_data Sample.world
       = (Return resp, w')
       /\ (_register_response (Sample.env true)
             (Sample.request POST (Some "rp"%string)) "alice"
             Sample.register_response_data (set_g_client None w')).1
          = Raise (NotFoundException "Transaction not found").
Proof.
  destruct (transaction_is_single_use (Sample.env true)
              (Sample.request POST (Some "rp"%string)) Sample.world "bob"
              eq_refl) as (Hmissing & _ & _).
  destruct (transaction_is_single_use (Sample.env true)
              (Sample.request POST (Some "rp"%string)) Sample.world "alice"
              eq_refl) as (_ & Hreplay & _).
  split.
  - apply (Hmissing Sample.rp _ (resolved_rp POST)). reflexivity.
  - destruct (_register_response (Sample.env true)
                (Sample.request POST (Some "rp"%string)) "alice"
                Sample.register_response_data Sample.world)
      as [[resp|e] w'] eqn:Hrun.
    + exists resp, w'. split; [reflexivity|]. exact (Hreplay _ _ _ Hrun).
    + exfalso. apply (returns_Raise _ _ _ Hrun). vm_compute. reflexivity.
Defined.

Lemma begin_records_have_lookup_keys_witness :
  (exists data w' rd,
     _register_request (Sample.env true)
       (Sample.request GET (Some "rp"%string)) "alice" "ch"
       (JDict (<["name" := JStr "a"]> ∅)) Sample.world
     = (Return data, w')
     /\ transactions w' !! (1, "alice"%string, "ch"%string) = Some rd
     /\ rd !! "properties" = Some (JDict (<["name" := JStr "a"]> ∅)))
  /\ (exists data w' rd hm,
     _sign_request (Sample.env true)
       (Sample.request GET (Some "rp"%string)) "alice" "ch"
       (JDict (<["name" := JStr "a"]> ∅)) Sample.world
     = (Return data, w')
     /\ transactions w' !! (1, "alice"%string, "ch"%string) = Some rd
     /\ rd !! "handleMap" = Some (JDict hm)
     /\ rd !! "properties" = Some (JDict (<["name" := JStr "a"]> ∅))).
Proof.
  split.
  - destruct (_register_request (Sample.env true)
                (Sample.request GET (Some "rp"%string)) "alice" "ch"
                (JDict (<["name" := JStr "a"]> ∅)) Sample.world)
      as [[data|e] w'] eqn:Hrun.
    + destruct (begin_records_have_lookup_keys (Sample.env true)
                  (Sample.request GET (Some "rp"%string)) Sample.world _
                  Sample.rp "alice" "ch" (JDict (<["name" := JStr "a"]> ∅))
                  (resolved_rp GET)) as (Hreg & _).
      destruct (Hreg _ _ Hrun) as (rd & Htx & Hp & _).
      exists data, w', rd. split; [reflexivity|]. split; [exact Htx|exact Hp].
    + exfalso. apply (returns_Raise _ _ _ Hrun). vm_compute. reflexivity.
  - destruct (_sign_request (Sample.env true)
                (Sample.request GET (Some "rp"%string)) "alice" "ch"
                (JDict (<["name" := JStr "a"]> ∅)) Sample.world)
      as [[data|e] w'] eqn:Hrun.
    + destruct (begin_records_have_lookup_keys (Sample.env true)
                  (Sample.request GET (Some "rp"%string)) Sample.world _
                  Sample.rp "alice" "ch" (JDict (<["name" := JStr "a"]> ∅))
                  (resolved_rp GET)) as (_ & Hsign).
      destruct (Hsign _ _ Hrun) as (rd & hm & Htx & Hh & Hp & _).
      exists data, w', rd, hm. split; [reflexivity|].
      split; [exact Htx|]. split; [exact Hh|exact Hp].
    + exfalso. apply (returns_Raise _ _ _ Hrun). vm_compute. reflexivity.
Defined.

(** * Further properties of view.py *)

Section CacheBehaviour.

Context (env : Env) (request : Request).

(** X1. Two attestation lookups in a row: the second lookup, of any
    certificate with the same digest and made in the state that the first
    one left, returns what the first one returned and changes nothing,
    whatever the metadata provider would answer then.  This holds for every
    outcome of the first lookup, so also when the provider knew nothing of
    the certificate and the empty string was cached. *)
Theorem get_attestation_is_cached (env' : Env) (cert cert' : string)
  (w w1 : World) (r : result attestation_value) :
  sha256_hexdigest env' cert' = sha256_hexdigest env cert ->
  get_attestation env cert w = (r, w1) ->
  get_attestation env' cert' w1 = (r, w1).
Proof.
  intros Hkey. unfold get_attestation, bind, get_world, modify, ret.
  rewrite Hkey.
  destruct (attestation_cache w !! sha256_hexdigest env cert) as [a|] eqn:E.
  - intros [= <- <-]. now rewrite E.
  - intros [= <- <-]. simpl. now rewrite lookup_insert_eq.
Qed.

Lemma get_metadata_hit (e : Env) (dev : Device) (w : World) (md : dict) :
  metadata_cache w !! cert_id (certificate dev) = Some md ->
  get_metadata e dev w = (Return md, w).
Proof. intros H. unfold get_metadata, bind, get_world. now rewrite H. Qed.

Lemma get_metadata_miss (dev : Device) (w : World) :
  metadata_cache w !! cert_id (certificate dev) = None ->
  exists md w0,
    get_metadata env dev w
    = (Return md,
       set_metadata_cache
         (<[cert_id (certificate dev) := md]> (metadata_cache w0)) w0).
Proof.
  intros H. unfold get_metadata, bind, get_world. rewrite H.
  destruct (get_attestation_run env (der (certificate dev)) w)
    as (w0 & -> & _).
  unfold modify, ret. now eexists _, _.
Qed.

(** X2. Device metadata is cached under the certificate id: a second lookup
    for a device with the same certificate id returns the first result and
    changes nothing, whatever the certificate bytes and the provider are. *)
Theorem get_metadata_is_cached (env' : Env) (dev dev' : Device)
  (w w1 : World) (r : result dict) :
  cert_id (certificate dev') = cert_id (certificate dev) ->
  get_metadata env dev w = (r, w1) ->
  get_metadata env' dev' w1 = (r, w1).
Proof.
  intros Hid.
  destruct (metadata_cache w !! cert_id (certificate dev)) as [md|] eqn:E.
  - rewrite (get_metadata_hit env _ _ _ E). intros [= <- <-].
    apply get_metadata_hit. now rewrite Hid.
  - destruct (get_metadata_miss dev w E) as (md & w0 & ->).
    intros [= <- <-]. apply get_metadata_hit. rewrite Hid. simpl.
    apply lookup_insert_eq.
Qed.

(** X3. Metadata computed on a cache miss has no keys but 'vendor' and
    'device', and each value it has is a truthy field of the attestation. *)
Theorem get_metadata_fresh_keys (dev : Device) (w w1 : World) (md : dict) :
  metadata_cache w !! cert_id (certificate dev) = None ->
  get_metadata env dev w = (Return md, w1) ->
  forall k v, md !! k = Some v ->
    (k = "vendor"%string \/ k = "device"%string) /\ truthy v = true.
Proof.
  intros Hmiss. unfold get_metadata, bind, get_world. rewrite Hmiss.
  destruct (get_attestation_run env (der (certificate dev)) w)
    as (w0 & -> & _).
  unfold modify, ret. intros [= <- _] k v.
  destruct (match attestation_cache w !! sha256_hexdigest env (der (certificate dev)) with
            | Some a => a
            | None => match metadata_get_attestation env (der (certificate dev)) with
                      | Some a => AttObject a
                      | None => AttEmptyString
                      end
            end) as [|a].
  - rewrite lookup_empty. discriminate.
  - destruct (truthy (vendor_info a)) eqn:Ev, (truthy (device_info a)) eqn:Ed;
      intros Hk.
    + destruct (decide (k = "device"%string)) as [->|Hne].
      * rewrite lookup_insert_eq in Hk. injection Hk as <-. now split; [right|].
      * rewrite lookup_insert_ne in Hk by congruence.
        destruct (decide (k = "vendor"%string)) as [->|Hne'].
        -- rewrite lookup_insert_eq in Hk. injection Hk as <-.
           now split; [left|].
        -- rewrite lookup_insert_ne, lookup_empty in Hk by congruence.
           discriminate.
    + destruct (decide (k = "vendor"%string)) as [->|Hne'].
      * rewrite lookup_insert_eq in Hk. injection Hk as <-. now split; [left|].
      * rewrite lookup_insert_ne, lookup_empty in Hk by congruence.
        discriminate.
    + destruct (decide (k = "device"%string)) as [->|Hne].
      * rewrite lookup_insert_eq in Hk. injection Hk as <-. now split; [right|].
      * rewrite lookup_insert_ne, lookup_empty in Hk by congruence.
        discriminate.
    + rewrite lookup_empty in Hk. discriminate.
Qed.

(** X4. Client resolution is memoised in [g]: a failed resolution changes
    nothing, and after a successful one every later resolution in the same
    request returns the same client without looking at the principal or at
    the client table again. *)
Theorem get_client_is_memoised (w w1 : World) (r : result Client) :
  get_client env request w = (r, w1) ->
  match r with
  | Return c =>
      w1 = set_g_client (Some c) w
      /\ forall env' request', get_client env' request' w1 = (Return c, w1)
  | Raise _ => w1 = w
  end.
Proof.
  intros H. destruct r as [c|e].
  - pose proof (get_client_inv env request _ _ _ H) as ->.
    split; [reflexivity|]. intros env' request'.
    now apply get_client_cached.
  - exact (get_client_Raise_inv env request _ _ _ H).
Qed.

End CacheBehaviour.

Lemma bind_inv {A B} (m : M A) (k : A -> M B) w r w' :
  bind m k w = (r, w') ->
  (exists a w1, m w = (Return a, w1) /\ k a w1 = (r, w'))
  \/ (exists e, m w = (Raise e, w') /\ r = Raise e).
Proof.
  unfold bind. destruct (m w) as [[a|e] w1]; intros H.
  - left. now exists a, w1.
  - right. injection H as <- <-. now exists e.
Qed.

Lemma unchanged_refl w : unchanged w w.
Proof. now repeat split. Qed.

Lemma unchanged_trans w1 w2 w3 :
  unchanged w1 w2 -> unchanged w2 w3 -> unchanged w1 w3.
Proof. intros (?&?&?) (?&?&?). repeat split; congruence. Qed.

Lemma same_tables_unchanged w w' : same_tables w w' -> unchanged w w'.
Proof. intros (?&?&?&?). now repeat split. Qed.

Lemma for_each_keeps {A B} (I : World -> Prop) (f : A -> M B) :
  (forall w w', I w -> same_tables w w' -> I w') ->
  (forall x w r w', I w -> f x w = (r, w') -> same_tables w w') ->
  forall xs w r w',
    I w -> for_each f xs w = (r, w') -> same_tables w w'.
Proof.
  intros HI Hf xs. induction xs as [|x xs IH]; intros w r w' Hw H.
  - injection H as _ <-. apply same_tables_refl.
  - simpl in H. apply bind_inv in H as [(y & w1 & Hy & H)|(e & Hy & _)].
    + pose proof (Hf _ _ _ _ Hw Hy) as H1.
      apply bind_inv in H as [(ys & w2 & Hys & H)|(e & Hys & _)].
      * injection H as _ <-.
        exact (same_tables_trans _ _ _ H1 (IH _ _ _ (HI _ _ Hw H1) Hys)).
      * exact (same_tables_trans _ _ _ H1 (IH _ _ _ (HI _ _ Hw H1) Hys)).
    + exact (Hf _ _ _ _ Hw Hy).
Qed.

Section ReadOnly.

Context (env : Env) (request : Request).

Lemma get_client_unchanged w r w' :
  get_client env request w = (r, w') -> unchanged w w'.
Proof.
  intros H. destruct r as [c|e].
  - rewrite (get_client_inv env request _ _ _ H). now repeat split.
  - rewrite (get_client_Raise_inv env request _ _ _ H). apply unchanged_refl.
Qed.

Lemma get_user_unchanged user_id w r w' :
  get_user env request user_id w = (r, w') -> unchanged w w'.
Proof.
  unfold get_user. intros H.
  apply bind_inv in H as [(c & w1 & Hc & H)|(e & Hc & _)].
  - injection H as _ <-. exact (get_client_unchanged _ _ _ Hc).
  - exact (get_client_unchanged _ _ _ Hc).
Qed.

Lemma describe_same_tables dev w r w' :
  describe env dev w = (r, w') -> same_tables w w'.
Proof.
  destruct (describe_run env dev w) as (md & w1 & -> & Hst).
  now intros [= _ <-].
Qed.

Lemma for_each_describe_same_tables devs w r w' :
  for_each (describe env) devs w = (r, w') -> same_tables w w'.
Proof.
  apply (for_each_keeps (fun _ => True)); [trivial| |trivial].
  intros x w0 r0 w0' _. apply describe_same_tables.
Qed.

(** X5. The read-only routes: the trusted-facets route, GET on the user
    route, GET on the device route and the certificate route leave the
    committed tables, the session and the transaction store as they are,
    whether they return or raise (they can only fill the caches). *)
Theorem read_only_routes_change_nothing (user_id h : string) (w w' : World)
  (r : result response) :
  (trusted_facets env request w = (r, w') -> unchanged w w')
  /\ (method request <> DELETE ->
      user env request user_id w = (r, w') -> unchanged w w')
  /\ (method request = GET ->
      device env request user_id h w = (r, w') -> unchanged w w')
  /\ (device_certificate env request user_id h w = (r, w') -> unchanged w w').
Proof.
  split; [|split; [|split]].
  - unfold trusted_facets. intros H.
    apply bind_inv in H as [(c & w1 & Hc & H)|(e & Hc & _)];
      [injection H as _ <-|]; apply (get_client_unchanged _ _ _ Hc).
  - intros Hm H. unfold user in H.
    apply bind_inv in H as [(u & w1 & Hu & H)|(e & Hu & _)];
      [|apply (get_user_unchanged _ _ _ _ Hu)].
    pose proof (get_user_unchanged _ _ _ _ Hu) as H1.
    apply bind_inv in H as [(c & w2 & Hc & H)|(e & Hc & _)];
      [|exact (unchanged_trans _ _ _ H1 (get_client_unchanged _ _ _ Hc))].
    pose proof (unchanged_trans _ _ _ H1 (get_client_unchanged _ _ _ Hc)) as H2.
    assert (Hget :
      bind match u with
           | Some u0 => for_each (describe env) (devices_values u0)
           | None => ret []
           end
        (fun descriptors => ret (Jsonify (JList (JDict <$> descriptors)))) w2
      = (r, w')) by (destruct (method request); [exact H|exact H|contradiction]).
    clear H.
    assert (Hloop : forall r0 w0,
      match u with
      | Some u0 => for_each (describe env) (devices_values u0)
      | None => ret []
      end w2 = (r0, w0) -> unchanged w2 w0).
    { intros r0 w0. destruct u as [u|].
      - intros Hfe. apply same_tables_unchanged.
        exact (for_each_describe_same_tables _ _ _ _ Hfe).
      - intros [= _ <-]. apply unchanged_refl. }
    apply bind_inv in Hget as [(ds & w3 & Hds & H)|(e & Hds & _)].
    + injection H as _ <-. exact (unchanged_trans _ _ _ H2 (Hloop _ _ Hds)).
    + exact (unchanged_trans _ _ _ H2 (Hloop _ _ Hds)).
  - intros Hm H. unfold device in H.
    apply bind_inv in H as [(u & w1 & Hu & H)|(e & Hu & _)];
      [|apply (get_user_unchanged _ _ _ _ Hu)].
    pose proof (get_user_unchanged _ _ _ _ Hu) as H1.
    destruct u as [u|]; [|injection H as _ <-; exact H1].
    apply bind_inv in H as [(c & w2 & Hc & H)|(e & Hc & _)];
      [|exact (unchanged_trans _ _ _ H1 (get_client_unchanged _ _ _ Hc))].
    pose proof (unchanged_trans _ _ _ H1 (get_client_unchanged _ _ _ Hc)) as H2.
    destruct (devices_getitem u h) as [d|e];
      [|injection H as _ <-; exact H2].
    simpl lift in H. rewrite bind_ret in H. rewrite Hm in H.
    apply bind_inv in H as [(desc & w3 & Hd & H)|(e & Hd & _)].
    + injection H as _ <-.
      exact (unchanged_trans _ _ _ H2
               (same_tables_unchanged _ _ (describe_same_tables _ _ _ _ Hd))).
    + exact (unchanged_trans _ _ _ H2
               (same_tables_unchanged _ _ (describe_same_tables _ _ _ _ Hd))).
  - intros H. unfold device_certificate in H.
    apply bind_inv in H as [(u & w1 & Hu & H)|(e & Hu & _)];
      [|apply (get_user_unchanged _ _ _ _ Hu)].
    pose proof (get_user_unchanged _ _ _ _ Hu) as H1.
    destruct u as [u|]; [|injection H as _ <-; exact H1].
    destruct (devices_getitem u h) as [d|e]; injection H as _ <-; exact H1.
Qed.

End ReadOnly.

Section UserAndDeviceRoutes.

Context (env : Env) (request : Request).




Lemma user_delete_run (w w1 : World) (client : Client)
  (user_id : string) (u : User) :
  method request = DELETE ->
  get_client env request w = (Return client, w1) ->
  users (session w) !! (client_id client, user_id) = Some u ->
  exists w',
    user env request user_id w = (Return NoContent, w')
    /\ persisted w' = session w'
    /\ users (session w')
       = delete (client_id client, user_id) (users (session w))
    /\ clients (session w') = clients (session w)
    /\ g_client w' = Some client.
Proof.
  intros Hm Hc Hsome.
  pose proof (get_user_resolved env request _ _ _ user_id Hc) as Hu.
  pose proof (get_client_again env request _ _ _ Hc) as Hc1.
  pose proof (get_client_inv env request _ _ _ Hc) as Hw1.
  eexists. split.
  - unfold user.
    rewrite (bind_Return _ _ _ _ _ Hu); cbv beta.
    rewrite (bind_Return _ _ _ _ _ Hc1); cbv beta.
    rewrite Hm, Hsome. unfold db_session_delete_user, db_session_commit.
    repeat (rewrite ?bind_ret, ?bind_modify; cbv beta iota).
    unfold bind, modify, ret. reflexivity.
  - subst w1. now repeat split.
Qed.

(** X7. DELETE on the user route for an existing user commits a session
    from which exactly that user, with all its devices, is gone: every other
    user and the client table are as before. *)
Theorem user_delete_removes_user (w w1 : World) (client : Client)
  (user_id : string) (u : User) :
  method request = DELETE ->
  get_client env request w = (Return client, w1) ->
  users (session w) !! (client_id client, user_id) = Some u ->
  exists w',
    user env request user_id w = (Return NoContent, w')
    /\ persisted w' = session w'
    /\ users (persisted w') !! (client_id client, user_id) = None
    /\ (forall k, k <> (client_id client, user_id) ->
        users (persisted w') !! k = users (session w) !! k)
    /\ clients (persisted w') = clients (session w).
Proof.
  intros Hm Hc Hsome.
  destruct (user_delete_run _ _ _ _ _ Hm Hc Hsome)
    as (w' & Hrun & Hp & Husers & Hcl & _).
  exists w'. split; [exact Hrun|]. split; [exact Hp|]. rewrite Hp, Husers.
  split; [apply lookup_delete_eq|]. split; [|exact Hcl].
  intros k Hk. now rewrite lookup_delete_ne.
Qed.

(** X8. After a user was deleted, the next request of the same caller that
    begins an authentication for that user fails with NoEligibleDevices
    "No devices registered" and an empty descriptor list. *)
Theorem deleted_user_has_no_devices (w w1 w' : World) (client : Client)
  (user_id chal : string) (u : User) (props : jvalue) (r : result response) :
  method request = DELETE ->
  g_client w = None ->
  get_client env request w = (Return client, w1) ->
  users (session w) !! (client_id client, user_id) = Some u ->
  user env request user_id w = (r, w') ->
  (_sign_request env request user_id chal props (set_g_client None w')).1
  = Raise (NoEligibleDevicesException "No devices registered" []).
Proof.
  intros Hm Hg Hc Hsome Hrun.
  destruct (user_delete_run _ _ _ _ _ Hm Hc Hsome)
    as (w'' & Hrun' & _ & Husers & Hcl & _).
  rewrite Hrun in Hrun'. injection Hrun' as _ <-.
  pose proof (get_client_next_request env request _ _ _ _ Hg Hc Hcl) as Hc2.
  pose proof (get_user_resolved env request _ _ _ user_id
                (get_client_again env request _ _ _ Hc2)) as Hu2.
  unfold _sign_request.
  rewrite (bind_Return _ _ _ _ _ Hc2); cbv beta.
  rewrite (bind_Return _ _ _ _ _ Hu2); cbv beta.
  change (session (set_g_client (Some client) w')) with (session w').
  rewrite Husers, lookup_delete_eq. reflexivity.
Qed.

(** X9. DELETE on the device route for an existing device commits a
    session in which that handle is gone from the user's collection while
    the user, its other devices and every other user remain. *)
Theorem device_delete_removes_device (w w1 : World) (client : Client)
  (user_id h : string) (u : User) (d : Device) :
  method request = DELETE ->
  get_client env request w = (Return client, w1) ->
  users (session w) !! (client_id client, user_id) = Some u ->
  devices u !! h = Some d ->
  exists w' u',
    device env request user_id h w = (Return NoContent, w')
    /\ persisted w' = session w'
    /\ users (session w') !! (client_id client, user_id) = Some u'
    /\ user_name u' = user_name u
    /\ devices u' = delete h (devices u)
    /\ (forall k, k <> (client_id client, user_id) ->
        users (session w') !! k = users (session w) !! k).
Proof.
  intros Hm Hc Hsome Hdev.
  pose proof (get_user_resolved env request _ _ _ user_id Hc) as Hu.
  pose proof (get_client_again env request _ _ _ Hc) as Hc1.
  pose proof (get_client_inv env request _ _ _ Hc) as Hw1.
  eexists _, _. split.
  - unfold device.
    rewrite (bind_Return _ _ _ _ _ Hu); cbv beta. rewrite Hsome.
    rewrite (bind_Return _ _ _ _ _ Hc1); cbv beta.
    unfold devices_getitem. rewrite Hm, Hdev.
    unfold db_session_delete_device, db_session_commit.
    repeat (rewrite ?bind_ret, ?bind_modify; cbv beta iota).
    unfold bind, modify, ret. reflexivity.
  - subst w1. simpl. split; [reflexivity|]. split.
    + rewrite lookup_alter_eq, Hsome. reflexivity.
    + split; [reflexivity|]. split; [reflexivity|].
      intros k Hk. now rewrite lookup_alter_ne.
Qed.

(** X10. POST on the device route with a JSON object as body merges it into
    the properties of an existing device and commits: every key of the body
    has the body's value, every other key keeps its stored value, nothing
    else of the device changes, and the other devices are untouched. *)
Theorem device_post_merges_properties (w w1 : World) (client : Client)
  (user_id h : string) (u : User) (d : Device) (body : dict) :
  method request = POST ->
  get_json request = Return (JDict body) ->
  get_client env request w = (Return client, w1) ->
  users (session w) !! (client_id client, user_id) = Some u ->
  devices u !! h = Some d ->
  exists md w' u',
    device env request user_id h w
    = (Return (Jsonify (JDict (get_descriptor env
                                 (set_properties (body ∪ properties d) d)
                                 (Some md)))), w')
    /\ persisted w' = session w'
    /\ users (session w') !! (client_id client, user_id) = Some u'
    /\ devices u' !! h = Some (set_properties (body ∪ properties d) d)
    /\ (forall h', h' <> h -> devices u' !! h' = devices u !! h')
    /\ (forall key,
        (body ∪ properties d) !! key
        = match body !! key with
          | Some v => Some v
          | None => properties d !! key
          end).
Proof.
  intros Hm Hbody Hc Hsome Hdev.
  pose proof (get_user_resolved env request _ _ _ user_id Hc) as Hu.
  pose proof (get_client_again env request _ _ _ Hc) as Hc1.
  pose proof (get_client_inv env request _ _ _ Hc) as Hw1.
  unfold device.
  rewrite (bind_Return _ _ _ _ _ Hu); cbv beta. rewrite Hsome.
  rewrite (bind_Return _ _ _ _ _ Hc1); cbv beta.
  unfold devices_getitem. rewrite Hm, Hdev, Hbody.
  unfold put_device, db_session_commit, lift, update_properties.
  repeat (rewrite ?bind_ret, ?bind_modify; cbv beta iota).
  match goal with
  | |- context [bind (describe env ?dv) _ ?wf] =>
      destruct (describe_run env dv wf) as (md & w' & Hd & Hst')
  end.
  rewrite (bind_Return _ _ _ _ _ Hd); cbv beta.
  destruct Hst' as (Hp' & Hs' & _).
  eexists md, w', _. split; [reflexivity|].
  rewrite Hp', Hs'.
  cbn [persisted session set_session set_persisted].
  split; [reflexivity|]. split.
  - erewrite users_db_put_device; [reflexivity|]. subst w1. exact Hsome.
  - split; [simpl; apply lookup_insert_eq|]. split.
    + intros h' Hne. simpl. now rewrite lookup_insert_ne.
    + intros key. apply lookup_union_first.
Qed.

End UserAndDeviceRoutes.

Section BeginHandlers.

Context (env : Env) (request : Request).

Lemma get_registered_key_world dev descriptor c w r w' :
  g_client w = Some c ->
  _get_registered_key env request dev descriptor w = (r, w') -> w' = w.
Proof.
  intros Hg. unfold _get_registered_key.
  rewrite (bind_Return _ _ _ _ _ (get_client_cached env request _ _ Hg)).
  cbv beta. unfold getitem, bind.
  destruct (descriptor !! "transports"); now intros [= _ <-].
Qed.

Lemma descriptor_and_key_same_tables dev c w r w' :
  g_client w = Some c ->
  descriptor_and_key env request dev w = (r, w') -> same_tables w w'.
Proof.
  intros Hg. unfold descriptor_and_key.
  destruct (describe_run env dev w) as (md & w1 & Hd & Hst).
  rewrite (bind_Return _ _ _ _ _ Hd); cbv beta.
  assert (Hg1 : g_client w1 = Some c) by (destruct Hst as (_&_&_&->); exact Hg).
  intros H. apply bind_inv in H as [(key & w2 & Hk & H)|(e & Hk & _)].
  - injection H as _ <-.
    now rewrite (get_registered_key_world _ _ _ _ _ _ Hg1 Hk).
  - now rewrite (get_registered_key_world _ _ _ _ _ _ Hg1 Hk).
Qed.

Lemma eligible_entry_same_tables dev c w r w' :
  g_client w = Some c ->
  eligible_entry env request dev w = (r, w') -> same_tables w w'.
Proof.
  intros Hg. unfold eligible_entry.
  destruct (describe_run env dev w) as (md & w1 & Hd & Hst).
  rewrite (bind_Return _ _ _ _ _ Hd); cbv beta.
  assert (Hg1 : g_client w1 = Some c) by (destruct Hst as (_&_&_&->); exact Hg).
  intros H. apply bind_inv in H as [(key & w2 & Hk & H)|(e & Hk & _)].
  - rewrite (get_registered_key_world _ _ _ _ _ _ Hg1 Hk) in H.
    unfold getitem, bind in H.
    destruct (key !! "keyHandle") as [[| | |k| |]|];
      injection H as _ <-; exact Hst.
  - now rewrite (get_registered_key_world _ _ _ _ _ _ Hg1 Hk).
Qed.

Lemma cached_client_kept c w w' :
  g_client w = Some c -> same_tables w w' -> g_client w' = Some c.
Proof. intros Hg (_&_&_&->). exact Hg. Qed.

Lemma sign_request_loop_same_tables items ks ds hm c w r w' :
  g_client w = Some c ->
  sign_request_loop env request items ks ds hm w = (r, w') ->
  same_tables w w'.
Proof.
  revert ks ds hm w.
  induction items as [|[h dev] items IH]; intros ks ds hm w Hg H.
  - injection H as _ <-. apply same_tables_refl.
  - simpl in H. destruct (compromised dev); [exact (IH _ _ _ _ Hg H)|].
    destruct (describe_run env dev w) as (md & w1 & Hd & Hst).
    rewrite (bind_Return _ _ _ _ _ Hd) in H; cbv beta in H.
    pose proof (cached_client_kept _ _ _ Hg Hst) as Hg1.
    apply bind_inv in H as [(key & w2 & Hk & H)|(e & Hk & _)].
    2:{ now rewrite (get_registered_key_world _ _ _ _ _ _ Hg1 Hk). }
    pose proof (get_registered_key_world _ _ _ _ _ _ Hg1 Hk) as ->.
    unfold getitem at 1 in H.
    destruct (key !! "keyHandle") as [kh|];
      [|injection H as _ <-; exact Hst].
    rewrite bind_ret in H. unfold dict_setitem in H.
    destruct (hashable kh); [|injection H as _ <-; exact Hst].
    simpl lift in H. rewrite bind_ret in H.
    exact (same_tables_trans _ _ _ Hst (IH _ _ _ _ Hg1 H)).
Qed.

(** X11. Beginning a ceremony never touches the committed tables or the
    session, whatever its outcome (so it creates no user); of the
    transaction store it changes nothing, or exactly the record under
    (client id, user id, challenge). *)
Theorem begin_changes_only_the_store (user_id chal : string) (props : jvalue)
  (w w' : World) (r : result dict) :
  _register_request env request user_id chal props w = (r, w')
  \/ _sign_request env request user_id chal props w = (r, w') ->
  persisted w' = persisted w /\ session w' = session w
  /\ (transactions w' = transactions w
      \/ exists client rd,
           g_client w' = Some client
           /\ transactions w'
              = <[(client_id client, user_id, chal) := rd]> (transactions w)).
Proof.
  assert (Htail : forall client (rd0 : result dict) (f : dict -> dict) w2
                     (r0 : dict -> dict) w3,
    g_client w2 = Some client ->
    bind (lift rd0)
      (fun request_data =>
         let request_data := f request_data in
         bind (store_store (client_id client) user_id chal request_data)
           (fun _ =>
              bind (lift (RequestData_wrap env
                            (data_for_client env request_data)))
                (fun data => ret (r0 data)))) w2 = (r, w3) ->
    persisted w3 = persisted w2 /\ session w3 = session w2
    /\ (transactions w3 = transactions w2
        \/ exists client rd,
             g_client w3 = Some client
             /\ transactions w3
                = <[(client_id client, user_id, chal) := rd]>
                    (transactions w2))).
  { intros client rd0 f w2 r0 w3 Hg H.
    apply bind_inv in H as [(rd & w4 & Hb & H)|(e & Hb & _)].
    - destruct rd0 as [rd0|e]; [|discriminate]. injection Hb as <- <-.
      cbv zeta in H. unfold store_store in H. rewrite bind_modify in H.
      assert (w3 = set_transactions
                     (<[(client_id client, user_id, chal) := f rd0]>
                        (transactions w2)) w2) as ->.
      { apply bind_inv in H as [(data & w5 & Hw & H)|(e & Hw & _)].
        - destruct (RequestData_wrap env _); [|discriminate].
          injection Hw as _ <-. now injection H as _ <-.
        - destruct (RequestData_wrap env _); [discriminate|].
          now injection Hw as _ <-. }
      split; [reflexivity|]. split; [reflexivity|]. right.
      now exists client, (f rd0).
    - destruct rd0 as [rd0|e0]; [discriminate|]. injection Hb as _ <-.
      now repeat split; try left. }
  intros [H|H].
  - unfold _register_request in H.
    apply bind_inv in H as [(client & w1 & Hc & H)|(e & Hc & _)].
    2:{ rewrite (get_client_Raise_inv env request _ _ _ Hc).
        now repeat split; try left. }
    pose proof (get_client_inv env request _ _ _ Hc) as Hw1.
    rewrite (bind_Return _ _ _ _ _
               (get_user_resolved env request _ _ _ user_id
                  (get_client_again env request _ _ _ Hc))) in H.
    cbv beta in H.
    assert (Hg1 : g_client w1 = Some client) by now subst w1.
    assert (Hcol : forall r0 w0,
      match users (session w1) !! (client_id client, user_id) with
      | Some u => for_each (descriptor_and_key env request) (devices_values u)
      | None => ret []
      end w1 = (r0, w0) -> same_tables w1 w0).
    { intros r0 w0.
      destruct (users (session w1) !! (client_id client, user_id)) as [u|].
      - apply (for_each_keeps (fun w => g_client w = Some client));
          [apply cached_client_kept| |exact Hg1].
        intros x wa ra wb. apply descriptor_and_key_same_tables.
      - intros [= _ <-]. apply same_tables_refl. }
    apply bind_inv in H as [(col & w2 & Hcl & H)|(e & Hcl & _)].
    + pose proof (Hcol _ _ Hcl) as (Hp2 & Hs2 & Ht2 & Hg2).
      cbv zeta in H.
      apply (Htail client _ (fun rd => <["properties" := props]> rd) w2
               (fun data => <["descriptors" := JList (JDict <$> col.*1)]> data))
        in H; [|now rewrite Hg2].
      destruct H as (Hp3 & Hs3 & Ht3). rewrite Hp3, Hs3, Hp2, Hs2.
      subst w1. split; [reflexivity|]. split; [reflexivity|].
      rewrite Ht2 in Ht3. exact Ht3.
    + pose proof (Hcol _ _ Hcl) as (Hp2 & Hs2 & Ht2 & Hg2).
      rewrite Hp2, Hs2, Ht2. subst w1. now repeat split; try left.
  - unfold _sign_request in H.
    apply bind_inv in H as [(client & w1 & Hc & H)|(e & Hc & _)].
    2:{ rewrite (get_client_Raise_inv env request _ _ _ Hc).
        now repeat split; try left. }
    pose proof (get_client_inv env request _ _ _ Hc) as Hw1.
    rewrite (bind_Return _ _ _ _ _
               (get_user_resolved env request _ _ _ user_id
                  (get_client_again env request _ _ _ Hc))) in H.
    cbv beta in H.
    assert (Hg1 : g_client w1 = Some client) by now subst w1.
    assert (Hsame : persisted w1 = persisted w /\ session w1 = session w
                    /\ transactions w1 = transactions w)
      by (subst w1; now repeat split).
    destruct Hsame as (Hp1 & Hs1 & Ht1).
    destruct (users (session w1) !! (client_id client, user_id)) as [u|].
    2:{ injection H as _ <-. rewrite Hp1, Hs1, Ht1. now repeat split; try left. }
    case_bool_decide.
    { injection H as _ <-. rewrite Hp1, Hs1, Ht1. now repeat split; try left. }
    apply bind_inv in H as [(col & w2 & Hcl & H)|(e & Hcl & _)].
    + pose proof (sign_request_loop_same_tables _ _ _ _ _ _ _ _ Hg1 Hcl)
        as (Hp2 & Hs2 & Ht2 & Hg2).
      cbv zeta in H.
      destruct (col.1.1) as [|key0 keys] eqn:Ek.
      { injection H as _ <-. rewrite Hp2, Hs2, Ht2, Hp1, Hs1, Ht1.
        now repeat split; try left. }
      apply (Htail client _
               (fun rd => <["properties" := props]>
                            (<["handleMap" :=
                                JDict (json_of_handle_map col.2)]> rd))
               w2
               (fun data =>
                  <["descriptors" := JList (JDict <$> col.1.2)]> data))
        in H; [|now rewrite Hg2].
      destruct H as (Hp3 & Hs3 & Ht3).
      rewrite Hp3, Hs3, Hp2, Hs2, Hp1, Hs1.
      split; [reflexivity|]. split; [reflexivity|].
      rewrite Ht2, Ht1 in Ht3. exact Ht3.
    + pose proof (sign_request_loop_same_tables _ _ _ _ _ _ _ _ Hg1 Hcl)
        as (Hp2 & Hs2 & Ht2 & Hg2).
      rewrite Hp2, Hs2, Ht2, Hp1, Hs1, Ht1. now repeat split; try left.
Qed.

End BeginHandlers.

Section Completions.

Context (env : Env) (request : Request).

Lemma users_db_put_device_ne cid user_id h dev db k :
  k <> (cid, user_id) ->
  users (db_put_device cid user_id h dev db) !! k = users db !! k.
Proof. intros H. unfold db_put_device. simpl. now rewrite lookup_alter_ne. Qed.

(** X12. A response that the U2F engine rejects still uses up its
    transaction: the completion raises the engine's error, the tables and
    the session are as before, and the record is gone from the store, so
    that the same response cannot be tried again. *)
Theorem rejected_response_consumes_transaction (w w1 : World)
  (client : Client) (user_id : string) (e : exn) :
  get_client env request w = (Return client, w1) ->
  (forall response_data rd,
     transactions w
       !! (client_id client, user_id,
           challenge (rr_clientData (registerResponse response_data)))
       = Some rd ->
     complete_registration env rd (registerResponse response_data)
       (valid_facets client) = Raise e ->
     exists w',
       _register_response env request user_id response_data w = (Raise e, w')
       /\ persisted w' = persisted w /\ session w' = session w
       /\ transactions w'
          = delete (client_id client, user_id,
                    challenge (rr_clientData (registerResponse response_data)))
              (transactions w))
  /\ (forall response_data rd,
     transactions w
       !! (client_id client, user_id,
           challenge (sr_clientData (signResponse response_data)))
       = Some rd ->
     complete_authentication env rd (signResponse response_data)
       (valid_facets client) = Raise e ->
     exists w',
       _sign_response env request user_id response_data w = (Raise e, w')
       /\ persisted w' = persisted w /\ session w' = session w
       /\ transactions w'
          = delete (client_id client, user_id,
                    challenge (sr_clientData (signResponse response_data)))
              (transactions w)).
Proof.
  intros Hc.
  pose proof (get_user_resolved env request _ _ _ user_id
                (get_client_again env request _ _ _ Hc)) as Hu.
  pose proof (get_client_inv env request _ _ _ Hc) as Hw1.
  assert (transactions w1 = transactions w) as Ht1 by now subst w1.
  split.
  - intros response_data rd Htx Hcr. eexists. split.
    + unfold _register_response.
      rewrite (bind_Return _ _ _ _ _ Hc); cbv beta.
      rewrite (bind_Return _ _ _ _ _ Hu); cbv beta.
      unfold bind at 1. unfold store_retrieve at 1. rewrite Ht1, Htx.
      unfold bind at 1. rewrite Hcr. reflexivity.
    + subst w1. now repeat split.
  - intros response_data rd Htx Hca. eexists. split.
    + unfold _sign_response.
      rewrite (bind_Return _ _ _ _ _ Hc); cbv beta.
      rewrite (bind_Return _ _ _ _ _ Hu); cbv beta.
      unfold bind at 1. unfold store_retrieve at 1. rewrite Ht1, Htx.
      unfold bind at 1. rewrite Hca. reflexivity.
    + subst w1. now repeat split.
Qed.

(** What a registration completion that goes through commits. *)
Lemma register_response_run (w w1 : World) (client : Client)
  (user_id : string) (response_data : RegisterResponseData)
  (rd reg : dict) (cert : string) (a : Attestation) (p : dict) :
  get_client env request w = (Return client, w1) ->
  transactions w
    !! (client_id client, user_id,
        challenge (rr_clientData (registerResponse response_data)))
    = Some rd ->
  complete_registration env rd (registerResponse response_data)
    (valid_facets client) = Return (reg, cert) ->
  (get_attestation env cert w).1 = Return (AttObject a) ->
  ALLOW_UNTRUSTED env = true \/ trusted a = true ->
  rd !! "properties" = Some (JDict p) ->
  exists resp w' u' dev,
    _register_response env request user_id response_data w = (Return resp, w')
    /\ users (persisted w') !! (client_id client, user_id) = Some u'
    /\ user_name u'
       = match users (session w) !! (client_id client, user_id) with
         | Some u => user_name u
         | None => user_id
         end
    /\ devices u'
       = <[fresh_handle env := dev]>
           match users (session w) !! (client_id client, user_id) with
           | Some u => devices u
           | None => ∅
           end
    /\ handle dev = fresh_handle env /\ bind_data dev = reg
    /\ der (certificate dev) = cert
    /\ counter dev = None /\ authenticated_at dev = None
    /\ compromised dev = false
    /\ transports dev = foldr Z.add 0 (default [] (att_transports a))
    /\ (forall k, k <> (client_id client, user_id) ->
        users (persisted w') !! k = users (session w) !! k).
Proof.
  intros Hc Htx Hcr Hatt Htrust Hprops.
  pose proof (get_user_resolved env request _ _ _ user_id
                (get_client_again env request _ _ _ Hc)) as Hu.
  pose proof (get_client_inv env request _ _ _ Hc) as Hw1.
  assert (session w1 = session w) as Hs1 by now subst w1.
  rewrite Hs1 in Hu.
  unfold _register_response.
  rewrite (bind_Return _ _ _ _ _ Hc); cbv beta.
  rewrite (bind_Return _ _ _ _ _ Hu); cbv beta.
  unfold bind at 1. unfold store_retrieve at 1.
  assert (transactions w1 = transactions w) as -> by now subst w1.
  rewrite Htx.
  unfold bind at 1. rewrite Hcr. simpl lift. unfold ret at 1.
  cbv beta iota. simpl fst. simpl snd.
  match goal with
  | |- context [bind (get_attestation env cert) _ ?w0] => set (w2 := w0)
  end.
  destruct (get_attestation_run env cert w2) as (w3 & Ha3 & Hst3).
  assert (Hfst : (get_attestation env cert w2).1 = Return (AttObject a)).
  { rewrite <- Hatt. apply get_attestation_same_cache. now subst w2 w1. }
  assert (Ha3' : get_attestation env cert w2 = (Return (AttObject a), w3)).
  { rewrite Ha3. f_equal. rewrite Ha3 in Hfst. exact Hfst. }
  clear Ha3 Hfst. rewrite (bind_Return _ _ _ _ _ Ha3'); cbv beta.
  assert (Hcheck :
    (if ALLOW_UNTRUSTED env then ret ()
     else if trusted a then ret ()
          else raise (BadInputException "Device attestation not trusted")) w3
    = (Return (), w3)).
  { destruct Htrust as [-> | ->]; [reflexivity|].
    now destruct (ALLOW_UNTRUSTED env). }
  rewrite (bind_Return _ _ _ _ _ Hcheck); cbv beta.
  destruct Hst3 as (Hp3 & Hs3 & Ht3 & Hg3).
  assert (Hs : session w3 = session w) by (rewrite Hs3; now subst w2 w1).
  set (u0 := default {| user_name := user_id; devices := ∅ |}
               (users (session w) !! (client_id client, user_id))).
  set (w4 := set_session
               (set_users (<[(client_id client, user_id) := u0]>
                             (users (session w))) (session w)) w3).
  assert (Hcreate :
    match users (session w) !! (client_id client, user_id) with
    | Some _ => ret ()
    | None =>
        modify (fun w0 : World =>
          set_session
            (set_users
               (<[(client_id client, user_id) :=
                   {| user_name := user_id; devices := ∅ |}]>
                  (users (session w0))) (session w0)) w0)
    end w3 = (Return (), w4)).
  { unfold w4, u0.
    destruct (users (session w) !! (client_id client, user_id)) as [u|] eqn:E.
    - unfold ret. f_equal. simpl. rewrite insert_id by exact E.
      rewrite <- Hs. now destruct w3 as [? []].
    - unfold modify. now rewrite Hs. }
  rewrite (bind_Return _ _ _ _ _ Hcreate); cbv beta.
  unfold getitem. rewrite Hprops.
  unfold put_device, db_session_commit.
  unfold lift, update_properties.
  repeat (rewrite ?bind_ret, ?bind_modify; cbv beta iota).
  match goal with
  | |- context [bind (describe env ?d) _ ?wf] =>
      destruct (describe_run env d wf) as (md & w' & Hd & Hst')
  end.
  rewrite (bind_Return _ _ _ _ _ Hd); cbv beta.
  destruct Hst' as (Hp' & Hs' & Ht' & _).
  assert (Hu4 : users (session w4) !! (client_id client, user_id) = Some u0).
  { unfold w4. simpl. apply lookup_insert_eq. }
  eexists _, w', _, _. split; [reflexivity|].
  rewrite Hp'. cbn [persisted session set_session set_persisted].
  split.
  { erewrite users_db_put_device; [reflexivity|].
    erewrite users_db_put_device; [reflexivity|].
    erewrite users_db_put_device; [reflexivity|exact Hu4]. }
  split.
  { unfold u0. simpl.
    now destruct (users (session w) !! (client_id client, user_id)). }
  split.
  { simpl. rewrite !insert_insert_eq. unfold u0.
    now destruct (users (session w) !! (client_id client, user_id)). }
  do 7 (split; [reflexivity|]).
  intros k Hk. rewrite !users_db_put_device_ne by exact Hk.
  unfold w4. simpl. now rewrite lookup_insert_ne.
Qed.

(** X13. A registration completion that goes through adds exactly one
    device, when the handle generated for it is not yet a handle of the
    user: the committed collection of the user is the previous one (the
    empty one for a user created now) with the new device under its
    handle, so it has one device more and every device it had; the new
    device has no counter and no authentication time, is not compromised,
    and its transports are the sum of the transport values of the
    attestation (0 when it reports none); other users are untouched. *)
Theorem registration_adds_one_device (w w1 : World) (client : Client)
  (user_id : string) (response_data : RegisterResponseData)
  (rd reg : dict) (cert : string) (a : Attestation) (p : dict) :
  let before : gmap string Device :=
    match users (session w) !! (client_id client, user_id) with
    | Some u => devices u
    | None => ∅
    end in
  get_client env request w = (Return client, w1) ->
  transactions w
    !! (client_id client, user_id,
        challenge (rr_clientData (registerResponse response_data)))
    = Some rd ->
  complete_registration env rd (registerResponse response_data)
    (valid_facets client) = Return (reg, cert) ->
  (get_attestation env cert w).1 = Return (AttObject a) ->
  ALLOW_UNTRUSTED env = true \/ trusted a = true ->
  rd !! "properties" = Some (JDict p) ->
  before !! fresh_handle env = None ->
  exists resp w' u' dev,
    _register_response env request user_id response_data w = (Return resp, w')
    /\ users (persisted w') !! (client_id client, user_id) = Some u'
    /\ user_name u'
       = match users (session w) !! (client_id client, user_id) with
         | Some u => user_name u
         | None => user_id
         end
    /\ devices u' = <[fresh_handle env := dev]> before
    /\ size (devices u') = S (size before)
    /\ (forall h d, before !! h = Some d -> devices u' !! h = Some d)
    /\ handle dev = fresh_handle env /\ bind_data dev = reg
    /\ der (certificate dev) = cert
    /\ counter dev = None /\ authenticated_at dev = None
    /\ compromised dev = false
    /\ transports dev = foldr Z.add 0 (default [] (att_transports a))
    /\ (forall k, k <> (client_id client, user_id) ->
        users (persisted w') !! k = users (session w) !! k).
Proof.
  intros before Hc Htx Hcr Hatt Htrust Hprops Hfresh.
  destruct (register_response_run _ _ _ _ _ _ _ _ _ _ Hc Htx Hcr Hatt Htrust
              Hprops)
    as (resp & w' & u' & dev & Hrun & Hu & Hname & Hdevs & Hrest).
  fold before in Hdevs.
  exists resp, w', u', dev.
  split; [exact Hrun|]. split; [exact Hu|]. split; [exact Hname|].
  split; [exact Hdevs|]. split; [|split; [|exact Hrest]].
  - rewrite Hdevs. now apply map_size_insert_None.
  - intros h d Hh. rewrite Hdevs. rewrite lookup_insert_ne; [exact Hh|].
    intros <-. rewrite Hfresh in Hh. discriminate.
Qed.

Lemma reaches_identifies w client user_id response_data rd c' u h dev :
  reaches_counter_check env w client user_id response_data rd c' u h dev ->
  exists presence,
    identifies_device env w client user_id response_data rd c' presence u h
      dev
    /\ compromised dev = false /\ presence <> 0.
Proof.
  intros (device & presence & hm & kh & H1 & H2 & H3 & H4 & H5 & H6 & H7 & H8
          & H9).
  exists presence. split; [|now split]. now exists device, hm, kh.
Qed.

(** X14. Once the device of a response is identified, the completion tests
    the compromised flag first and the user-presence indicator second, both
    before the counter: a compromised device gives BadInput "Device is
    compromised" whatever the presence and the counter are, and a device
    that is not compromised with presence 0 gives BadInput "User presence
    byte not set".  Neither changes the tables or the session; the
    transaction is used up. *)
Theorem device_checks_precede_counter (w w1 : World) (client : Client)
  (user_id : string) (response_data : SignResponseData) (rd : dict)
  (c' presence : Z) (u : User) (h : string) (dev : Device) :
  get_client env request w = (Return client, w1) ->
  identifies_device env w client user_id response_data rd c' presence u h dev ->
  compromised dev = true \/ presence = 0 ->
  exists w',
    _sign_response env request user_id response_data w
    = (Raise (BadInputException
                (if compromised dev then "Device is compromised"
                 else "User presence byte not set")), w')
    /\ persisted w' = persisted w /\ session w' = session w
    /\ transactions w'
       = delete (client_id client, user_id,
                 challenge (sr_clientData (signResponse response_data)))
           (transactions w).
Proof.
  intros Hc (device & hm & kh & Htx & Hca & Husr & Hhm & Hkh & Hh & Hdev) Hbad.
  pose proof (get_user_resolved env request _ _ _ user_id
                (get_client_again env request _ _ _ Hc)) as Hu.
  pose proof (get_client_inv env request _ _ _ Hc) as Hw1.
  assert (session w1 = session w) as Hs1 by now subst w1.
  rewrite Hs1 in Hu.
  eexists. split.
  - unfold _sign_response.
    rewrite (bind_Return _ _ _ _ _ Hc); cbv beta.
    rewrite (bind_Return _ _ _ _ _ Hu); cbv beta.
    unfold bind at 1. unfold store_retrieve at 1.
    assert (transactions w1 = transactions w) as -> by now subst w1.
    rewrite Htx.
    unfold bind at 1. rewrite Hca. simpl lift. unfold ret at 1.
    cbv beta iota. cbn [fst snd]. rewrite Husr.
    rewrite (bind_Return _ _ _ _ _ (handle_of_key_run _ _ _ _ _ _ Hhm Hkh Hh)).
    cbv beta iota. rewrite (devices_getitem_run _ _ _ _ _ Hdev); cbv beta.
    destruct (compromised dev); [reflexivity|].
    destruct Hbad as [Hbad| ->]; [discriminate|]. reflexivity.
  - subst w1. now repeat split.
Qed.

(** X15. The stored signature counter never goes down: after any
    authentication completion that returns, the session still has, under
    the same handle, the device that the completion reached, and if that
    device had a counter before, it has one now that is not lower.  When no
    descriptor is returned the device is exactly as before. *)
Theorem counter_never_decreases (w w1 w' : World) (client : Client)
  (user_id : string) (response_data : SignResponseData)
  (r : option dict) :
  get_client env request w = (Return client, w1) ->
  _sign_response env request user_id response_data w = (Return r, w') ->
  exists rd c' u h dev u' dev',
    reaches_counter_check env w client user_id response_data rd c' u h dev
    /\ users (session w') !! (client_id client, user_id) = Some u'
    /\ devices u' !! h = Some dev'
    /\ (forall c, counter dev = Some c ->
        exists c2, counter dev' = Some c2 /\ c <= c2)
    /\ (r = None -> dev' = dev).
Proof.
  intros Hc Hrun.
  destruct (sign_response_inv env request _ _ _ _ _ _ _ Hc Hrun)
    as (rd & c' & u & h & dev & Hreach & Hcase).
  pose proof Hreach as (device & presence & hm & kh & _ & _ & Husr & _ & _ & _
                        & Hdev & _).
  destruct Hcase as [Hle | (Hlt & p & Hp)].
  - destruct (sign_response_stale env request _ _ _ _ _ _ _ _ _ _
                Hc Hreach Hle) as (w'' & Hrun' & _ & Hs & _).
    rewrite Hrun in Hrun'. injection Hrun' as -> <-.
    exists rd, c', u, h, dev, u, dev. rewrite Hs.
    split; [exact Hreach|]. split; [exact Husr|]. split; [exact Hdev|].
    split; [|reflexivity].
    intros c Hcnt. exists c. split; [exact Hcnt|lia].
  - destruct (sign_response_commits env request _ _ _ _ _ _ _ _ _ _ p
                Hc Hreach Hlt Hp)
      as (md & w'' & u' & Hrun' & _ & _ & _ & Hu' & Hd' & _).
    rewrite Hrun in Hrun'. injection Hrun' as -> <-.
    eexists rd, c', u, h, dev, u', _.
    split; [exact Hreach|]. split; [exact Hu'|].
    split; [exact Hd'|]. split; [|discriminate].
    intros c Hcnt. exists c'. split; [reflexivity|].
    rewrite Hcnt in Hlt. now apply accepted_counter_not_lower.
Qed.

(** X16. An accepted authentication changes one device only: of the device
    it reached, the counter becomes the presented one, the authentication
    time becomes now and the properties are merged, while handle, bind data,
    certificate, compromised flag and transports stay; the user's other
    devices and all other users are as before. *)
Theorem authentication_touches_one_device (w w1 : World) (client : Client)
  (user_id : string) (response_data : SignResponseData) (rd : dict)
  (c' : Z) (u : User) (h : string) (dev : Device) (p : dict) :
  get_client env request w = (Return client, w1) ->
  reaches_counter_check env w client user_id response_data rd c' u h dev ->
  counter_or_minus_one (counter dev) < c' ->
  rd !! "properties" = Some (JDict p) ->
  exists resp w' u' dev',
    _sign_response env request user_id response_data w
    = (Return (Some resp), w')
    /\ persisted w' = session w'
    /\ users (session w') !! (client_id client, user_id) = Some u'
    /\ devices u' = <[h := dev']> (devices u)
    /\ counter dev' = Some c'
    /\ authenticated_at dev' = Some (datetime_now env)
    /\ handle dev' = handle dev /\ bind_data dev' = bind_data dev
    /\ certificate dev' = certificate dev
    /\ compromised dev' = false /\ transports dev' = transports dev
    /\ (forall k, k <> (client_id client, user_id) ->
        users (session w') !! k = users (session w) !! k).
Proof.
  intros Hc (device & presence & hm & kh & Htx & Hca & Husr & Hhm & Hkh & Hh
             & Hdev & Hcomp & Hpres) Hlt Hprops.
  pose proof (get_user_resolved env request _ _ _ user_id
                (get_client_again env request _ _ _ Hc)) as Hu.
  pose proof (get_client_inv env request _ _ _ Hc) as Hw1.
  assert (session w1 = session w) as Hs1 by now subst w1.
  rewrite Hs1 in Hu.
  unfold _sign_response.
  rewrite (bind_Return _ _ _ _ _ Hc); cbv beta.
  rewrite (bind_Return _ _ _ _ _ Hu); cbv beta.
  unfold bind at 1. unfold store_retrieve at 1.
  assert (transactions w1 = transactions w) as -> by now subst w1.
  rewrite Htx.
  unfold bind at 1. rewrite Hca. simpl lift. unfold ret at 1.
  cbv beta iota. cbn [fst snd]. rewrite Husr.
  rewrite (bind_Return _ _ _ _ _ (handle_of_key_run _ _ _ _ _ _ Hhm Hkh Hh)).
  cbv beta iota.
  rewrite (devices_getitem_run _ _ _ _ _ Hdev); cbv beta. rewrite Hcomp.
  destruct (presence =? 0) eqn:Ep; [apply Z.eqb_eq in Ep; contradiction|].
  destruct (counter_or_minus_one (counter dev) <? c') eqn:Ec;
    [|apply Z.ltb_ge in Ec; lia].
  unfold getitem. rewrite Hprops.
  unfold put_device, db_session_commit.
  unfold lift, update_properties.
  repeat (rewrite ?bind_ret, ?bind_modify; cbv beta iota).
  match goal with
  | |- context [bind (describe env ?d) _ ?wf] =>
      destruct (describe_run env d wf) as (md & w' & Hd & Hst')
  end.
  rewrite (bind_Return _ _ _ _ _ Hd); cbv beta.
  destruct Hst' as (Hp' & Hs' & Ht' & _).
  assert (Hu1 : users (session w1) !! (client_id client, user_id) = Some u)
    by now rewrite Hs1.
  eexists _, w', _, _. split; [reflexivity|].
  rewrite Hp', Hs'.
  cbn [persisted session set_session set_persisted set_transactions].
  split; [reflexivity|]. split.
  { erewrite users_db_put_device; [reflexivity|].
    erewrite users_db_put_device; [reflexivity|].
    erewrite users_db_put_device; [reflexivity|].
    erewrite users_db_put_device; [reflexivity|exact Hu1]. }
  split; [simpl; now rewrite !insert_insert_eq|].
  do 5 (split; [reflexivity|]). split; [exact Hcomp|].
  split; [reflexivity|].
  intros k Hk. rewrite !users_db_put_device_ne by exact Hk.
  simpl. now rewrite Hs1.
Qed.

End Completions.

Section RoundTrips.

Context (env : Env) (request : Request).

Lemma handle_map_of_other (es : list (dict * dict * string * string))
  (hm : gmap string string) (kh : string) :
  kh ∉ (fun e => e.1.2) <$> es ->
  handle_map_of hm es !! kh = hm !! kh.
Proof.
  revert hm. induction es as [|x es IH]; intros hm Hnot; [reflexivity|].
  rewrite fmap_cons in Hnot. apply not_elem_of_cons in Hnot as [Hne Hnot].
  unfold handle_map_of. simpl. fold (handle_map_of (<[x.1.2 := x.2]> hm) es).
  rewrite IH by exact Hnot. now rewrite lookup_insert_ne.
Qed.

Lemma handle_map_of_lookup (es : list (dict * dict * string * string))
  (hm : gmap string string) (e : dict * dict * string * string) :
  NoDup ((fun e => e.1.2) <$> es) -> e ∈ es ->
  handle_map_of hm es !! e.1.2 = Some e.2.
Proof.
  revert hm. induction es as [|x es IH]; intros hm Hnd He.
  - now apply elem_of_nil in He.
  - rewrite fmap_cons in Hnd. apply NoDup_cons in Hnd as [Hx Hnd].
    unfold handle_map_of. simpl.
    fold (handle_map_of (<[x.1.2 := x.2]> hm) es).
    apply elem_of_cons in He as [->|He].
    + rewrite handle_map_of_other by exact Hx. apply lookup_insert_eq.
    + now apply IH.
Qed.

Lemma register_request_inv w w1 client user_id chal props data w' :
  get_client env request w = (Return client, w1) ->
  _register_request env request user_id chal props w = (Return data, w') ->
  exists rd0,
    transactions w' !! (client_id client, user_id, chal)
    = Some (<["properties" := props]> rd0)
    /\ session w' = session w.
Proof.
  intros Hc Hrun.
  pose proof (get_user_resolved env request _ _ _ user_id
                (get_client_again env request _ _ _ Hc)) as Hu.
  pose proof (get_client_inv env request _ _ _ Hc) as Hw1.
  assert (Hg1 : g_client w1 = Some client) by now subst w1.
  unfold _register_request in Hrun.
  rewrite (bind_Return _ _ _ _ _ Hc) in Hrun; cbv beta in Hrun.
  rewrite (bind_Return _ _ _ _ _ Hu) in Hrun; cbv beta in Hrun.
  apply bind_Return_inv in Hrun as (collected & w2 & Hcol & Hrun).
  assert (Hst : same_tables w1 w2).
  { destruct (users (session w1) !! (client_id client, user_id)) as [u|].
    - revert Hcol.
      apply (for_each_keeps (fun w => g_client w = Some client));
        [apply cached_client_kept| |exact Hg1].
      intros x wa ra wb. apply descriptor_and_key_same_tables.
    - injection Hcol as _ <-. apply same_tables_refl. }
  apply bind_Return_inv in Hrun as (rd0 & w3 & Hb & Hrun).
  apply lift_Return_inv in Hb as [_ ->].
  unfold store_store in Hrun. rewrite bind_modify in Hrun.
  apply bind_Return_inv in Hrun as (data0 & w4 & Hwrap & Hrun).
  apply lift_Return_inv in Hwrap as [_ ->].
  unfold ret in Hrun. injection Hrun as _ <-.
  exists rd0. split; [simpl; apply lookup_insert_eq|].
  destruct Hst as (_ & Hs & _). simpl. rewrite Hs. now subst w1.
Qed.

(** X18. Registration round trip: after begin-registration returned for
    properties [p], the completion that presents the same challenge in the
    caller's next request finds the record; if the engine accepts the
    response against that record and the attestation passes the trust
    policy, the completion returns, commits the new device with the
    begin-time properties [p] overridden by the response-time ones, and
    leaves no record under the challenge. *)
Theorem registration_round_trip (w w1 w' : World) (client : Client)
  (user_id chal : string) (p : dict) (data : dict)
  (response_data : RegisterResponseData) (reg : dict) (cert : string)
  (a : Attestation) :
  g_client w = None ->
  get_client env request w = (Return client, w1) ->
  _register_request env request user_id chal (JDict p) w = (Return data, w') ->
  challenge (rr_clientData (registerResponse response_data)) = chal ->
  (forall rd,
     transactions w' !! (client_id client, user_id, chal) = Some rd ->
     complete_registration env rd (registerResponse response_data)
       (valid_facets client) = Return (reg, cert)) ->
  (get_attestation env cert w').1 = Return (AttObject a) ->
  ALLOW_UNTRUSTED env = true \/ trusted a = true ->
  exists resp w'' u dev,
    _register_response env request user_id response_data
      (set_g_client None w') = (Return resp, w'')
    /\ users (persisted w'') !! (client_id client, user_id) = Some u
    /\ devices u !! fresh_handle env = Some dev
    /\ bind_data dev = reg
    /\ properties dev = rrd_properties response_data ∪ (p ∪ ∅)
    /\ transactions w'' !! (client_id client, user_id, chal) = None.
Proof.
  intros Hg Hc Hbegin Hchal Hengine Hatt Htrust.
  destruct (register_request_inv _ _ _ _ _ _ _ _ Hc Hbegin)
    as (rd0 & Htx & Hs).
  assert (Hcl : clients (session w') = clients (session w)) by now rewrite Hs.
  pose proof (get_client_next_request env request _ _ _ _ Hg Hc Hcl) as Hc2.
  subst chal.
  destruct (register_response_commits env request (set_g_client None w') _
              client user_id response_data (<["properties" := JDict p]> rd0)
              reg cert a p Hc2)
    as (md & w'' & u & Hrun & Hpers & _ & Ht & Hu & Hd).
  - exact Htx.
  - exact (Hengine _ Htx).
  - rewrite <- Hatt. now apply get_attestation_same_cache.
  - exact Htrust.
  - apply lookup_insert_eq.
  - eexists _, w'', u, _. split; [exact Hrun|]. rewrite Hpers.
    split; [exact Hu|]. split; [exact Hd|]. split; [reflexivity|].
    split; [reflexivity|]. rewrite Ht. apply lookup_delete_eq.
Qed.

Lemma sign_request_run w w1 client user_id chal props u entries w2 rd0 data :
  get_client env request w = (Return client, w1) ->
  users (session w) !! (client_id client, user_id) = Some u ->
  entries <> [] ->
  for_each (eligible_entry env request) (eligible_devices u) w1
  = (Return entries, w2) ->
  begin_authentication env (app_id client) (entry_key <$> entries) chal
  = Return rd0 ->
  RequestData_wrap env
    (data_for_client env
       (<["properties" := props]>
          (<["handleMap" := JDict (JStr <$> handle_map_of ∅ entries)]> rd0)))
  = Return data ->
  _sign_request env request user_id chal props w
  = (Return (<["descriptors" :=
                JList (JDict <$> (entry_descriptor <$> entries))]> data),
     set_transactions
       (<[(client_id client, user_id, chal) :=
            <["properties" := props]>
              (<["handleMap" := JDict (JStr <$> handle_map_of ∅ entries)]>
                 rd0)]> (transactions w2)) w2).
Proof.
  intros Hc Husr Hne Hfe Hb Hwrap.
  pose proof (get_user_resolved env request _ _ _ user_id
                (get_client_again env request _ _ _ Hc)) as Hu.
  assert (session w1 = session w) as Hs1
    by (rewrite (get_client_inv env request _ _ _ Hc); reflexivity).
  rewrite Hs1 in Hu.
  unfold _sign_request.
  rewrite (bind_Return _ _ _ _ _ Hc); cbv beta.
  rewrite (bind_Return _ _ _ _ _ Hu); cbv beta.
  rewrite Husr. rewrite bool_decide_eq_false_2.
  2:{ intros Hz. apply map_size_empty_iff in Hz.
      unfold eligible_devices, devices_values in Hfe.
      rewrite Hz, map_to_list_empty in Hfe. injection Hfe as <- _.
      now apply Hne. }
  unfold bind at 1.
  unfold eligible_devices, devices_values in Hfe.
  destruct (sign_request_loop_entries env request _ [] [] [] ∅ _ _ _
              string_keyed_empty Hfe) as (m' & Hloop & _ & _ & Himg).
  rewrite Hloop. cbn [fst snd].
  rewrite !app_nil_l.
  remember (entry_key <$> entries) as keys eqn:Ek in *.
  destruct keys as [|k0 keys].
  { symmetry in Ek. apply fmap_nil_inv in Ek. contradiction. }
  rewrite Himg, Hb. simpl lift. rewrite bind_ret.
  unfold store_store. rewrite bind_modify.
  rewrite Hwrap. reflexivity.
Qed.

(** X19. Authentication round trip.  Let begin-authentication run for a
    user whose collection is keyed by the handles of its devices and whose
    eligible devices have pairwise distinct key handles.  If, in the
    caller's next request, the engine accepts a response for the stored
    record and names the key handle of one of the entries, with presence
    set, then the completion finds the device of that entry through the
    stored handle map; the device is not compromised, and when the presented
    counter passes the counter test the completion returns a descriptor and
    commits that counter on that device. *)
Theorem authentication_round_trip (w w1 w2 : World) (client : Client)
  (user_id chal : string) (p : dict) (u : User)
  (entries : list (dict * dict * string * string)) (rd0 data : dict)
  (e : dict * dict * string * string)
  (response_data : SignResponseData) (device : dict) (c' presence : Z) :
  let rd := <["properties" := JDict p]>
              (<["handleMap" := JDict (JStr <$> handle_map_of ∅ entries)]> rd0)
  in
  g_client w = None ->
  get_client env request w = (Return client, w1) ->
  users (session w) !! (client_id client, user_id) = Some u ->
  (forall h d, devices u !! h = Some d -> handle d = h) ->
  for_each (eligible_entry env request) (eligible_devices u) w1
  = (Return entries, w2) ->
  NoDup ((fun e => e.1.2) <$> entries) ->
  begin_authentication env (app_id client) (entry_key <$> entries) chal
  = Return rd0 ->
  RequestData_wrap env (data_for_client env rd) = Return data ->
  e ∈ entries ->
  challenge (sr_clientData (signResponse response_data)) = chal ->
  complete_authentication env rd (signResponse response_data)
    (valid_facets client) = Return (device, c', presence) ->
  device !! "keyHandle" = Some (JStr e.1.2) ->
  presence <> 0 ->
  exists w' d,
    _sign_request env request user_id chal (JDict p) w
    = (Return (<["descriptors" :=
                  JList (JDict <$> (entry_descriptor <$> entries))]> data), w')
    /\ devices u !! e.2 = Some d /\ compromised d = false
    /\ (counter_or_minus_one (counter d) < c' ->
        exists resp w'' u' dev',
          _sign_response env request user_id response_data
            (set_g_client None w') = (Return (Some resp), w'')
          /\ users (persisted w'') !! (client_id client, user_id) = Some u'
          /\ devices u' !! e.2 = Some dev'
          /\ counter dev' = Some c').
Proof.
  intros rd Hg Hc Husr Hwf Hfe Hnd Hb Hwrap He Hchal Hca Hkh Hpres.
  assert (Hne : entries <> []).
  { intros ->. now apply elem_of_nil in He. }
  pose proof (sign_request_run _ _ _ _ _ _ _ _ _ _ _ Hc Husr Hne Hfe Hb Hwrap)
    as Hbegin.
  (* the device of the entry *)
  assert (Hrel := for_each_Forall2 _ _ _ _ _ Hfe).
  apply list_elem_of_lookup in He as (i & Hi).
  destruct (Forall2_lookup_r _ _ _ _ _ Hrel Hi) as (d & Hdi & w3 & w4 & Hent).
  assert (Hd : d ∈ eligible_devices u) by (apply list_elem_of_lookup; eauto).
  apply list_elem_of_filter in Hd as [Hcomp Hd].
  apply list_elem_of_fmap in Hd as ([h d'] & Heq & Hd). simpl in Heq. subst d'.
  apply elem_of_map_to_list in Hd.
  pose proof (Hwf _ _ Hd) as Hh.
  destruct (eligible_entry_inv env request _ _ _ _ Hent) as (He2 & _).
  assert (Hdev : devices u !! e.2 = Some d) by now rewrite He2, Hh.
  (* the worlds *)
  pose proof (get_client_inv env request _ _ _ Hc) as Hw1.
  assert (Hg1 : g_client w1 = Some client) by now subst w1.
  assert (Hst : same_tables w1 w2).
  { revert Hfe.
    apply (for_each_keeps (fun w => g_client w = Some client));
      [apply cached_client_kept| |exact Hg1].
    intros x wa ra wb. apply eligible_entry_same_tables. }
  destruct Hst as (_ & Hs2 & _).
  assert (Hs : session w2 = session w) by (rewrite Hs2; now subst w1).
  eexists _, d. split; [exact Hbegin|]. split; [exact Hdev|].
  split; [exact Hcomp|]. intros Hlt.
  match goal with
  | |- context [set_g_client None ?wb] => set (w' := wb)
  end.
  assert (Hcl : clients (session w') = clients (session w))
    by (unfold w'; simpl; now rewrite Hs).
  pose proof (get_client_next_request env request _ _ _ _ Hg Hc Hcl) as Hc2.
  destruct (sign_response_commits env request (set_g_client None w') _
              client user_id response_data rd c' u e.2 d p Hc2)
    as (md & w'' & u' & Hrun & Hpers & _ & _ & Hu' & Hd' & _).
  - exists device, presence, (JStr <$> handle_map_of ∅ entries), e.1.2.
    rewrite Hchal. unfold w'. simpl. rewrite Hs.
    split; [apply lookup_insert_eq|]. split; [exact Hca|].
    split; [exact Husr|].
    split; [unfold rd; rewrite lookup_insert_ne by discriminate;
            apply lookup_insert_eq|].
    split; [exact Hkh|]. split.
    + rewrite lookup_fmap, handle_map_of_lookup; [reflexivity|exact Hnd|].
      apply list_elem_of_lookup. eauto.
    + now repeat split.
  - exact Hlt.
  - apply lookup_insert_eq.
  - eexists _, w'', u', _. split; [exact Hrun|]. rewrite Hpers.
    split; [exact Hu'|]. split; [exact Hd'|]. reflexivity.
Qed.

End RoundTrips.

Section CeremonyInput.

Context (env : Env) (wire : Wire) (request : Request).

(** X20. Input errors of the two ceremony routes on POST, all raised before
    the client is resolved and with the world untouched: a body that does
    not parse raises the parser's error; a body that parses to null, a
    number or a boolean raises TypeError, and a list or a string without the
    response marker raises TypeError or AttributeError, none of which is an
    error of the taxonomy; a body with the response marker that the wrapper
    rejects raises the wrapper's error. *)
Theorem ceremony_route_input_errors (user_id : string) (w : World) :
  method request = POST ->
  (forall e, get_json request = Raise e ->
     register env wire request user_id w = (Raise e, w)
     /\ authenticate env wire request user_id w = (Raise e, w))
  /\ (forall body,
      get_json request = Return body ->
      (forall d, body <> JDict d) ->
      (py_in "registerResponse" body <> Return true ->
       exists e, register env wire request user_id w = (Raise e, w)
                 /\ kind_of e = Unhandled)
      /\ (py_in "signResponse" body <> Return true ->
          exists e, authenticate env wire request user_id w = (Raise e, w)
                    /\ kind_of e = Unhandled))
  /\ (forall body e,
      get_json request = Return body ->
      (py_in "registerResponse" body = Return true ->
       RegisterResponseData_wrap wire body = Raise e ->
       register env wire request user_id w = (Raise e, w))
      /\ (py_in "signResponse" body = Return true ->
          SignResponseData_wrap wire body = Raise e ->
          authenticate env wire request user_id w = (Raise e, w))).
Proof.
  intros Hm. split; [|split].
  - intros e He. unfold register, authenticate. rewrite Hm, He. now split.
  - intros body Hbody Hnd.
    assert (Hargs : forall has : bool,
      py_in "challenge" body = Return has ->
      exists e, challenge_and_properties wire body w = (Raise e, w)
                /\ kind_of e = Unhandled).
    { intros has Hin. unfold challenge_and_properties. rewrite Hin.
      simpl lift. rewrite bind_ret.
      destruct body as [| | | s | l | d]; try discriminate.
      - destruct has.
        + eexists. split; [reflexivity|reflexivity].
        + eexists. split; [reflexivity|reflexivity].
      - destruct has.
        + eexists. split; [reflexivity|reflexivity].
        + eexists. split; [reflexivity|reflexivity].
      - now destruct (Hnd d). }
    split.
    + intros Hno. unfold register. rewrite Hm, Hbody.
      simpl lift. rewrite bind_ret.
      destruct body as [| | | s | l | d];
        try (eexists; split; reflexivity).
      * destruct (py_in "registerResponse" (JStr s)) as [[|]|] eqn:E;
          try discriminate; [now destruct Hno|].
        simpl lift. rewrite bind_ret.
        destruct (Hargs _ eq_refl) as (e & He & Hk).
        exists e. split; [|exact Hk]. now rewrite (bind_Raise _ _ _ _ _ He).
      * destruct (py_in "registerResponse" (JList l)) as [[|]|] eqn:E;
          try discriminate; [now destruct Hno|].
        simpl lift. rewrite bind_ret.
        destruct (Hargs _ eq_refl) as (e & He & Hk).
        exists e. split; [|exact Hk]. now rewrite (bind_Raise _ _ _ _ _ He).
      * now destruct (Hnd d).
    + intros Hno. unfold authenticate. rewrite Hm, Hbody.
      simpl lift. rewrite bind_ret.
      destruct body as [| | | s | l | d];
        try (eexists; split; reflexivity).
      * destruct (py_in "signResponse" (JStr s)) as [[|]|] eqn:E;
          try discriminate; [now destruct Hno|].
        simpl lift. rewrite bind_ret.
        destruct (Hargs _ eq_refl) as (e & He & Hk).
        exists e. split; [|exact Hk]. now rewrite (bind_Raise _ _ _ _ _ He).
      * destruct (py_in "signResponse" (JList l)) as [[|]|] eqn:E;
          try discriminate; [now destruct Hno|].
        simpl lift. rewrite bind_ret.
        destruct (Hargs _ eq_refl) as (e & He & Hk).
        exists e. split; [|exact Hk]. now rewrite (bind_Raise _ _ _ _ _ He).
      * now destruct (Hnd d).
  - intros body e Hbody. split.
    + intros Hin Hwrap. unfold register. rewrite Hm, Hbody.
      simpl lift. rewrite bind_ret, Hin. simpl lift. rewrite bind_ret.
      now rewrite Hwrap.
    + intros Hin Hwrap. unfold authenticate. rewrite Hm, Hbody.
      simpl lift. rewrite bind_ret, Hin. simpl lift. rewrite bind_ret.
      now rewrite Hwrap.
Qed.

End CeremonyInput.

Section BeginRegistration.

Context (env : Env) (request : Request).

Lemma descriptor_and_key_inv dev w dk w' :
  descriptor_and_key env request dev w = (Return dk, w') ->
  (exists md, dk.1 = get_descriptor env dev (Some md))
  /\ (exists w1 w2,
        _get_registered_key env request dev dk.1 w1 = (Return dk.2, w2)).
Proof.
  unfold descriptor_and_key. intros H.
  apply bind_Return_inv in H as (descriptor & w1 & Hd & H).
  apply bind_Return_inv in H as (key & w2 & Hk & H).
  injection H as <- _. simpl. split.
  - destruct (describe_run env dev w) as (md & w1' & Hd' & _).
    rewrite Hd in Hd'. injection Hd' as -> _. now exists md.
  - now exists w1, w2.
Qed.

(** X21. Beginning a registration, for a resolved client.  For a user that
    does not exist the engine gets an empty list of registered keys and the
    answer carries an empty descriptor list.  For an existing user the
    engine gets one registered key for every device of the user, the
    compromised ones included, and the answer carries the descriptor of
    every device.  In both cases the record stored under (client id, user
    id, challenge) is the engine's request with the properties added. *)
Theorem register_request_lists_all_devices (w w1 : World) (client : Client)
  (user_id chal : string) (props : jvalue) :
  get_client env request w = (Return client, w1) ->
  (forall rd0 data,
     users (session w) !! (client_id client, user_id) = None ->
     begin_registration env (app_id client) [] chal = Return rd0 ->
     RequestData_wrap env
       (data_for_client env (<["properties" := props]> rd0)) = Return data ->
     _register_request env request user_id chal props w
     = (Return (<["descriptors" := JList []]> data),
        set_transactions
          (<[(client_id client, user_id, chal) :=
               <["properties" := props]> rd0]> (transactions w1)) w1))
  /\ (forall u collected w2 rd0 data,
     users (session w) !! (client_id client, user_id) = Some u ->
     for_each (descriptor_and_key env request) (devices_values u) w1
     = (Return collected, w2) ->
     begin_registration env (app_id client) collected.*2 chal = Return rd0 ->
     RequestData_wrap env
       (data_for_client env (<["properties" := props]> rd0)) = Return data ->
     _register_request env request user_id chal props w
     = (Return (<["descriptors" := JList (JDict <$> collected.*1)]> data),
        set_transactions
          (<[(client_id client, user_id, chal) :=
               <["properties" := props]> rd0]> (transactions w2)) w2)
     /\ Forall2
          (fun d dk =>
             (exists md, dk.1 = get_descriptor env d (Some md))
             /\ (exists w3 w4,
                   _get_registered_key env request d dk.1 w3
                   = (Return dk.2, w4)))
          (devices_values u) collected).
Proof.
  intros Hc.
  pose proof (get_user_resolved env request _ _ _ user_id
                (get_client_again env request _ _ _ Hc)) as Hu.
  assert (session w1 = session w) as Hs1
    by (rewrite (get_client_inv env request _ _ _ Hc); reflexivity).
  rewrite Hs1 in Hu.
  split.
  - intros rd0 data Hnone Hb Hwrap. unfold _register_request.
    rewrite (bind_Return _ _ _ _ _ Hc); cbv beta.
    rewrite (bind_Return _ _ _ _ _ Hu); cbv beta.
    rewrite Hnone, bind_ret. cbv zeta. simpl fmap.
    rewrite Hb. simpl lift. rewrite bind_ret.
    unfold store_store. rewrite bind_modify. now rewrite Hwrap.
  - intros u collected w2 rd0 data Hsome Hfe Hb Hwrap. split.
    + unfold _register_request.
      rewrite (bind_Return _ _ _ _ _ Hc); cbv beta.
      rewrite (bind_Return _ _ _ _ _ Hu); cbv beta.
      rewrite Hsome. rewrite (bind_Return _ _ _ _ _ Hfe). cbv beta zeta.
      rewrite Hb. simpl lift. rewrite bind_ret.
      unfold store_store. rewrite bind_modify. now rewrite Hwrap.
    + assert (Hrel := for_each_Forall2 _ _ _ _ _ Hfe).
      clear -Hrel. induction Hrel as [|d dk l k Hd _ IH]; constructor.
      * destruct Hd as (w3 & w4 & Hd).
        exact (descriptor_and_key_inv _ _ _ _ Hd).
      * exact IH.
Qed.

End BeginRegistration.

Section HandleMap.

Context (env : Env) (request : Request).

Lemma registered_key_keeps_key_handle dev descriptor w key w' :
  _get_registered_key env request dev descriptor w = (Return key, w') ->
  key !! "keyHandle" = bind_data dev !! "keyHandle".
Proof.
  intros H. pose proof H as H0. unfold _get_registered_key in H0.
  apply bind_Return_inv in H0 as (client & w1 & Hc & H0).
  apply bind_Return_inv in H0 as (t & w2 & Ht & _).
  unfold getitem in Ht.
  destruct (descriptor !! "transports") as [t0|] eqn:Et; [|discriminate].
  rewrite (get_registered_key_run env request _ _ _ _ _ _ Hc Et) in H.
  injection H as <- _.
  rewrite lookup_insert_ne by discriminate.
  set (key0 := match bind_data dev !! "appId" with
               | Some (JStr a) =>
                   if bool_decide (a = app_id client)
                   then delete "appId" (bind_data dev) else bind_data dev
               | _ => bind_data dev
               end).
  assert (Hk0 : key0 !! "keyHandle" = bind_data dev !! "keyHandle").
  { unfold key0.
    destruct (bind_data dev !! "appId") as [[| | |a| |]|]; try reflexivity.
    case_bool_decide; [|reflexivity]. now rewrite lookup_delete_ne. }
  cbv zeta. fold key0.
  destruct (key0 !! "version"); [exact Hk0|].
  now rewrite lookup_insert_ne.
Qed.

(** What the loop returns in general: the assignments to the handle map,
    one for each device that is not compromised, in order. *)
Lemma sign_request_loop_inv (items : list (string * Device))
  (ks ds ks' ds' : list dict) (m hm : pydict) (w w' : World) :
  sign_request_loop env request items ks ds m w = (Return (ks', ds', hm), w') ->
  exists kvs : pydict,
    Forall2 (fun d kv =>
               bind_data d !! "keyHandle" = Some kv.1
               /\ hashable kv.1 = true /\ kv.2 = handle d)
      (filter (fun d => compromised d = false) items.*2) kvs
    /\ hm = foldl (fun m kv => dict_set kv.1 kv.2 m) m kvs.
Proof.
  revert ks ds m w.
  induction items as [|[h dev] items IH]; intros ks ds m w Hrun.
  - injection Hrun as _ _ <- _. exists []. split; [constructor|reflexivity].
  - simpl sign_request_loop in Hrun. rewrite fmap_cons. simpl snd.
    destruct (compromised dev) eqn:Ec.
    + rewrite filter_cons_False by (rewrite Ec; discriminate).
      exact (IH _ _ _ _ Hrun).
    + rewrite filter_cons_True by exact Ec.
      apply bind_Return_inv in Hrun as (descriptor & wa & Hd & Hrun).
      apply bind_Return_inv in Hrun as (key & wb & Hk & Hrun).
      apply bind_Return_inv in Hrun as (kh & wc & Hg & Hrun).
      apply bind_Return_inv in Hrun as (m1 & wd & Hset & Hrun).
      unfold dict_setitem in Hset.
      destruct (hashable kh) eqn:Hh; [|discriminate].
      injection Hset as <- <-.
      destruct (IH _ _ _ _ Hrun) as (kvs & Hrel & ->).
      exists ((kh, handle dev) :: kvs). split; [|reflexivity].
      constructor; [|exact Hrel].
      split; [|split; [exact Hh|reflexivity]].
      unfold getitem in Hg.
      destruct (key !! "keyHandle") as [v|] eqn:Ekh; [|discriminate].
      injection Hg as <- <-.
      now rewrite <- (registered_key_keeps_key_handle _ _ _ _ _ Hk).
Qed.

Lemma fold_dict_set_item (kvs m : pydict) (k : jvalue) (h : string) :
  Forall (fun kv => hashable kv.1 = true) kvs ->
  (k, h) ∈ foldl (fun m kv => dict_set kv.1 kv.2 m) m kvs ->
  (k, h) ∈ m
  \/ exists kv, kv ∈ kvs /\ kv.2 = h /\ key_eqb k kv.1 = true.
Proof.
  revert m. induction kvs as [|kv kvs IH]; intros m Hh Hin; [now left|].
  apply Forall_cons in Hh as [Hkv Hh]. simpl in Hin.
  destruct (IH _ Hh Hin) as [Hset|(kv' & Hkv' & Hv & Hk)].
  - destruct (dict_set_item _ _ _ _ _ Hkv Hset) as [Hm|[Hv Hk]];
      [now left|].
    right. exists kv. split; [left|]. now split.
  - right. exists kv'. split; [now right|now split].
Qed.

Lemma fold_dict_set_get (kvs m : pydict) (k : jvalue) :
  Forall (fun kv => hashable kv.1 = true /\ key_eqb kv.1 k = false) kvs ->
  dict_get k (foldl (fun m kv => dict_set kv.1 kv.2 m) m kvs) = dict_get k m.
Proof.
  revert m. induction kvs as [|kv kvs IH]; intros m Hall; [reflexivity|].
  apply Forall_cons in Hall as [[Hh Hne] Hall]. simpl.
  rewrite (IH _ Hall), dict_get_set by exact Hh. now rewrite Hne.
Qed.

(** X17. The handle map that the loop of [_sign_request] builds.  When the
    loop returns, (1) every item of the map holds the handle of a device
    that is not compromised, under a key equal to the key handle in the
    bind data of that device; and (2) every device that is not compromised
    has a key handle in its bind data, under which the map holds the handle
    of that device when no device that is not compromised and has an equal
    key handle comes after it in the iteration: of several such devices the
    one met last is the one the map names. *)
Theorem handle_map_points_to_eligible_devices
  (items : list (string * Device)) (ks ds : list dict)
  (hm : pydict) (w w' : World) :
  sign_request_loop env request items [] [] [] w = (Return (ks, ds, hm), w') ->
  (forall k h, (k, h) ∈ hm ->
     exists d k', d ∈ items.*2 /\ compromised d = false /\ handle d = h
                  /\ bind_data d !! "keyHandle" = Some k'
                  /\ key_eqb k k' = true)
  /\ (forall before x d after,
      items = before ++ (x, d) :: after ->
      compromised d = false ->
      exists k,
        bind_data d !! "keyHandle" = Some k
        /\ ((forall d2 k2, d2 ∈ after.*2 -> compromised d2 = false ->
               bind_data d2 !! "keyHandle" = Some k2 ->
               key_eqb k2 k = false) ->
            dict_get k hm = Some (handle d))).
Proof.
  intros Hrun.
  destruct (sign_request_loop_inv _ _ _ _ _ _ _ _ _ Hrun) as (kvs & Hrel & ->).
  assert (Hhash : Forall (fun kv : jvalue * string => hashable kv.1 = true)
                    kvs).
  { clear -Hrel. induction Hrel as [|d kv l k (_ & Hh & _) _ IH];
      constructor; assumption. }
  split.
  - intros k h Hin.
    destruct (fold_dict_set_item _ _ _ _ Hhash Hin)
      as [Hnil|(kv & Hkv & Hv & Hk)]; [now apply elem_of_nil in Hnil|].
    apply list_elem_of_lookup in Hkv as (i & Hi).
    destruct (Forall2_lookup_r _ _ _ _ _ Hrel Hi) as (d & Hdi & Hkh & _ & Hd).
    assert (Hin' : d ∈ filter (fun d => compromised d = false) items.*2)
      by (apply list_elem_of_lookup; eauto).
    apply list_elem_of_filter in Hin' as [Hcomp Hin'].
    exists d, kv.1. split; [exact Hin'|]. split; [exact Hcomp|].
    split; [congruence|]. split; [exact Hkh|exact Hk].
  - intros before x d after -> Hcomp.
    rewrite fmap_app, fmap_cons, filter_app in Hrel. simpl snd in Hrel.
    rewrite filter_cons_True in Hrel by exact Hcomp.
    apply Forall2_app_inv_l in Hrel as (kvs1 & kvs' & _ & Hrel & ->).
    apply Forall2_cons_inv_l in Hrel as (kv & kvs2 & (Hkh & Hh & Hv) & Hrel & ->).
    exists kv.1. split; [exact Hkh|]. intros Hlast.
    rewrite foldl_app. simpl.
    rewrite fold_dict_set_get.
    + rewrite dict_get_set by exact Hh.
      rewrite (key_eqb_refl _ Hh). now rewrite Hv.
    + clear -Hrel Hlast.
      assert (Hall : forall d2, d2 ∈ filter (fun d => compromised d = false)
                                       after.*2 ->
                forall k2, bind_data d2 !! "keyHandle" = Some k2 ->
                key_eqb k2 kv.1 = false).
      { intros d2 Hd2 k2 Hk2.
        apply list_elem_of_filter in Hd2 as [Hc2 Hd2]. eauto. }
      clear Hlast.
      induction Hrel as [|d2 kv2 l2 k2 (Hk2 & Hh2 & _) _ IH]; constructor.
      * split; [exact Hh2|]. apply (Hall d2); [left|exact Hk2].
      * apply IH. intros d3 Hd3. apply Hall. now right.
Qed.

End HandleMap.

Section MissingObjects.

Context (env : Env) (request : Request).

(** X22. Two lookups of the authentication completion that fail outside
    the error taxonomy, after the transaction was consumed and the engine
    accepted the response: when the user does not exist (any more), reading
    [user.devices] raises AttributeError; when the user exists and the key
    handle named by the engine is not a key of the stored handle map, the
    subscript raises KeyError with that key handle.  Tables and session are
    as before in both cases. *)
Theorem sign_response_missing_objects (w w1 : World) (client : Client)
  (user_id : string) (response_data : SignResponseData) (rd device : dict)
  (c' presence : Z) :
  get_client env request w = (Return client, w1) ->
  transactions w
    !! (client_id client, user_id,
        challenge (sr_clientData (signResponse response_data))) = Some rd ->
  complete_authentication env rd (signResponse response_data)
    (valid_facets client) = Return (device, c', presence) ->
  (users (session w) !! (client_id client, user_id) = None ->
   exists w',
     _sign_response env request user_id response_data w
     = (Raise (AttributeError "devices"), w')
     /\ persisted w' = persisted w /\ session w' = session w)
  /\ (forall u hm kh,
      users (session w) !! (client_id client, user_id) = Some u ->
      rd !! "handleMap" = Some (JDict hm) ->
      device !! "keyHandle" = Some (JStr kh) ->
      hm !! kh = None ->
      exists w',
        _sign_response env request user_id response_data w
        = (Raise (KeyError (JStr kh)), w')
        /\ persisted w' = persisted w /\ session w' = session w).
Proof.
  intros Hc Htx Hca.
  pose proof (get_user_resolved env request _ _ _ user_id
                (get_client_again env request _ _ _ Hc)) as Hu.
  pose proof (get_client_inv env request _ _ _ Hc) as Hw1.
  assert (session w1 = session w) as Hs1 by now subst w1.
  rewrite Hs1 in Hu.
  assert (transactions w1 = transactions w) as Ht1 by now subst w1.
  split.
  - intros Hnone. eexists. split.
    + unfold _sign_response.
      rewrite (bind_Return _ _ _ _ _ Hc); cbv beta.
      rewrite (bind_Return _ _ _ _ _ Hu); cbv beta.
      unfold bind at 1. unfold store_retrieve at 1. rewrite Ht1, Htx.
      unfold bind at 1. rewrite Hca. simpl lift. unfold ret at 1.
      cbv beta iota. cbn [fst snd]. rewrite Hnone. reflexivity.
    + subst w1. now split.
  - intros u hm kh Husr Hhm Hkh Hmiss. eexists. split.
    + unfold _sign_response.
      rewrite (bind_Return _ _ _ _ _ Hc); cbv beta.
      rewrite (bind_Return _ _ _ _ _ Hu); cbv beta.
      unfold bind at 1. unfold store_retrieve at 1. rewrite Ht1, Htx.
      unfold bind at 1. rewrite Hca. simpl lift. unfold ret at 1.
      cbv beta iota. cbn [fst snd]. rewrite Husr.
      assert (Hhk : forall w0,
                handle_of_key rd device w0
                = (Raise (KeyError (JStr kh)), w0)).
      { intros w0. unfold handle_of_key, getitem, bind.
        rewrite Hhm, Hkh. unfold ret at 1 2. now rewrite Hmiss. }
      rewrite (bind_Raise _ _ _ _ _ (Hhk _)). reflexivity.
    + subst w1. now split.
Qed.

End MissingObjects.

(** * The further properties at the small installation *)

Lemma get_attestation_is_cached_witness :
  exists r w1,
    get_attestation SampleRoutes.vendor_env "der1" Sample.world = (r, w1)
    /\ get_attestation SampleRoutes.silent_env "der1" w1 = (r, w1).
Proof.
  destruct (get_attestation SampleRoutes.vendor_env "der1" Sample.world)
    as [r w1] eqn:Hrun.
  exists r, w1. split; [reflexivity|].
  exact (get_attestation_is_cached SampleRoutes.vendor_env
           SampleRoutes.silent_env "der1" "der1" Sample.world w1 r
           eq_refl Hrun).
Defined.

Lemma get_metadata_is_cached_witness :
  exists r w1,
    get_metadata SampleRoutes.vendor_env Sample.key1 Sample.world = (r, w1)
    /\ get_metadata SampleRoutes.silent_env
         (set_counter (Some 9) Sample.key1) w1 = (r, w1).
Proof.
  destruct (get_metadata SampleRoutes.vendor_env Sample.key1 Sample.world)
    as [r w1] eqn:Hrun.
  exists r, w1. split; [reflexivity|].
  exact (get_metadata_is_cached SampleRoutes.vendor_env
           SampleRoutes.silent_env Sample.key1
           (set_counter (Some 9) Sample.key1) Sample.world w1 r
           eq_refl Hrun).
Defined.

Lemma get_metadata_fresh_keys_witness :
  exists md w1,
    get_metadata SampleRoutes.vendor_env Sample.key1 Sample.world
    = (Return md, w1)
    /\ forall k v, md !! k = Some v ->
         (k = "vendor"%string \/ k = "device"%string) /\ truthy v = true.
Proof.
  destruct (get_metadata SampleRoutes.vendor_env Sample.key1 Sample.world)
    as [[md|e] w1] eqn:Hrun.
  - exists md, w1. split; [reflexivity|].
    exact (get_metadata_fresh_keys SampleRoutes.vendor_env Sample.key1
             Sample.world w1 md eq_refl Hrun).
  - exfalso. apply (returns_Raise _ _ _ Hrun). vm_compute. reflexivity.
Defined.

Lemma get_client_is_memoised_witness :
  get_client (Sample.env false) (Sample.request GET None)
    (set_g_client (Some Sample.rp) Sample.world)
  = (Return Sample.rp, set_g_client (Some Sample.rp) Sample.world).
Proof.
  destruct (get_client_is_memoised (Sample.env false)
              (Sample.request GET (Some "rp"%string)) Sample.world _ _
              (resolved_rp GET)) as [_ H].
  apply H.
Defined.

Lemma read_only_routes_change_nothing_witness :
  exists r w',
    user (Sample.env false) (Sample.request GET (Some "rp"%string)) "alice"
      Sample.world = (r, w')
    /\ unchanged Sample.world w'.
Proof.
  destruct (user (Sample.env false) (Sample.request GET (Some "rp"%string))
              "alice" Sample.world) as [r w'] eqn:Hrun.
  exists r, w'. split; [reflexivity|].
  destruct (read_only_routes_change_nothing (Sample.env false)
              (Sample.request GET (Some "rp"%string)) "alice" "d1"
              Sample.world w' r) as (_ & H & _).
  apply H; [discriminate|exact Hrun].
Defined.


Lemma user_delete_removes_user_witness :
  exists w',
    user (Sample.env false) (Sample.request DELETE (Some "rp"%string))
      "alice" Sample.world = (Return NoContent, w')
    /\ users (persisted w') !! (1, "alice"%string) = None
    /\ users (persisted w') !! (1, "bob"%string) = Some Sample.bob.
Proof.
  destruct (user_delete_removes_user (Sample.env false)
              (Sample.request DELETE (Some "rp"%string)) Sample.world _
              Sample.rp "alice" Sample.alice eq_refl (resolved_rp DELETE)
              eq_refl) as (w' & Hrun & _ & Hgone & Hothers & _).
  exists w'. split; [exact Hrun|]. split; [exact Hgone|].
  rewrite (Hothers (1, "bob"%string)) by discriminate. reflexivity.
Defined.

Lemma deleted_user_has_no_devices_witness :
  exists r w',
    user (Sample.env false) (Sample.request DELETE (Some "rp"%string))
      "alice" Sample.world = (r, w')
    /\ (_sign_request (Sample.env false)
          (Sample.request DELETE (Some "rp"%string)) "alice" "ch" (JDict ∅)
          (set_g_client None w')).1
       = Raise (NoEligibleDevicesException "No devices registered" []).
Proof.
  destruct (user (Sample.env false) (Sample.request DELETE (Some "rp"%string))
              "alice" Sample.world) as [r w'] eqn:Hrun.
  exists r, w'. split; [reflexivity|].
  exact (deleted_user_has_no_devices (Sample.env false)
           (Sample.request DELETE (Some "rp"%string)) Sample.world _ w'
           Sample.rp "alice" "ch" Sample.alice (JDict ∅) r eq_refl eq_refl
           (resolved_rp DELETE) eq_refl Hrun).
Defined.

Lemma device_delete_removes_device_witness :
  exists w' u',
    device (Sample.env false) (Sample.request DELETE (Some "rp"%string))
      "alice" "d1" Sample.world = (Return NoContent, w')
    /\ users (persisted w') !! (1, "alice"%string) = Some u'
    /\ devices u' !! "d1" = None
    /\ devices u' !! "d2" = Some Sample.key2.
Proof.
  destruct (device_delete_removes_device (Sample.env false)
              (Sample.request DELETE (Some "rp"%string)) Sample.world _
              Sample.rp "alice" "d1" Sample.alice Sample.key1 eq_refl
              (resolved_rp DELETE) eq_refl eq_refl)
    as (w' & u' & Hrun & Hp & Hu & _ & Hd & _).
  exists w', u'. split; [exact Hrun|]. rewrite Hp. split; [exact Hu|].
  rewrite Hd. split; reflexivity.
Defined.

Lemma device_post_merges_properties_witness :
  exists resp w' u' dev,
    device (Sample.env false)
      (SampleRoutes.request_with_body POST
         (Return (JDict (<["name" := JStr "z"]> ∅))))
      "alice" "d1" Sample.world = (Return resp, w')
    /\ users (persisted w') !! (1, "alice"%string) = Some u'
    /\ devices u' !! "d1" = Some dev
    /\ properties dev !! "name" = Some (JStr "z")
    /\ properties dev !! "slot" = Some (JInt 1)
    /\ counter dev = Some 0.
Proof.
  destruct (device_post_merges_properties (Sample.env false)
              (SampleRoutes.request_with_body POST
                 (Return (JDict (<["name" := JStr "z"]> ∅))))
              Sample.world (set_g_client (Some Sample.rp) Sample.world)
              Sample.rp "alice" "d1" Sample.alice Sample.key1
              (<["name" := JStr "z"]> ∅) eq_refl eq_refl eq_refl eq_refl
              eq_refl)
    as (md & w' & u' & Hrun & Hp & Hu & Hd & _).
  eexists _, w', u', _. split; [exact Hrun|]. rewrite Hp.
  split; [exact Hu|]. split; [exact Hd|]. repeat split.
Defined.

Lemma begin_changes_only_the_store_witness :
  exists r w',
    _sign_request (Sample.env false) (Sample.request GET (Some "rp"%string))
      "alice" "ch" (JDict ∅) Sample.world = (r, w')
    /\ persisted w' = persisted Sample.world
    /\ session w' = session Sample.world.
Proof.
  destruct (_sign_request (Sample.env false)
              (Sample.request GET (Some "rp"%string)) "alice" "ch" (JDict ∅)
              Sample.world) as [r w'] eqn:Hrun.
  exists r, w'. split; [reflexivity|].
  destruct (begin_changes_only_the_store (Sample.env false)
              (Sample.request GET (Some "rp"%string)) "alice" "ch" (JDict ∅)
              Sample.world w' r (or_intror Hrun)) as (Hp & Hs & _).
  now split.
Defined.

Lemma rejected_response_consumes_transaction_witness :
  exists w',
    _sign_response (Sample.env false)
      (Sample.request POST (Some "rp"%string)) "alice"
      SampleRoutes.unsigned_response Sample.world
    = (Raise (EngineError "invalid signature"), w')
    /\ persisted w' = persisted Sample.world
    /\ transactions w' !! (1, "alice"%string, "c-auth"%string) = None.
Proof.
  destruct (rejected_response_consumes_transaction (Sample.env false)
              (Sample.request POST (Some "rp"%string)) Sample.world _
              Sample.rp "alice" (EngineError "invalid signature")
              (resolved_rp POST)) as (_ & Hsign).
  destruct (Hsign SampleRoutes.unsigned_response Sample.auth_record
              eq_refl eq_refl) as (w' & Hrun & Hp & _ & Ht).
  exists w'. split; [exact Hrun|]. split; [exact Hp|].
  rewrite Ht. apply lookup_delete_eq.
Defined.

Lemma registration_adds_one_device_witness :
  exists resp w' u' dev,
    _register_response (Sample.env true)
      (Sample.request POST (Some "rp"%string)) "alice"
      Sample.register_response_data Sample.world = (Return resp, w')
    /\ users (persisted w') !! (1, "alice"%string) = Some u'
    /\ devices u' !! "d-new" = Some dev
    /\ devices u' !! "d1" = Some Sample.key1
    /\ size (devices u') = 3%nat
    /\ counter dev = None
    /\ transports dev = 5.
Proof.
  pose (a := {| trusted := false; vendor_info := JNull; device_info := JNull;
                att_transports := Some [4; 1] |}).
  destruct (registration_adds_one_device (Sample.env true)
              (Sample.request POST (Some "rp"%string)) Sample.world _
              Sample.rp "alice" Sample.register_response_data
              Sample.reg_record (<["keyHandle" := JStr "kh-new"]> ∅)
              "der-new" a
              (<["name" := JStr "a"]> (<["color" := JStr "red"]> ∅))
              (resolved_rp POST) eq_refl eq_refl eq_refl
              (or_introl eq_refl) eq_refl eq_refl)
    as (resp & w' & u' & dev & Hrun & Hu & _ & Hd & Hsize & Hkeep & _ & _ & _
        & Hc & _ & _ & Ht & _).
  exists resp, w', u', dev. split; [exact Hrun|]. split; [exact Hu|].
  split; [rewrite Hd; apply lookup_insert_eq|].
  split; [apply Hkeep; reflexivity|].
  split; [rewrite Hsize; reflexivity|].
  split; [exact Hc|]. rewrite Ht. reflexivity.
Defined.

Lemma device_checks_precede_counter_witness :
  compromised Sample.key2 = true
  /\ exists w',
       _sign_response (Sample.env false)
         (Sample.request POST (Some "rp"%string)) "alice"
         (Sample.sign_response_data "kh2" 9) SampleRoutes.stale_world
       = (Raise (BadInputException "Device is compromised"), w')
       /\ session w' = session SampleRoutes.stale_world.
Proof.
  split; [reflexivity|].
  destruct (device_checks_precede_counter (Sample.env false)
              (Sample.request POST (Some "rp"%string))
              SampleRoutes.stale_world
              (set_g_client (Some Sample.rp) SampleRoutes.stale_world)
              Sample.rp "alice" (Sample.sign_response_data "kh2" 9)
              SampleRoutes.stale_record 9 1 Sample.alice "d2" Sample.key2
              eq_refl)
    as (w' & Hrun & _ & Hs & _).
  - exists (<["keyHandle" := JStr "kh2"]> ∅),
      (<["kh1" := JStr "d1"]> (<["kh2" := JStr "d2"]> ∅)), "kh2"%string.
    repeat split.
  - left. reflexivity.
  - exists w'. split; [exact Hrun|exact Hs].
Defined.

Lemma counter_never_decreases_witness :
  exists r w' h dev u' dev',
    _sign_response (Sample.env false)
      (Sample.request POST (Some "rp"%string)) "alice"
      (Sample.sign_response_data "kh1" 3) Sample.world = (Return r, w')
    /\ devices Sample.alice !! h = Some dev
    /\ users (session w') !! (1, "alice"%string) = Some u'
    /\ devices u' !! h = Some dev'
    /\ (forall c, counter dev = Some c ->
        exists c2, counter dev' = Some c2 /\ c <= c2).
Proof.
  destruct (_sign_response (Sample.env false)
              (Sample.request POST (Some "rp"%string)) "alice"
              (Sample.sign_response_data "kh1" 3) Sample.world)
    as [[r|e] w'] eqn:Hrun.
  - destruct (counter_never_decreases (Sample.env false)
                (Sample.request POST (Some "rp"%string)) Sample.world _ w'
                Sample.rp "alice" (Sample.sign_response_data "kh1" 3) r
                (resolved_rp POST) Hrun)
      as (rd & c' & u & h & dev & u' & dev' & Hreach & Hu' & Hd' & Hmono & _).
    destruct Hreach as (device & presence & hm & kh & _ & _ & Hu & _ & _ & _
                        & Hd & _).
    assert (Hu0 : Some u = Some Sample.alice) by (rewrite <- Hu; reflexivity).
    injection Hu0 as ->.
    exists r, w', h, dev, u', dev'. split; [reflexivity|].
    split; [exact Hd|]. split; [exact Hu'|].
    split; [exact Hd'|exact Hmono].
  - exfalso. apply (returns_Raise _ _ _ Hrun). vm_compute. reflexivity.
Defined.

Lemma authentication_touches_one_device_witness :
  exists resp w' u' dev',
    _sign_response (Sample.env false)
      (Sample.request POST (Some "rp"%string)) "alice"
      (Sample.sign_response_data "kh1" 3) Sample.world
    = (Return (Some resp), w')
    /\ users (session w') !! (1, "alice"%string) = Some u'
    /\ devices u' !! "d1" = Some dev'
    /\ devices u' !! "d2" = Some Sample.key2
    /\ counter dev' = Some 3
    /\ bind_data dev' = bind_data Sample.key1
    /\ users (session w') !! (1, "bob"%string) = Some Sample.bob.
Proof.
  destruct (authentication_touches_one_device (Sample.env false)
              (Sample.request POST (Some "rp"%string)) Sample.world _
              Sample.rp "alice" (Sample.sign_response_data "kh1" 3)
              Sample.auth_record 3 Sample.alice "d1" Sample.key1
              (<["name" := JStr "b"]> (<["seen" := JBool true]> ∅))
              (resolved_rp POST))
    as (resp & w' & u' & dev' & Hrun & _ & Hu & Hd & Hc & _ & _ & Hb & _ & _
        & _ & Hothers).
  - exists (<["keyHandle" := JStr "kh1"]> ∅), 1,
      (<["kh1" := JStr "d1"]> ∅), "kh1"%string.
    repeat split; try reflexivity. discriminate.
  - reflexivity.
  - reflexivity.
  - exists resp, w', u', dev'. split; [exact Hrun|]. split; [exact Hu|].
    rewrite Hd. split; [apply lookup_insert_eq|].
    split; [reflexivity|]. split; [exact Hc|]. split; [exact Hb|].
    rewrite (Hothers (1, "bob"%string)) by discriminate. reflexivity.
Defined.

Lemma sample_handle_map :
  match (sign_request_loop (Sample.env false)
           (Sample.request GET (Some "rp"%string))
           [("d1"%string, Sample.key1); ("d2"%string, Sample.key2);
            ("d3"%string, SampleRoutes.key3)] [] [] []
           (set_g_client (Some Sample.rp) Sample.world)).1 with
  | Return collected => Some collected.2
  | Raise _ => None
  end = Some [(JStr "kh1", "d1"%string); (JInt 7, "d3"%string)].
Proof. vm_compute. reflexivity. Qed.

Lemma handle_map_points_to_eligible_devices_witness :
  exists ks ds hm w',
    sign_request_loop (Sample.env false)
      (Sample.request GET (Some "rp"%string))
      [("d1"%string, Sample.key1); ("d2"%string, Sample.key2);
       ("d3"%string, SampleRoutes.key3)] [] [] []
      (set_g_client (Some Sample.rp) Sample.world)
    = (Return (ks, ds, hm), w')
    /\ dict_get (JStr "kh1") hm = Some "d1"%string
    /\ dict_get (JInt 7) hm = Some "d3"%string
    /\ (forall k, (k, "d2"%string) ∉ hm)
    /\ json_of_handle_map hm !! "7" = Some (JStr "d3").
Proof.
  destruct (sign_request_loop (Sample.env false)
              (Sample.request GET (Some "rp"%string))
              [("d1"%string, Sample.key1); ("d2"%string, Sample.key2);
               ("d3"%string, SampleRoutes.key3)] [] [] []
              (set_g_client (Some Sample.rp) Sample.world))
    as [[[[ks ds] hm]|e] w'] eqn:Hrun.
  - destruct (handle_map_points_to_eligible_devices (Sample.env false)
                (Sample.request GET (Some "rp"%string)) _ _ _ _ _ _ Hrun)
      as (Hsound & Hlast).
    exists ks, ds, hm, w'. split; [reflexivity|].
    split; [|split; [|split]].
    + destruct (Hlast [] "d1"%string Sample.key1
                  [("d2"%string, Sample.key2);
                   ("d3"%string, SampleRoutes.key3)] eq_refl eq_refl)
        as (k & Hk & Hget).
      assert (Hk1 : Some k = Some (JStr "kh1"))
        by (rewrite <- Hk; reflexivity).
      injection Hk1 as ->. apply Hget. intros d2 k2 Hd2 Hc2 Hk2.
      apply elem_of_cons in Hd2 as [->|Hd2]; [discriminate|].
      apply list_elem_of_singleton in Hd2. subst d2.
      assert (Hk3 : Some k2 = Some (JInt 7)) by (rewrite <- Hk2; reflexivity).
      injection Hk3 as ->. reflexivity.
    + destruct (Hlast [("d1"%string, Sample.key1);
                       ("d2"%string, Sample.key2)]
                  "d3"%string SampleRoutes.key3 [] eq_refl eq_refl)
        as (k & Hk & Hget).
      assert (Hk1 : Some k = Some (JInt 7)) by (rewrite <- Hk; reflexivity).
      injection Hk1 as ->. apply Hget. intros d2 k2 Hd2.
      now apply elem_of_nil in Hd2.
    + intros k Hin.
      destruct (Hsound _ _ Hin) as (d & k' & Hd & Hc & Hh & _).
      apply elem_of_cons in Hd as [->|Hd]; [discriminate|].
      apply elem_of_cons in Hd as [->|Hd]; [discriminate|].
      apply list_elem_of_singleton in Hd. subst d. discriminate.
    + pose proof sample_handle_map as Hhm. rewrite Hrun in Hhm.
      cbn [fst snd] in Hhm. injection Hhm as ->. reflexivity.
  - exfalso. apply (returns_Raise _ _ _ Hrun). vm_compute. reflexivity.
Defined.

Lemma registration_round_trip_witness :
  exists data w' resp w'' u dev,
    _register_request (Sample.env true)
      (Sample.request POST (Some "rp"%string)) "carol" "c9"
      (JDict (<["name" := JStr "a"]> (<["color" := JStr "red"]> ∅)))
      Sample.world = (Return data, w')
    /\ _register_response (Sample.env true)
         (Sample.request POST (Some "rp"%string)) "carol"
         (SampleRoutes.register_response_for "c9") (set_g_client None w')
       = (Return resp, w'')
    /\ users (persisted w'') !! (1, "carol"%string) = Some u
    /\ devices u !! "d-new" = Some dev
    /\ properties dev !! "name" = Some (JStr "b")
    /\ properties dev !! "color" = Some (JStr "red")
    /\ transactions w'' !! (1, "carol"%string, "c9"%string) = None.
Proof.
  pose (a := {| trusted := false; vendor_info := JNull; device_info := JNull;
                att_transports := Some [4; 1] |}).
  destruct (_register_request (Sample.env true)
              (Sample.request POST (Some "rp"%string)) "carol" "c9"
              (JDict (<["name" := JStr "a"]> (<["color" := JStr "red"]> ∅)))
              Sample.world) as [[data|e] w'] eqn:Hbegin.
  - destruct (registration_round_trip (Sample.env true)
                (Sample.request POST (Some "rp"%string)) Sample.world _ w'
                Sample.rp "carol" "c9"
                (<["name" := JStr "a"]> (<["color" := JStr "red"]> ∅)) data
                (SampleRoutes.register_response_for "c9")
                (<["keyHandle" := JStr "kh-new"]> ∅) "der-new" a
                eq_refl (resolved_rp POST) Hbegin eq_refl)
      as (resp & w'' & u & dev & Hrun & Hu & Hd & _ & Hp & Ht).
    + intros rd _. reflexivity.
    + assert (Hcache : attestation_cache w' = ∅).
      { assert (H : (let (_, w0) :=
                       _register_request (Sample.env true)
                         (Sample.request POST (Some "rp"%string)) "carol" "c9"
                         (JDict (<["name" := JStr "a"]>
                                   (<["color" := JStr "red"]> ∅)))
                         Sample.world in
                     match map_to_list (attestation_cache w0) with
                     | [] => true
                     | _ => false
                     end) = true) by (vm_compute; reflexivity).
        rewrite Hbegin in H.
        destruct (map_to_list (attestation_cache w')) eqn:E; [|discriminate].
        now apply map_to_list_empty_iff in E. }
      rewrite (get_attestation_same_cache (Sample.env true) "der-new"
                 Sample.world w' Hcache).
      reflexivity.
    + left. reflexivity.
    + exists data, w', resp, w'', u, dev. split; [reflexivity|].
      split; [exact Hrun|]. split; [exact Hu|]. split; [exact Hd|].
      rewrite Hp. repeat split. exact Ht.
  - exfalso. apply (returns_Raise _ _ _ Hbegin). vm_compute. reflexivity.
Defined.

Lemma sample_alice_keyed (h : string) (d : Device) :
  devices Sample.alice !! h = Some d -> handle d = h.
Proof.
  unfold Sample.alice. simpl.
  destruct (decide (h = "d1"%string)) as [->|H1].
  - rewrite lookup_insert_eq. now intros [= <-].
  - rewrite lookup_insert_ne by congruence.
    destruct (decide (h = "d2"%string)) as [->|H2].
    + rewrite lookup_insert_eq. now intros [= <-].
    + rewrite lookup_insert_ne by congruence. rewrite lookup_empty.
      discriminate.
Qed.

Lemma authentication_round_trip_witness :
  exists data w' resp w'' u' dev',
    _sign_request (Sample.env false) (Sample.request POST (Some "rp"%string))
      "alice" "c-auth" (JDict ∅) Sample.world = (Return data, w')
    /\ _sign_response (Sample.env false)
         (Sample.request POST (Some "rp"%string)) "alice"
         (Sample.sign_response_data "kh1" 3) (set_g_client None w')
       = (Return (Some resp), w'')
    /\ users (persisted w'') !! (1, "alice"%string) = Some u'
    /\ devices u' !! "d1" = Some dev'
    /\ counter dev' = Some 3.
Proof.
  destruct (for_each (eligible_entry (Sample.env false)
                        (Sample.request POST (Some "rp"%string)))
              (eligible_devices Sample.alice)
              (set_g_client (Some Sample.rp) Sample.world))
    as [[entries|err] w2] eqn:Hfe.
  2:{ exfalso. apply (returns_Raise _ _ _ Hfe). vm_compute. reflexivity. }
  assert (Hshape :
    match (for_each (eligible_entry (Sample.env false)
                       (Sample.request POST (Some "rp"%string)))
             (eligible_devices Sample.alice)
             (set_g_client (Some Sample.rp) Sample.world)).1 with
    | Return es => (fun e => (e.1.2, e.2)) <$> es
    | Raise _ => []
    end = [("kh1"%string, "d1"%string)]) by (vm_compute; reflexivity).
  rewrite Hfe in Hshape. simpl in Hshape.
  destruct entries as [|e [|e2 rest]]; try discriminate.
  injection Hshape as Hkh Hh.
  pose (rd0 := <["appId" := JStr "https://rp.example"]>
                 (<["challenge" := JStr "c-auth"]>
                 (<["registeredKeys" :=
                     JList (JDict <$> (entry_key <$> [e]))]> ∅)) : dict).
  edestruct (authentication_round_trip (Sample.env false)
               (Sample.request POST (Some "rp"%string)) Sample.world _ w2
               Sample.rp "alice" "c-auth" ∅ Sample.alice [e] rd0
               (<["properties" := JDict ∅]>
                  (<["handleMap" := JDict (JStr <$> handle_map_of ∅ [e])]>
                     rd0)) e
               (Sample.sign_response_data "kh1" 3)
               (<["keyHandle" := JStr "kh1"]> ∅) 3 1
               eq_refl (resolved_rp POST) eq_refl sample_alice_keyed Hfe)
    as (w' & d & Hbegin & Hd & _ & Hcomplete).
  - apply NoDup_singleton.
  - reflexivity.
  - reflexivity.
  - left.
  - reflexivity.
  - reflexivity.
  - rewrite Hkh. reflexivity.
  - discriminate.
  - rewrite Hh in Hd.
    assert (Hd0 : Some d = Some Sample.key1) by (rewrite <- Hd; reflexivity).
    injection Hd0 as ->.
    destruct Hcomplete as (resp & w'' & u' & dev' & Hrun & Hu & Hdev & Hc).
    { vm_compute. reflexivity. }
    rewrite Hh in Hdev.
    eexists _, w', resp, w'', u', dev'. split; [exact Hbegin|].
    split; [exact Hrun|]. split; [exact Hu|]. split; [exact Hdev|exact Hc].
Defined.

Lemma ceremony_route_input_errors_witness :
  register (Sample.env false) SampleRoutes.wire
    (SampleRoutes.request_with_body POST (Return JNull)) "alice" Sample.world
  = (Raise (TypeError "argument is not iterable"), Sample.world)
  /\ authenticate (Sample.env false) SampleRoutes.wire
       (SampleRoutes.request_with_body POST
          (Return (JDict (<["signResponse" := JDict ∅]> ∅))))
       "alice" Sample.world
     = (Raise (BadInputException "Missing required fields"), Sample.world)
  /\ exists e,
       register (Sample.env false) SampleRoutes.wire
         (SampleRoutes.request_with_body POST
            (Return (JList [JStr "challenge"]))) "alice" Sample.world
       = (Raise e, Sample.world)
       /\ kind_of e = Unhandled.
Proof.
  destruct (ceremony_route_input_errors (Sample.env false) SampleRoutes.wire
              (SampleRoutes.request_with_body POST
                 (Return (JDict (<["signResponse" := JDict ∅]> ∅))))
              "alice" Sample.world eq_refl) as (_ & _ & Hwrap).
  destruct (ceremony_route_input_errors (Sample.env false) SampleRoutes.wire
              (SampleRoutes.request_with_body POST
                 (Return (JList [JStr "challenge"])))
              "alice" Sample.world eq_refl) as (_ & Hlist & _).
  split; [reflexivity|]. split.
  - apply (Hwrap _ _ eq_refl); reflexivity.
  - apply (Hlist _ eq_refl); [discriminate|discriminate].
Defined.

Lemma register_request_lists_all_devices_witness :
  (exists data w',
     _register_request (Sample.env false)
       (Sample.request GET (Some "rp"%string)) "carol" "ch" (JDict ∅)
       Sample.world = (Return data, w')
     /\ data !! "descriptors" = Some (JList [])
     /\ data !! "registeredKeys" = Some (JList []))
  /\ (exists data w' ds,
     _register_request (Sample.env false)
       (Sample.request GET (Some "rp"%string)) "alice" "ch" (JDict ∅)
       Sample.world = (Return data, w')
     /\ data !! "descriptors" = Some (JList ds) /\ length ds = 2%nat).
Proof.
  destruct (register_request_lists_all_devices (Sample.env false)
              (Sample.request GET (Some "rp"%string)) Sample.world _
              Sample.rp "carol" "ch" (JDict ∅) (resolved_rp GET))
    as (Hnone & _).
  destruct (register_request_lists_all_devices (Sample.env false)
              (Sample.request GET (Some "rp"%string)) Sample.world _
              Sample.rp "alice" "ch" (JDict ∅) (resolved_rp GET))
    as (_ & Hsome).
  split.
  - eexists _, _. split; [apply Hnone; reflexivity|]. split; reflexivity.
  - destruct (for_each (descriptor_and_key (Sample.env false)
                          (Sample.request GET (Some "rp"%string)))
                (devices_values Sample.alice)
                (set_g_client (Some Sample.rp) Sample.world))
      as [[collected|err] w2] eqn:Hfe.
    + destruct (Hsome Sample.alice collected w2 _ _ eq_refl Hfe eq_refl
                  eq_refl) as (Hrun & Hrel).
      eexists _, _, _. split; [exact Hrun|]. split; [reflexivity|].
      rewrite !length_fmap. apply Forall2_length in Hrel.
      rewrite <- Hrel. reflexivity.
    + exfalso. apply (returns_Raise _ _ _ Hfe). vm_compute. reflexivity.
Defined.

Lemma sign_response_missing_objects_witness :
  (exists w',
     _sign_response (Sample.env false)
       (Sample.request POST (Some "rp"%string)) "carol"
       (Sample.sign_response_data "kh1" 3)
       (set_transactions
          (<[(1, "carol"%string, "c-auth"%string) := Sample.auth_record]> ∅)
          Sample.world)
     = (Raise (AttributeError "devices"), w'))
  /\ (exists w',
     _sign_response (Sample.env false)
       (Sample.request POST (Some "rp"%string)) "alice"
       (Sample.sign_response_data "kh7" 3) Sample.world
     = (Raise (KeyError (JStr "kh7")), w')
     /\ session w' = session Sample.world).
Proof.
  split.
  - assert (Htx : transactions
                    (set_transactions
                       (<[(1, "carol"%string, "c-auth"%string) :=
                            Sample.auth_record]> ∅) Sample.world)
                  !! (1, "carol"%string, "c-auth"%string)
                  = Some Sample.auth_record)
      by (vm_compute; reflexivity).
    assert (Hnone : users Sample.tables !! (1, "carol"%string) = None)
      by (vm_compute; reflexivity).
    destruct (sign_response_missing_objects (Sample.env false)
                (Sample.request POST (Some "rp"%string))
                (set_transactions
                   (<[(1, "carol"%string, "c-auth"%string) :=
                        Sample.auth_record]> ∅) Sample.world) _
                Sample.rp "carol" (Sample.sign_response_data "kh1" 3)
                Sample.auth_record (<["keyHandle" := JStr "kh1"]> ∅) 3 1
                eq_refl Htx eq_refl) as (Hmissing & _).
    destruct (Hmissing Hnone) as (w' & Hrun & _). exists w'. exact Hrun.
  - destruct (sign_response_missing_objects (Sample.env false)
                (Sample.request POST (Some "rp"%string)) Sample.world _
                Sample.rp "alice" (Sample.sign_response_data "kh7" 3)
                Sample.auth_record (<["keyHandle" := JStr "kh7"]> ∅) 3 1
                (resolved_rp POST) eq_refl eq_refl) as (_ & Hkey).
    destruct (Hkey Sample.alice (<["kh1" := JStr "d1"]> ∅) "kh7"%string
                eq_refl eq_refl eq_refl eq_refl) as (w' & Hrun & _ & Hs).
    exists w'. split; [exact Hrun|exact Hs].
Defined.
